(** * Victor: the orchestration pipeline of Fragmenstein

    A shallow embedding of [fragmenstein/victor/__init__.py] (class
    [Victor]) and the properties of its pipeline: the failure boundary of
    the constructor, input validation, warhead selection, the constraint
    text, the coordinate restraints and the merged structure.

    Conventions of the embedding.
    - Python [str] is [string] (bytes; the regular-expression classes [\d],
      [\D], [\W] are the ASCII ones).
    - Python [float] values (coordinates, per-atom spread) are exact
      rationals [Q]; the only arithmetic of the module is [std[i] + 1].
    - A Python exception is a class name and a message, the two things
      the handler of the constructor prints, and whether it is an instance
      of [Exception], which is what [except Exception] catches
      ([KeyboardInterrupt] and [SystemExit] are not).
    - The methods run in a monad over the mutable part of the object and
      of its surroundings (journal, directories, files); the state
      survives a raised exception, as in Python.
    - The libraries the class drives (RDKit, rdkit_to_params, PyMOL,
      PyRosetta) and the sibling modules of the package (Fragmenstein,
      Egor, mRMSD) are a record of collaborators, [External]; the class
      attributes ([warhead_definitions], [covalent_definitions],
      [_connected_names], [work_path]), which the module inherits, are a
      record [Config].
    - The file system is a list of directories and a list of the files
      written; [os.mkdir] and writing a file succeed, so that what is
      stated of a call that makes a directory or writes a file is stated of
      the calls that return.
    - PyMOL is a list of atoms and selections by name, residue and chain;
      names are compared as they are written, which is PyMOL's comparison
      for names without lower-case letters (PyMOL ignores case).
    - A [Constraints] object is true in a condition, as any object whose
      class defines neither [__bool__] nor [__len__]. *)

From Stdlib Require Import String Ascii List ZArith QArith Bool Lia DecimalString.
From Stdlib Require DecimalPos DecimalZ.
Import ListNotations.
Open Scope string_scope.

(** ** Python strings *)

Module Py.

Definition is_digit (c : ascii) : bool :=
  let n := nat_of_ascii c in (48 <=? n)%nat && (n <=? 57)%nat.

Definition is_upper (c : ascii) : bool :=
  let n := nat_of_ascii c in (65 <=? n)%nat && (n <=? 90)%nat.

Definition is_lower (c : ascii) : bool :=
  let n := nat_of_ascii c in (97 <=? n)%nat && (n <=? 122)%nat.

(** [\w] without the underscore: what [slugify] keeps. *)
Definition is_alnum (c : ascii) : bool :=
  is_digit c || is_upper c || is_lower c.

(** [str.isspace] on one ASCII character. *)
Definition is_space (c : ascii) : bool :=
  let n := nat_of_ascii c in
  ((9 <=? n)%nat && (n <=? 13)%nat) || ((28 <=? n)%nat && (n <=? 32)%nat).

Definition upper_char (c : ascii) : ascii :=
  if is_lower c then ascii_of_nat (nat_of_ascii c - 32) else c.

(** [s.upper()] *)
Fixpoint upper (s : string) : string :=
  match s with
  | EmptyString => EmptyString
  | String c r => String (upper_char c) (upper r)
  end.

(** [c in s] for a one-character [c]. *)
Fixpoint contains (c : ascii) (s : string) : bool :=
  match s with
  | EmptyString => false
  | String d r => Ascii.eqb c d || contains c r
  end.

(** [x in names] for a tuple or list of strings. *)
Definition mem (x : string) (names : list string) : bool :=
  existsb (String.eqb x) names.

(** Truthiness of a string. *)
Definition truthy (s : string) : bool :=
  match s with EmptyString => false | _ => true end.

(** Truthiness of an optional string ([None] and [''] are false). *)
Definition truthy_opt (o : option string) : bool :=
  match o with Some s => truthy s | None => false end.

(** The longest prefix of digits and what follows it. *)
Fixpoint span_digits (s : string) : string * string :=
  match s with
  | EmptyString => (EmptyString, EmptyString)
  | String c r =>
      if is_digit c
      then let (d, t) := span_digits r in (String c d, t)
      else (EmptyString, s)
  end.

(** [re.match('(\d+)', s)]: [Some] of group 1, [None] when [s] does not
    start with a digit. *)
Definition match_digits (s : string) : option string :=
  match span_digits s with
  | (EmptyString, _) => None
  | (d, _) => Some d
  end.

(** [re.match('(\d+)(\D?)', s)]: [Some] of the two groups.  The digits
    are taken greedily, so the next character, when there is one, is
    not a digit and is the second group. *)
Definition match_resi (s : string) : option (string * string) :=
  match span_digits s with
  | (EmptyString, _) => None
  | (d, EmptyString) => Some (d, EmptyString)
  | (d, String c _) => Some (d, String c EmptyString)
  end.

(** [re.sub(r'[\W_.-]+', '-', name)]: every maximal run of characters
    that are not letters or digits becomes one dash.  [run] tells that
    the previous character was already replaced. *)
Fixpoint slug (run : bool) (s : string) : string :=
  match s with
  | EmptyString => EmptyString
  | String c r =>
      if is_alnum c then String c (slug false r)
      else if run then slug true r
      else String "-" (slug true r)
  end.

Fixpoint lstrip (s : string) : string :=
  match s with
  | EmptyString => EmptyString
  | String c r => if is_space c then lstrip r else s
  end.

Fixpoint rstrip (s : string) : string :=
  match s with
  | EmptyString => EmptyString
  | String c r =>
      match rstrip r with
      | EmptyString => if is_space c then EmptyString else String c EmptyString
      | r' => String c r'
      end
  end.

(** [s.strip()] *)
Definition strip (s : string) : string := rstrip (lstrip s).

Fixpoint spaces (n : nat) : string :=
  match n with O => EmptyString | S k => String " " (spaces k) end.

(** [f'{s: >w}']: right-aligned in a field of [w] characters. *)
Definition rjust (w : nat) (s : string) : string :=
  spaces (w - String.length s) ++ s.

(** [str(n)] for an integer. *)
Definition str_int (n : Z) : string := NilZero.string_of_int (Z.to_int n).

(** [s.startswith('/')] and [s.endswith('/')] *)
Definition is_absolute (s : string) : bool :=
  match s with
  | String c _ => Ascii.eqb c "/"
  | EmptyString => false
  end.

Fixpoint ends_with_slash (s : string) : bool :=
  match s with
  | EmptyString => false
  | String c EmptyString => Ascii.eqb c "/"
  | String _ r => ends_with_slash r
  end.

(** One step of [os.path.join] ([posixpath]): an absolute component
    discards what came before it; no separator is added after an empty
    path or a path that ends with one. *)
Definition join2 (path b : string) : string :=
  if is_absolute b then b
  else if negb (truthy path) || ends_with_slash path then path ++ b
  else path ++ "/" ++ b.

(** [os.path.join(a, *p)] *)
Definition path_join (parts : list string) : string :=
  match parts with
  | [] => EmptyString
  | a :: p => fold_left join2 p a
  end.

End Py.

(** ** Values and exceptions *)

Definition nl : string := String (ascii_of_nat 10) EmptyString.

Definition dquote : string := String (ascii_of_nat 34) EmptyString.

(** The dash of the handler's message, U+2014 in UTF-8. *)
Definition em_dash : string :=
  String (ascii_of_nat 226) (String (ascii_of_nat 128) (String (ascii_of_nat 148) EmptyString)).

(** An exception: [err.__class__.__name__], [str(err)], and whether
    [isinstance(err, Exception)], which is what [except Exception] looks
    at. *)
Record exn : Type := mkBaseException {
  exn_class : string;
  exn_msg : string;
  is_Exception : bool
}.

(** An instance of a class under [Exception]. *)
Definition mkExn (class msg : string) : exn := mkBaseException class msg true.

(** The classes that derive from [BaseException] only. *)
Definition KeyboardInterrupt : exn := mkBaseException "KeyboardInterrupt" "" false.
Definition SystemExit (code : string) : exn := mkBaseException "SystemExit" code false.

Definition ValueError (msg : string) : exn := mkExn "ValueError" msg.
Definition AssertionError (msg : string) : exn := mkExn "AssertionError" msg.
Definition AttributeError (msg : string) : exn := mkExn "AttributeError" msg.
Definition IndexError (msg : string) : exn := mkExn "IndexError" msg.
Definition TypeError (msg : string) : exn := mkExn "TypeError" msg.

Definition no_attribute (obj attr : string) : exn :=
  AttributeError ("'" ++ obj ++ "' object has no attribute '" ++ attr ++ "'").

Inductive result (A : Type) : Type :=
| Ok (a : A)
| Raise (e : exn).
Arguments Ok {A} a.
Arguments Raise {A} e.

(** A caught warning: [w.message] and [w.category]. *)
Record warning : Type := mkWarning { w_message : string; w_category : string }.

(** A call into a collaborator: the warnings it issued and its return
    value or exception. *)
Definition ext (A : Type) : Type := (list warning * result A)%type.

Definition returns {A : Type} (a : A) : ext A := ([], Ok a).
Definition fails {A : Type} (e : exn) : ext A := ([], Raise e).

(** A residue locator, [Union[int, str]]. *)
Inductive resi : Type :=
| ResiInt (n : Z)
| ResiStr (s : string).

Definition str_resi (r : resi) : string :=
  match r with
  | ResiInt n => Py.str_int n
  | ResiStr s => s
  end.

(** [str(x)] for [Optional[Union[int, str]]]. *)
Definition str_opt_resi (o : option resi) : string :=
  match o with
  | None => "None"
  | Some r => str_resi r
  end.

(** What can be handed to [w.write]. *)
Inductive pyobj : Type :=
| PyStr (s : string)
| PyFloat (x : Q).

#[local] Unset Elimination Schemes.
Inductive json : Type :=
| JString (s : string)
| JNumber (x : Q)
| JBool (b : bool)
| JNull
| JList (l : list json)
| JObject (items : list (string * json)).
#[local] Set Elimination Schemes.

Definition json_keys (j : json) : list string :=
  match j with
  | JObject items => map fst items
  | _ => []
  end.

(** The content of a written file. *)
Inductive content : Type :=
| Text (s : string)
| Json (j : json).

(** ** Molecules and the catalogues *)

Record Atom : Type := mkAtom {
  GetSymbol : string;                 (* element symbol, '*' for a dummy *)
  PDBResidueInfo_name : option string; (* GetPDBResidueInfo().GetName() *)
  AtomPosition : Q * Q * Q            (* conformer position *)
}.

Record Mol : Type := mkMol {
  atoms : list Atom;
  prop_Name : option string           (* the "_Name" property *)
}.

Definition GetNumAtoms (m : Mol) : nat := List.length (atoms m).

(** The attributes of an rdkit_to_params [Params] the class touches. *)
Record Params : Type := mkParams {
  NAME : string;
  params_mol : Mol;
  CHI_data : list string;
  CONNECT : list string               (* the atom_name of each entry *)
}.

Definition set_CHI_data (d : list string) (p : Params) : Params :=
  mkParams (NAME p) (params_mol p) d (CONNECT p).

(** An entry of [warhead_definitions]; ['constraint'] is an optional key. *)
Record WarheadDefinition : Type := mkWarhead {
  war_name : string;
  war_covalent : string;
  war_covalent_atomnames : list string;
  war_noncovalent : string;
  war_noncovalent_atomnames : list string;
  war_constraint : option string
}.

(** An entry of [covalent_definitions]. *)
Record CovalentDefinition : Type := mkCovalent {
  cov_residue : string;
  cov_smiles : string;
  cov_atomnames : list string
}.

(** The attributes of an rdkit_to_params [Constraints] the class touches. *)
Record Constraints : Type := mkConstraints {
  con_smiles : string * string;
  con_names : list string;
  ligand_res : resi;
  target_res : option resi;
  target_con_name : string;
  custom_constraint : string
}.

Definition set_custom_constraint (t : string) (c : Constraints) : Constraints :=
  mkConstraints (con_smiles c) (con_names c) (ligand_res c) (target_res c)
                (target_con_name c) t.

(** The attributes of a [Fragmenstein] the class touches. *)
Record Fragmenstein : Type := mkFragmenstein {
  scaffold : Mol;
  chimera : Mol;
  positioned_mol : Mol
}.

(** The class attributes of [Victor]. *)
Record Config : Type := mkConfig {
  work_path : string;
  warhead_definitions : list WarheadDefinition;
  covalent_definitions : list CovalentDefinition;
  _connected_names : list string
}.

(** ** PyMOL sessions *)

(** An atom of a PyMOL object: the identifiers the selections of the
    class test, and the rest of its record. *)
Record pdb_atom : Type := mkPdbAtom {
  pa_name : string;
  pa_resn : string;
  pa_resi : string;
  pa_chain : string;
  pa_rest : string
}.

(** The selections the class writes. *)
Inductive selection : Type :=
| SelAll                        (* '*' *)
| SelObject (o : string)        (* 'scaffold' *)
| SelName (n : string)          (* 'name R' *)
| SelResn (n : string)          (* 'resn UNL' *)
| SelResi (i : string)          (* 'resi 145' *)
| SelChain (c : string)         (* 'chain A' *)
| SelAnd (a b : selection).     (* 'a and b' *)

(** A session: the atoms loaded, each with the name of its object. *)
Definition session : Type := list (string * pdb_atom).

Fixpoint selected (sel : selection) (a : string * pdb_atom) : bool :=
  match sel with
  | SelAll => true
  | SelObject o => String.eqb (fst a) o
  | SelName n => String.eqb (pa_name (snd a)) n
  | SelResn n => String.eqb (pa_resn (snd a)) n
  | SelResi i => String.eqb (pa_resi (snd a)) i
  | SelChain c => String.eqb (pa_chain (snd a)) c
  | SelAnd x y => selected x a && selected y a
  end.

Definition set_resi (v : string) (a : pdb_atom) : pdb_atom :=
  mkPdbAtom (pa_name a) (pa_resn a) v (pa_chain a) (pa_rest a).

Definition set_chain (v : string) (a : pdb_atom) : pdb_atom :=
  mkPdbAtom (pa_name a) (pa_resn a) (pa_resi a) v (pa_rest a).

Module cmd.

(** [cmd.remove(sel)] *)
Definition remove (sel : selection) (ses : session) : session :=
  filter (fun a => negb (selected sel a)) ses.

(** [cmd.alter(sel, expr)] for an assignment to one identifier. *)
Definition alter (sel : selection) (f : pdb_atom -> pdb_atom) (ses : session) : session :=
  map (fun a => if selected sel a then (fst a, f (snd a)) else a) ses.

(** The atoms [cmd.get_pdbstr(sel)] writes. *)
Definition get_atoms (sel : selection) (ses : session) : list pdb_atom :=
  map snd (filter (selected sel) ses).

(** [cmd.remove] once for each name of a list, in order. *)
Definition remove_names (names : list string) (ses : session) : session :=
  fold_left (fun acc c => remove (SelName c) acc) names ses.

End cmd.

(** ** The object and its surroundings *)

Inductive level : Type := DEBUG | INFO | WARNING | ERROR.

(** The mutable state of a run.  The first three fields are the
    surroundings of the object, [trace] is a ghost field, the others are
    the attributes the pipeline assigns ([None] before the assignment).
    [self.mol] is the object [self.params.mol] and is read through
    [params]. *)
Record state (EgorT : Type) : Type := mkState {
  journal : list (level * string);
  dirs : list string;
  files : list (string * content);
  trace : list string;
  _warned : list warning;
  is_covalent : option bool;
  params : option Params;
  constraint : option (option Constraints);
  fragmenstein : option Fragmenstein;
  unminimised_pdbblock : option string;
  egor : option EgorT;
  minimised_pdbblock : option string
}.
Arguments journal {EgorT} _.
Arguments dirs {EgorT} _.
Arguments files {EgorT} _.
Arguments trace {EgorT} _.
Arguments _warned {EgorT} _.
Arguments is_covalent {EgorT} _.
Arguments params {EgorT} _.
Arguments constraint {EgorT} _.
Arguments fragmenstein {EgorT} _.
Arguments unminimised_pdbblock {EgorT} _.
Arguments egor {EgorT} _.
Arguments minimised_pdbblock {EgorT} _.
Arguments mkState {EgorT}.

Section Setters.
Context {EgorT : Type}.
Implicit Type s : state EgorT.

Definition set_journal (v : list (level * string)) s : state EgorT :=
  mkState v (dirs s) (files s) (trace s) (_warned s) (is_covalent s) (params s) (constraint s) (fragmenstein s) (unminimised_pdbblock s) (egor s) (minimised_pdbblock s).

Definition set_dirs (v : list string) s : state EgorT :=
  mkState (journal s) v (files s) (trace s) (_warned s) (is_covalent s) (params s) (constraint s) (fragmenstein s) (unminimised_pdbblock s) (egor s) (minimised_pdbblock s).

Definition set_files (v : list (string * content)) s : state EgorT :=
  mkState (journal s) (dirs s) v (trace s) (_warned s) (is_covalent s) (params s) (constraint s) (fragmenstein s) (unminimised_pdbblock s) (egor s) (minimised_pdbblock s).

Definition set_trace (v : list string) s : state EgorT :=
  mkState (journal s) (dirs s) (files s) v (_warned s) (is_covalent s) (params s) (constraint s) (fragmenstein s) (unminimised_pdbblock s) (egor s) (minimised_pdbblock s).

Definition set_warned (v : list warning) s : state EgorT :=
  mkState (journal s) (dirs s) (files s) (trace s) v (is_covalent s) (params s) (constraint s) (fragmenstein s) (unminimised_pdbblock s) (egor s) (minimised_pdbblock s).

Definition set_is_covalent (v : option bool) s : state EgorT :=
  mkState (journal s) (dirs s) (files s) (trace s) (_warned s) v (params s) (constraint s) (fragmenstein s) (unminimised_pdbblock s) (egor s) (minimised_pdbblock s).

Definition set_params (v : option Params) s : state EgorT :=
  mkState (journal s) (dirs s) (files s) (trace s) (_warned s) (is_covalent s) v (constraint s) (fragmenstein s) (unminimised_pdbblock s) (egor s) (minimised_pdbblock s).

Definition set_constraint (v : option (option Constraints)) s : state EgorT :=
  mkState (journal s) (dirs s) (files s) (trace s) (_warned s) (is_covalent s) (params s) v (fragmenstein s) (unminimised_pdbblock s) (egor s) (minimised_pdbblock s).

Definition set_fragmenstein (v : option Fragmenstein) s : state EgorT :=
  mkState (journal s) (dirs s) (files s) (trace s) (_warned s) (is_covalent s) (params s) (constraint s) v (unminimised_pdbblock s) (egor s) (minimised_pdbblock s).

Definition set_unminimised_pdbblock (v : option string) s : state EgorT :=
  mkState (journal s) (dirs s) (files s) (trace s) (_warned s) (is_covalent s) (params s) (constraint s) (fragmenstein s) v (egor s) (minimised_pdbblock s).

Definition set_egor (v : option EgorT) s : state EgorT :=
  mkState (journal s) (dirs s) (files s) (trace s) (_warned s) (is_covalent s) (params s) (constraint s) (fragmenstein s) (unminimised_pdbblock s) v (minimised_pdbblock s).

Definition set_minimised_pdbblock (v : option string) s : state EgorT :=
  mkState (journal s) (dirs s) (files s) (trace s) (_warned s) (is_covalent s) (params s) (constraint s) (fragmenstein s) (unminimised_pdbblock s) (egor s) v.

End Setters.

(** ** The collaborators

    Everything the class calls that is not in the module: builtins, RDKit,
    rdkit_to_params, PyMOL's parser and writer, PyRosetta, and the sibling
    modules [core] (Fragmenstein), [egor] (Egor) and [m_rmsd] (mRSMD).
    A call of type [ext A] may issue warnings and may raise; the others are
    total. *)
Record External : Type := mkExternal {
  Egor : Type;
  Pose : Type;
  (* builtins *)
  open_read : string -> result string;          (* open(path).read() *)
  repr_float : Q -> string;                     (* f'{x}' of a float *)
  (* RDKit *)
  HasSubstructMatch : Mol -> string -> bool;    (* mol.HasSubstructMatch(MolFromSmiles(s)) *)
  MolToPDBBlock : Mol -> string;
  MolToMolBlock : Mol -> string;
  MolFromPDBBlock : string -> option Mol;
  DeleteSubstructs : Mol -> string -> Mol;
  AssignBondOrdersFromTemplate : Mol -> Mol -> ext Mol;
  (* rdkit_to_params *)
  Params_from_smiles : string -> string -> ext Params;
  rename_by_template : Params -> string -> list string -> ext Params;
  pad_name : Params -> string -> string;
  Params_dumps : Params -> string;
  params_to_pose : string -> string -> ext Pose;
  Constraints_init : string * string -> list string -> resi -> option resi -> ext Constraints;
  Constraints_mock : Constraints;
  Constraints_dumps : Constraints -> string;
  (* PyMOL *)
  read_pdbstr : string -> list pdb_atom;
  get_pdbstr : list pdb_atom -> string;
  (* Fragmenstein *)
  Fragmenstein_init : Mol -> list Mol -> option Mol -> ext Fragmenstein;
  origin_from_mol : Fragmenstein -> Mol -> list bool;
  stdev_from_mol : Fragmenstein -> Mol -> list Q;
  (* PyRosetta, Egor and mRSMD *)
  Pose_dumps : Pose -> string;
  scorefxn : Pose -> ext pyobj;
  Egor_from_pdbblock : string -> string -> string -> resi -> list (option resi) -> ext Egor;
  pose2str : Egor -> string;
  minimise : Egor -> ext Egor;
  Egor_pose_dumps : Egor -> string;
  ligand_score : Egor -> ext Q;
  mol_from_pose : Egor -> ext Mol;
  from_other_annotated_mols : Mol -> list Mol -> Mol -> ext (Q * list Q)
}.

(** The arguments of [Victor.__init__]. *)
Record Args (EgorT : Type) : Type := mkArgs {
  arg_smiles : string;
  arg_hits : list Mol;
  arg_pdb_filename : string;
  arg_long_name : string;
  arg_ligand_resn : string;
  arg_ligand_resi : resi;
  arg_covalent_resn : string;
  arg_covalent_resi : option resi;
  arg_extra_constraint : option string;
  arg_pose_fx : option (EgorT -> ext EgorT)
}.
Arguments mkArgs {EgorT}.
Arguments arg_smiles {EgorT} _.
Arguments arg_hits {EgorT} _.
Arguments arg_pdb_filename {EgorT} _.
Arguments arg_long_name {EgorT} _.
Arguments arg_ligand_resn {EgorT} _.
Arguments arg_ligand_resi {EgorT} _.
Arguments arg_covalent_resn {EgorT} _.
Arguments arg_covalent_resi {EgorT} _.
Arguments arg_extra_constraint {EgorT} _.
Arguments arg_pose_fx {EgorT} _.

(** The entry attributes, stored before the pipeline starts and never
    assigned again. *)
Record Victor (EgorT : Type) : Type := mkVictor {
  long_name : string;
  smiles : string;
  apo_pdbblock : string;
  hits : list Mol;
  ligand_resn : string;
  ligand_resi : resi;
  covalent_resn : string;
  covalent_resi : option resi;
  extra_constraint : option string;
  pose_fx : option (EgorT -> ext EgorT)
}.
Arguments mkVictor {EgorT}.
Arguments long_name {EgorT} _.
Arguments smiles {EgorT} _.
Arguments apo_pdbblock {EgorT} _.
Arguments hits {EgorT} _.
Arguments ligand_resn {EgorT} _.
Arguments ligand_resi {EgorT} _.
Arguments covalent_resn {EgorT} _.
Arguments covalent_resi {EgorT} _.
Arguments extra_constraint {EgorT} _.
Arguments pose_fx {EgorT} _.

(** ** The monad of the methods

    A method takes the state and gives the state it leaves behind together
    with its return value or the exception it raised. *)
Definition M (S A : Type) : Type := S -> S * result A.

Definition ret {S A : Type} (a : A) : M S A := fun s => (s, Ok a).

Definition raise {S A : Type} (e : exn) : M S A := fun s => (s, Raise e).

Definition bind {S A B : Type} (m : M S A) (f : A -> M S B) : M S B :=
  fun s =>
    match m s with
    | (s1, Ok a) => f a s1
    | (s1, Raise e) => (s1, Raise e)
    end.

(** [try: body  except Exception as err: handler]: an exception that is
    not an instance of [Exception] is not caught. *)
Definition try_except {S : Type} (body : M S unit) (handler : exn -> M S unit) : M S unit :=
  fun s =>
    match body s with
    | (s1, Ok tt) => (s1, Ok tt)
    | (s1, Raise err) => if is_Exception err then handler err s1 else (s1, Raise err)
    end.

Definition gets {S A : Type} (f : S -> A) : M S A := fun s => (s, Ok (f s)).

Definition modify {S : Type} (f : S -> S) : M S unit := fun s => (f s, Ok tt).

Declare Scope py_scope.
Delimit Scope py_scope with py.
Notation "x <- c1 ;; c2" := (bind c1 (fun x => c2))
  (at level 61, c1 at next level, right associativity) : py_scope.
Notation "' pat <- c1 ;; c2" := (bind c1 (fun x => match x with pat => c2 end))
  (at level 61, pat pattern, c1 at next level, right associativity) : py_scope.
Notation "c1 ;; c2" := (bind c1 (fun _ => c2))
  (at level 61, right associativity) : py_scope.
Open Scope py_scope.

(** ** The methods of [Victor] *)

Section Methods.

Variable E : External.
Variable cls : Config.

Abbreviation St := (state (Egor E)).
Abbreviation Self := (Victor (Egor E)).

(** *** Logging, collaborators, attributes, files *)

Definition log (lvl : level) (msg : string) : M St unit :=
  modify (fun s => set_journal (journal s ++ [(lvl, msg)]) s).

(** A call of a collaborator: it is recorded in the trace, its warnings
    go to the buffer of the [catch_warnings] block. *)
Definition call {A : Type} (name : string) (x : ext A) : M St A :=
  fun s => (set_warned (_warned s ++ fst x) (set_trace (trace s ++ [name]) s), snd x).

Definition attribute {A : Type} (name : string) (get : St -> option A) : M St A :=
  fun s =>
    match get s with
    | Some a => (s, Ok a)
    | None => (s, Raise (no_attribute "Victor" name))
    end.

Definition path_exists (p : string) (s : St) : bool :=
  Py.mem p (dirs s) || Py.mem p (map fst (files s)).

(** [os.mkdir(p)], where it succeeds. *)
Definition mkdir (p : string) : M St unit :=
  modify (fun s => set_dirs (dirs s ++ [p]) s).

Definition write_file (p : string) (c : content) : M St unit :=
  modify (fun s => set_files (files s ++ [(p, c)]) s).

(** [os.path.join(self.work_path, self.long_name, self.long_name + ext)] *)
Definition job_file (self : Self) (extension : string) : string :=
  Py.path_join [work_path cls; long_name self; long_name self ++ extension].

(** *** [_log_warnings] *)
Definition _log_warnings (self : Self) : M St unit :=
  fun s =>
    match _warned s with
    | [] => (s, Ok tt)
    | ws =>
        let entry w := (WARNING, long_name self ++ " - " ++ w_message w ++ " (" ++ w_category w ++ ")") in
        (set_warned [] (set_journal (journal s ++ map entry ws) s), Ok tt)
    end.

(** *** The overridable steps: [pass] *)
Definition post_params_step (self : Self) : M St unit := ret tt.
Definition post_fragmenstein_step (self : Self) : M St unit := ret tt.
Definition pose_mod_step (self : Self) : M St unit := ret tt.
Definition post_egor_step (self : Self) : M St unit := ret tt.

(** *** [slugify] *)
Definition slugify (name : string) : string := Py.slug false name.

(** *** [_make_output_folder] *)
Definition _make_output_folder (self : Self) : M St unit :=
  let path := Py.path_join [work_path cls; long_name self] in
  there <- gets (path_exists (work_path cls)) ;;
  (if negb there then mkdir (work_path cls) else ret tt) ;;
  there <- gets (path_exists path) ;;
  if negb there then mkdir path
  else log WARNING (long_name self ++ " - Folder " ++ path ++ " exists.").

(** *** [_assert_inputs] *)
Definition assert (cond : bool) (msg : string) : M St unit :=
  if cond then ret tt else raise (AssertionError msg).

Definition residue_definitions (resn : string) : list CovalentDefinition :=
  filter (fun d => String.eqb (cov_residue d) resn) (covalent_definitions cls).

Definition _assert_inputs (self : Self) : M St unit :=
  assert (Nat.eqb (String.length (ligand_resn self)) 3)
         (long_name self ++ " - " ++ ligand_resn self ++ " is not 3 char long.") ;;
  assert (negb (Nat.eqb (List.length (hits self)) 0))
         (long_name self ++ " - No hits to use to construct") ;;
  assert (negb (String.eqb (ligand_resn self) "UNL"))
         (long_name self ++ " - It cannot be UNL as it s the unspecified resn in rdkit") ;;
  if Py.truthy (covalent_resn self)
     && Nat.eqb (List.length (residue_definitions (covalent_resn self))) 0
  then raise (ValueError (long_name self ++ " - Unrecognised type " ++ covalent_resn self))
  else ret tt.

(** *** [_make_coordinate_constraints] *)

(** One line of the loop, before it is formatted. *)
Record CoordinateConstraint : Type := mkCoordinateConstraint {
  cc_atom : string;       (* atom.GetPDBResidueInfo().GetName() *)
  cc_resi : string;       (* self.ligand_resi *)
  cc_ref_resi : string;   (* self.covalent_resi *)
  cc_pos : Q * Q * Q;     (* pos.x pos.y pos.z *)
  cc_width : Q            (* std[i] + 1 *)
}.

Definition format_line (l : CoordinateConstraint) : string :=
  let '(x, y, z) := cc_pos l in
  "CoordinateConstraint " ++ cc_atom l ++ " " ++ cc_resi l ++ " " ++
  "CA " ++ cc_ref_resi l ++ " " ++
  repr_float E x ++ " " ++ repr_float E y ++ " " ++ repr_float E z ++
  " HARMONIC 0 " ++ repr_float E (cc_width l) ++ nl.

Definition out_of_range : exn := IndexError "list index out of range".

(** The body of the loop for the index [i]: [Ok None] when the atom is
    skipped, [Ok (Some l)] when [l] is appended. *)
Definition coordinate_line (self : Self) (origins : list bool) (std : list Q)
    (mol : Mol) (i : nat) : result (option CoordinateConstraint) :=
  match nth_error origins i with
  | None => Raise out_of_range
  | Some false => Ok None
  | Some true =>
      match nth_error (atoms mol) i with
      | None => Raise out_of_range
      | Some atom =>
          if Py.mem (GetSymbol atom) (_connected_names cls) then Ok None
          else
            match PDBResidueInfo_name atom with
            | None => Raise (no_attribute "NoneType" "GetName")
            | Some name =>
                match nth_error std i with
                | None => Raise out_of_range
                | Some sd =>
                    Ok (Some (mkCoordinateConstraint name
                                (str_resi (ligand_resi self))
                                (str_opt_resi (covalent_resi self))
                                (AtomPosition atom) (sd + 1)%Q))
                end
            end
      end
  end.

(** [for i in range(...)] over the indices [idx], collecting [lines]. *)
Fixpoint coordinate_lines (self : Self) (origins : list bool) (std : list Q)
    (mol : Mol) (idx : list nat) : result (list CoordinateConstraint) :=
  match idx with
  | [] => Ok []
  | i :: rest =>
      match coordinate_line self origins std mol i with
      | Raise e => Raise e
      | Ok o =>
          match coordinate_lines self origins std mol rest with
          | Raise e => Raise e
          | Ok lines => Ok (match o with Some l => l :: lines | None => lines end)
          end
      end
  end.

(** The lines of the method for a given Fragmenstein. *)
Definition coordinate_constraints (self : Self) (f : Fragmenstein)
  : result (list CoordinateConstraint) :=
  let origins := origin_from_mol E f (positioned_mol f) in
  let std := stdev_from_mol E f (positioned_mol f) in
  coordinate_lines self origins std (positioned_mol f)
                   (seq 0 (GetNumAtoms (positioned_mol f))).

Definition join_lines (lines : list CoordinateConstraint) : string :=
  String.concat "" (map format_line lines).

Definition _make_coordinate_constraints (self : Self) : M St string :=
  f <- attribute "fragmenstein" fragmenstein ;;
  match coordinate_constraints self f with
  | Ok lines => ret (join_lines lines)
  | Raise e => raise e
  end.

(** *** [_fix_covalent] *)

(** [constraint.custom_constraint += text] *)
Definition iadd_custom_constraint (c : Constraints) (text : option string) : M St Constraints :=
  match text with
  | Some t => ret (set_custom_constraint (custom_constraint c ++ t) c)
  | None => raise (TypeError ("can only concatenate str (not " ++ dquote ++ "NoneType" ++ dquote ++ ") to str"))
  end.

(** The body of the [if] of the loop, for the entry [war_def]. *)
Definition apply_warhead (self : Self) (war_def : WarheadDefinition) : M St Constraints :=
  p <- attribute "params" params ;;
  p' <- call "Params.rename_by_template"
          (rename_by_template E p (war_covalent war_def) (war_covalent_atomnames war_def)) ;;
  modify (set_params (Some p')) ;;
  match residue_definitions (covalent_resn self) with
  | [] => raise out_of_range
  | cov_def :: _ =>
      log DEBUG (long_name self ++ " - has a " ++ war_name war_def) ;;
      cons <- call "Constraints"
                (Constraints_init E (war_covalent war_def, cov_smiles cov_def)
                   (war_covalent_atomnames war_def ++ cov_atomnames cov_def)
                   (ligand_resi self) (covalent_resi self)) ;;
      match war_constraint war_def with
      | Some text => ret (set_custom_constraint text cons)
      | None => ret cons
      end
  end.

(** [for war_def in defs: ... else: raise ValueError(...)] *)
Fixpoint for_war_def (self : Self) (defs : list WarheadDefinition) : M St Constraints :=
  match defs with
  | [] => raise (ValueError (long_name self ++ " - Unsure what the warhead is."))
  | war_def :: rest =>
      p <- attribute "params" params ;;
      if HasSubstructMatch E (params_mol p) (war_covalent war_def)
      then apply_warhead self war_def
      else for_war_def self rest
  end.

Definition _fix_covalent (self : Self) : M St Constraints :=
  log DEBUG (long_name self ++ " - fixing for covalent") ;;
  for_war_def self (warhead_definitions cls).

(** *** [_get_constraint] *)
Definition _get_constraint (self : Self) (extra_constraint_arg : option string)
  : M St (option Constraints) :=
  covalent <- attribute "is_covalent" is_covalent ;;
  if (covalent : bool) then
    log DEBUG (long_name self ++ " - is covalent.") ;;
    constraint <- _fix_covalent self ;;
    if Py.truthy_opt extra_constraint_arg then
      constraint <- iadd_custom_constraint constraint (extra_constraint self) ;;
      ret (Some constraint)
    else ret (Some constraint)
  else
    log DEBUG (long_name self ++ " - is not covalent.") ;;
    if Py.truthy_opt extra_constraint_arg then
      constraint <- iadd_custom_constraint (Constraints_mock E) (extra_constraint self) ;;
      ret (Some constraint)
    else ret None.

(** *** [_get_attachment_from_pdbblock] *)

(** [re.match('\D', s).group(1)]: the pattern has no group, so the call
    raises whether the match succeeds or not. *)
Definition chain_group (s : string) : result string :=
  match s with
  | String c _ =>
      if Py.is_digit c then Raise (no_attribute "NoneType" "group")
      else Raise (IndexError "no such group")
  | EmptyString => Raise (no_attribute "NoneType" "group")
  end.

Definition load (object : string) (text : string) (ses : session) : session :=
  (ses ++ map (fun a => (object, a)) (read_pdbstr E text))%list.

Definition _get_attachment_from_pdbblock (self : Self) : M St (option Mol) :=
  log DEBUG (long_name self ++ " - getting attachemnt atom") ;;
  call "pymol2.PyMOL" (returns tt) ;;
  let ses := load "prot" (apo_pdbblock self) [] in
  c <- attribute "constraint" constraint ;;
  match c with
  | None => raise (no_attribute "NoneType" "target_con_name")
  | Some c =>
      let name := Py.strip (target_con_name c) in
      match Py.match_digits (str_opt_resi (target_res c)) with
      | None => raise (no_attribute "NoneType" "group")
      | Some resi =>
          let pdb :=
            match chain_group (str_opt_resi (target_res c)) with
            | Ok chain =>
                get_pdbstr E (cmd.get_atoms
                  (SelAnd (SelAnd (SelResi resi) (SelName name)) (SelChain chain)) ses)
            | Raise _ =>
                get_pdbstr E (cmd.get_atoms (SelAnd (SelResi resi) (SelName name)) ses)
            end in
          ret (MolFromPDBBlock E pdb)
      end
  end.

(** *** [_place_fragmenstein] *)

(** The atoms left in the PyMOL session when [get_pdbstr('*')] is called. *)
Definition placed_atoms (self : Self) (f : Fragmenstein) (l_resi l_chain : string)
  : list pdb_atom :=
  let ses := load "apo" (apo_pdbblock self) [] in
  let pos_mol := MolToPDBBlock E (positioned_mol f) in
  let ses := load "scaffold" pos_mol ses in
  let ses := cmd.alter (SelObject "scaffold") (set_resi l_resi) ses in
  let ses := cmd.alter (SelObject "scaffold") (set_chain l_chain) ses in
  let ses := cmd.remove (SelName "R") ses in
  let ses := cmd.remove_names (_connected_names cls) ses in
  let ses := cmd.remove (SelResn "UNL") ses in
  cmd.get_atoms SelAll ses.

Definition LINK (self : Self) (p_chain p_resi cx l_chain l_resi : string) : string :=
  "LINK         SG  " ++ covalent_resn self ++ " " ++ p_chain ++ " " ++ Py.rjust 3 p_resi ++
  "                " ++ cx ++ " " ++ ligand_resn self ++ " " ++ l_chain ++ " " ++
  Py.rjust 3 l_resi ++ "     1555   1555  1.8" ++ nl.

Definition _place_fragmenstein (self : Self) : M St string :=
  match Py.match_resi (str_resi (ligand_resi self)) with
  | None => raise (no_attribute "NoneType" "groups")
  | Some (l_resi, l_chain) =>
      match Py.match_resi (str_opt_resi (covalent_resi self)) with
      | None => raise (no_attribute "NoneType" "groups")
      | Some (p_resi, p_chain) =>
          let p_chain := if negb (Py.truthy p_chain) then "A" else p_chain in
          let l_chain := if negb (Py.truthy l_chain) then "B" else l_chain in
          log DEBUG (long_name self ++ " - placing fragmenstein") ;;
          call "pymol2.PyMOL" (returns tt) ;;
          f <- attribute "fragmenstein" fragmenstein ;;
          let pdbblock := get_pdbstr E (placed_atoms self f l_resi l_chain) in
          covalent <- attribute "is_covalent" is_covalent ;;
          if (covalent : bool) then
            p <- attribute "params" params ;;
            match CONNECT p with
            | [] => raise out_of_range
            | name :: _ =>
                let cx := pad_name E p name in
                ret (LINK self p_chain p_resi cx l_chain l_resi ++ pdbblock)
            end
          else ret pdbblock
      end
  end.

(** *** [_save_prerequisites] *)
Definition _save_prerequisites (self : Self) : M St (string * string * string) :=
  _log_warnings self ;;
  log DEBUG (long_name self ++ " - saving params") ;;
  let params_file := job_file self ".params" in
  p <- attribute "params" params ;;
  call "Params.dump" (returns tt) ;;
  write_file params_file (Text (Params_dumps E p)) ;;
  log DEBUG (long_name self ++ " - saving holo (unmimised)") ;;
  let holo_file := job_file self ".holo_unminimised.pdb" in
  pdbblock <- attribute "unminimised_pdbblock" unminimised_pdbblock ;;
  write_file holo_file (Text pdbblock) ;;
  c <- attribute "constraint" constraint ;;
  match c with
  | Some c =>
      log DEBUG (long_name self ++ " - saving constraint") ;;
      let constraint_file := job_file self ".con" in
      call "Constraints.dump" (returns tt) ;;
      write_file constraint_file (Text (Constraints_dumps E c)) ;;
      ret (params_file, holo_file, constraint_file)
  | None => ret (params_file, holo_file, "")
  end.

(** *** [_checkpoint_alpha] *)
Definition hit_name (h : nat) (hit : Mol) : string :=
  match prop_Name hit with
  | Some n => if Py.truthy (Py.strip n) then n else "hit" ++ Py.str_int (Z.of_nat h)
  | None => "hit" ++ Py.str_int (Z.of_nat h)
  end.

(** [for h, hit in enumerate(self.hits)], from the index [h] on. *)
Fixpoint save_hits (self : Self) (h : nat) (hs : list Mol) : M St unit :=
  match hs with
  | [] => ret tt
  | hit :: rest =>
      let name := hit_name h hit in
      let hfile := Py.path_join [work_path cls; long_name self; name ++ ".pdb"] in
      call "Chem.MolToPDBFile" (returns tt) ;;
      write_file hfile (Text (MolToPDBBlock E hit)) ;;
      let mfile := Py.path_join [work_path cls; long_name self; name ++ ".mol"] in
      call "Chem.MolToMolFile" (returns tt) ;;
      write_file mfile (Text (MolToMolBlock E hit)) ;;
      save_hits self (S h) rest
  end.

Definition _checkpoint_alpha (self : Self) : M St unit :=
  _log_warnings self ;;
  save_hits self 0 (hits self) ;;
  p <- attribute "params" params ;;
  call "Chem.MolToPDBFile" (returns tt) ;;
  write_file (job_file self ".params_template.pdb") (Text (MolToPDBBlock E (params_mol p))) ;;
  call "Chem.MolToMolFile" (returns tt) ;;
  write_file (job_file self ".params_template.mol") (Text (MolToMolBlock E (params_mol p))) ;;
  log DEBUG (long_name self ++ " - checking params file works") ;;
  let params_file := job_file self ".params" in
  let ptest_file := job_file self ".params_test.pdb" in
  let pscore_file := job_file self ".params_test.score" in
  pose <- call "Params.params_to_pose" (params_to_pose E params_file (NAME p)) ;;
  write_file ptest_file (Text (Pose_dumps E pose)) ;;
  call "pyrosetta.get_fa_scorefxn" (returns tt) ;;
  (* with open(pscore_file, 'w') as w: the file is there, and empty *)
  write_file pscore_file (Text "") ;;
  score <- call "scorefxn" (scorefxn E pose) ;;
  match score with
  | PyStr text => write_file pscore_file (Text text)
  | PyFloat _ => raise (TypeError "write() argument must be str, not float")
  end ;;
  _log_warnings self.

(** *** [_checkpoint_bravo] *)
Definition fragmenstein_json (self : Self) (f : Fragmenstein) : json :=
  JObject [("smiles", JString (smiles self));
           ("origin", JList (map JBool (origin_from_mol E f (positioned_mol f))));
           ("stdev", JList (map JNumber (stdev_from_mol E f (positioned_mol f))))].

Definition _checkpoint_bravo (self : Self) : M St unit :=
  _log_warnings self ;;
  log DEBUG (long_name self ++ " - saving mols from fragmenstein") ;;
  f <- attribute "fragmenstein" fragmenstein ;;
  call "Chem.MolToMolFile" (returns tt) ;;
  write_file (job_file self ".scaffold.mol") (Text (MolToMolBlock E (scaffold f))) ;;
  call "Chem.MolToMolFile" (returns tt) ;;
  write_file (job_file self ".chimera.mol") (Text (MolToMolBlock E (chimera f))) ;;
  call "Chem.MolToMolFile" (returns tt) ;;
  write_file (job_file self ".positioned.mol") (Text (MolToMolBlock E (positioned_mol f))) ;;
  write_file (job_file self ".fragmenstein.json") (Json (fragmenstein_json self f)) ;;
  _log_warnings self.

(** *** [_checkpoint_charlie] *)
Definition minimised_json (energy mrmsd : Q) (rmsds : list Q) : json :=
  JObject [("Energy", JNumber energy);
           ("mRMSD", JNumber mrmsd);
           ("RMSDs", JList (map JNumber rmsds))].

Definition _checkpoint_charlie (self : Self) : M St unit :=
  _log_warnings self ;;
  log DEBUG (long_name self ++ " - saving pose from egor") ;;
  e <- attribute "egor" egor ;;
  write_file (job_file self ".holo_minimised.pdb") (Text (Egor_pose_dumps E e)) ;;
  log DEBUG (long_name self ++ " - calculating Gibbs") ;;
  energy <- call "Egor.ligand_score" (ligand_score E e) ;;
  log DEBUG (long_name self ++ " - making ligand only") ;;
  ligand <- call "Egor.mol_from_pose" (mol_from_pose E e) ;;
  p <- attribute "params" params ;;
  let template := DeleteSubstructs E (params_mol p) "*" in
  ligand <- call "AllChem.AssignBondOrdersFromTemplate"
              (AssignBondOrdersFromTemplate E template ligand) ;;
  log DEBUG (long_name self ++ " - calculating mRMSD") ;;
  f <- attribute "fragmenstein" fragmenstein ;;
  ' (mrmsd, rmsds) <- call "mRSMD.from_other_annotated_mols"
              (from_other_annotated_mols E ligand (hits self) (positioned_mol f)) ;;
  write_file (job_file self ".minimised.json") (Json (minimised_json energy mrmsd rmsds)) ;;
  call "Chem.MolToMolFile" (returns tt) ;;
  write_file (job_file self ".minimised.mol") (Text (MolToMolBlock E ligand)) ;;
  _log_warnings self.

(** *** [__init__] *)

(** [self.constraint.custom_constraint += self._make_coordinate_constraints()]
    (line 139): the attribute is read before the method is called. *)
Definition add_coordinate_constraints (self : Self) : M St unit :=
  c <- attribute "constraint" constraint ;;
  match c with
  | None => raise (no_attribute "NoneType" "custom_constraint")
  | Some c =>
      text <- _make_coordinate_constraints self ;;
      modify (set_constraint (Some (Some (set_custom_constraint (custom_constraint c ++ text) c))))
  end.

(** The check at the head of the [try] block (lines 109-115).
    [self.covalent_resn] is the result of [upper()], a [str]: it is never
    [None]. *)
Definition check_covalent (self : Self) : M St unit :=
  if Py.contains "*" (smiles self)
     && match covalent_resi self with None => true | Some _ => false end
  then raise (ValueError (long_name self ++ " - is covalent but without known covalent residues"))
  else if Py.contains "*" (smiles self)
  then modify (set_is_covalent (Some true))
  else modify (set_is_covalent (Some false)).

(** The checks: the head of the block and [_assert_inputs] (lines
    109-116). *)
Definition validate (self : Self) : M St unit :=
  check_covalent self ;;
  _assert_inputs self.

(** Parameterisation (lines 118-128): up to [self.mol = self.params.mol].
    [Params.from_smiles] is given the argument [ligand_resn], not the
    attribute. *)
Definition parameterise (a : Args (Egor E)) (self : Self) : M St unit :=
  log INFO (long_name self ++ " - Starting work") ;;
  _log_warnings self ;;
  _make_output_folder self ;;
  log DEBUG (long_name self ++ " - Starting parameterisation") ;;
  p <- call "Params.from_smiles" (Params_from_smiles E (smiles self) (arg_ligand_resn a)) ;;
  modify (set_params (Some p)) ;;
  log WARNING (long_name self ++ " - CHI HAS BEEN DISABLED") ;;
  modify (set_params (Some (set_CHI_data [] p))) ;;
  _log_warnings self.

(** The constraint and the attachment (lines 130-133). *)
Definition constrain (a : Args (Egor E)) (self : Self) : M St (option Mol) :=
  c <- _get_constraint self (arg_extra_constraint a) ;;
  modify (set_constraint (Some c)) ;;
  covalent <- attribute "is_covalent" is_covalent ;;
  attachment <- (if (covalent : bool) then _get_attachment_from_pdbblock self else ret None) ;;
  _log_warnings self ;;
  post_params_step self ;;
  ret attachment.

(** Fragmenstein, up to the coordinate constraints (lines 136-139). *)
Definition place (self : Self) (attachment : option Mol) : M St unit :=
  log DEBUG (long_name self ++ " - Starting fragmenstein") ;;
  p <- attribute "params" params ;;
  f <- call "Fragmenstein" (Fragmenstein_init E (params_mol p) (hits self) attachment) ;;
  modify (set_fragmenstein (Some f)) ;;
  pdbblock <- _place_fragmenstein self ;;
  modify (set_unminimised_pdbblock (Some pdbblock)) ;;
  add_coordinate_constraints self.

(** Egor (lines 146-166). *)
Definition minimise_pose (self : Self) (params_file constraint_file : string) : M St unit :=
  log DEBUG (long_name self ++ " - setting up Egor") ;;
  pdbblock <- attribute "unminimised_pdbblock" unminimised_pdbblock ;;
  e <- call "Egor.from_pdbblock"
         (Egor_from_pdbblock E pdbblock params_file constraint_file
            (ligand_resi self) [covalent_resi self]) ;;
  modify (set_egor (Some e)) ;;
  match pose_fx self with
  | Some fx =>
      log DEBUG (long_name self ++ " - running custom pose mod.") ;;
      e <- call "pose_fx" (fx e) ;;
      modify (set_egor (Some e))
  | None => pose_mod_step self
  end ;;
  e <- attribute "egor" egor ;;
  modify (set_unminimised_pdbblock (Some (pose2str E e))) ;;
  log DEBUG (long_name self ++ " - Egor minimising") ;;
  e <- call "Egor.minimise" (minimise E e) ;;
  modify (set_egor (Some e)) ;;
  modify (set_minimised_pdbblock (Some (pose2str E e))) ;;
  post_egor_step self ;;
  _checkpoint_charlie self ;;
  log DEBUG (long_name self ++ " - Completed").

(** The body of the [try] block (lines 108-166). *)
Definition pipeline (a : Args (Egor E)) (self : Self) : M St unit :=
  validate self ;;
  parameterise a self ;;
  attachment <- constrain a self ;;
  place self attachment ;;
  _checkpoint_bravo self ;;
  ' (params_file, holo_file, constraint_file) <- _save_prerequisites self ;;
  post_fragmenstein_step self ;;
  _checkpoint_alpha self ;;
  minimise_pose self params_file constraint_file.

(** The [except Exception as err] clause (lines 167-168). *)
Definition handler (self : Self) (err : exn) : M St unit :=
  log ERROR (long_name self ++ " " ++ em_dash ++ " " ++ exn_class err ++ ": " ++ exn_msg err).

(** The surroundings of a new object. *)
Record World : Type := mkWorld {
  w_journal : list (level * string);
  w_dirs : list string;
  w_files : list (string * content)
}.

(** The state when [__init__] starts: no attribute is set. *)
Definition fresh (w : World) : St :=
  mkState (w_journal w) (w_dirs w) (w_files w) [] [] None None None None None None None.

(** How a call of the constructor ends: with an object, or with an
    exception for the caller. *)
Inductive outcome : Type :=
| Constructed (self : Self) (s : St)
| Propagated (err : exn) (s : St).

(** The attributes stored before the [with] block (lines 95-104);
    [open] may raise. *)
Definition store (a : Args (Egor E)) : result Self :=
  let long_name := slugify (arg_long_name a) in
  match open_read E (arg_pdb_filename a) with
  | Raise err => Raise err
  | Ok apo_pdbblock =>
      Ok (mkVictor long_name (arg_smiles a) apo_pdbblock (arg_hits a)
            (Py.upper (arg_ligand_resn a)) (arg_ligand_resi a)
            (Py.upper (arg_covalent_resn a)) (arg_covalent_resi a)
            (arg_extra_constraint a) (arg_pose_fx a))
  end.

Definition __init__ (a : Args (Egor E)) (w : World) : outcome :=
  match store a with
  | Raise err => Propagated err (fresh w)
  | Ok self =>
      match try_except (pipeline a self) (handler self) (fresh w) with
      | (s, Ok _) => Constructed self s
      | (s, Raise err) => Propagated err s
      end
  end.

End Methods.

(** ** Notions used by the statements *)

(** The value of a result, [default] for an exception. *)
Definition value {A : Type} (default : A) (r : result A) : A :=
  match r with
  | Ok a => a
  | Raise _ => default
  end.

(** How a job has ended, read off the journal: the handler of the
    constructor is the only place that logs at level [ERROR], and it does
    so last; a run that goes through logs ['Completed'] last. *)
Inductive terminal : Type := minimised | failed.

Definition terminal_state {EgorT : Type} (s : state EgorT) : terminal :=
  match last (journal s) (DEBUG, "") with
  | (ERROR, _) => failed
  | _ => minimised
  end.

(** The entry the handler writes for the exception [err]. *)
Definition failure_entry {EgorT : Type} (self : Victor EgorT) (err : exn) : level * string :=
  (ERROR, long_name self ++ " " ++ em_dash ++ " " ++ exn_class err ++ ": " ++ exn_msg err).

(** The paths of the files written. *)
Definition written {EgorT : Type} (s : state EgorT) : list string := map fst (files s).

(** A projection of the state is left as it was by a method. *)
Definition preserves {S A X : Type} (proj : S -> X) (m : M S A) : Prop :=
  forall s, proj (fst (m s)) = proj s.

(** A method can only add to the end of the journal. *)
Definition extends_journal {EgorT A : Type} (m : M (state EgorT) A) : Prop :=
  forall s, exists more, journal (fst (m s)) = (journal s ++ more)%list.

(** The class with another catalogue of warheads. *)
Definition with_warheads (cls : Config) (defs : list WarheadDefinition) : Config :=
  mkConfig (work_path cls) defs (covalent_definitions cls) (_connected_names cls).

(** The candidate [p] has the reactive pattern of [d]. *)
Definition has_warhead (E : External) (p : Params) (d : WarheadDefinition) : bool :=
  HasSubstructMatch E (params_mol p) (war_covalent d).

(** An atom that [_place_fragmenstein] must not let through: a dummy
    (PyMOL name [R]), a connection atom, or a remnant with residue name
    [UNL]. *)
Definition stripped (cls : Config) (a : pdb_atom) : bool :=
  String.eqb (pa_name a) "R" || Py.mem (pa_name a) (_connected_names cls)
  || String.eqb (pa_resn a) "UNL".

(** The input preconditions of [_assert_inputs], on the arguments of the
    constructor. *)
Definition violates_precondition {EgorT : Type} (cls : Config) (a : Args EgorT) : Prop :=
  String.length (arg_ligand_resn a) <> 3%nat
  \/ Py.upper (arg_ligand_resn a) = "UNL"
  \/ arg_hits a = []
  \/ (Py.upper (arg_covalent_resn a) <> ""
      /\ residue_definitions cls (Py.upper (arg_covalent_resn a)) = []).

(** The same preconditions, on the stored attributes. *)
Definition rejected {EgorT : Type} (cls : Config) (self : Victor EgorT) : Prop :=
  String.length (ligand_resn self) <> 3%nat
  \/ ligand_resn self = "UNL"
  \/ hits self = []
  \/ (covalent_resn self <> "" /\ residue_definitions cls (covalent_resn self) = []).

(** The text [_get_constraint] appends for the caller. *)
Definition extra_text {EgorT : Type} (self : Victor EgorT) : string :=
  match extra_constraint self with
  | Some t => if Py.truthy t then t else ""
  | None => ""
  end.

(** ** A small instance of the collaborators

    Molecules are made of a carbon, an oxygen and, for a SMILES with an
    attachment point, a dummy atom named [CONN1]; a pattern is a
    substructure when it is a substring of the SMILES the molecule was
    made from; the receptor file is ["apo.pdb"]. *)
Module Toy.

Definition is_infix (pattern s : string) : bool :=
  match String.index 0 pattern s with Some _ => true | None => false end.

Definition carbon : Atom := mkAtom "C" (Some "C1") (1, 2, 3)%Q.
Definition oxygen : Atom := mkAtom "O" (Some "O1") (4, 5, 6)%Q.
Definition dummy : Atom := mkAtom "*" (Some "CONN1") (7, 8, 9)%Q.

Definition mol_of (smi : string) : Mol :=
  mkMol (if Py.contains "*" smi then [dummy; carbon; oxygen] else [carbon; oxygen])
        (Some smi).

Definition matches (m : Mol) (pattern : string) : bool :=
  match prop_Name m with
  | Some smi => is_infix pattern smi
  | None => false
  end.

Definition show (x : Q) : string :=
  Py.str_int (Qnum x) ++ "/" ++ Py.str_int (Zpos (Qden x)).

Definition open_file (path : string) : result string :=
  if String.eqb path "apo.pdb" then Ok "apo"
  else Raise (mkExn "FileNotFoundError"
                ("[Errno 2] No such file or directory: '" ++ path ++ "'")).

Definition receptor : list pdb_atom :=
  [mkPdbAtom "SG" "CYS" "145" "A" ""; mkPdbAtom "CA" "CYS" "145" "A" ""].

Definition ligand : list pdb_atom :=
  [mkPdbAtom "C1" "LIG" "1" "" ""; mkPdbAtom "R" "LIG" "1" "" "";
   mkPdbAtom "CONN1" "LIG" "1" "" ""; mkPdbAtom "O1" "UNL" "1" "" ""].

Definition parse (text : string) : list pdb_atom :=
  if String.eqb text "apo" then receptor else ligand.

Definition unparse (l : list pdb_atom) : string :=
  String.concat "" (map (fun a => pa_name a ++ ":" ++ pa_resn a ++ ":" ++ pa_resi a
                                  ++ ":" ++ pa_chain a ++ nl) l).

Definition new_constraints (smi : string * string) (names : list string)
    (lig : resi) (target : option resi) : ext Constraints :=
  returns (mkConstraints smi names lig target " SG " "").

(** The collaborators, for a given [Params.from_smiles]. *)
Definition collaborators (from_smiles : string -> string -> ext Params) : External :=
  mkExternal string string
    open_file show
    matches (fun _ => "ligand") (fun _ => "molblock") (fun _ => Some (mol_of "S"))
    (fun m _ => m) (fun _ ligand => returns ligand)
    from_smiles
    (fun p _ _ => returns p) (fun _ name => name) (fun _ => "params")
    (fun _ _ => returns "pose")
    new_constraints (mkConstraints ("", "") [] (ResiInt 1) None "" "") custom_constraint
    parse unparse
    (fun m _ _ => returns (mkFragmenstein m m m))
    (fun _ m => map (fun _ => true) (atoms m))
    (fun _ m => map (fun _ => 0%Q) (atoms m))
    (fun pose => pose) (fun _ => returns (PyFloat 0))
    (fun pdbblock _ _ _ _ => returns pdbblock) (fun e => e) (fun e => returns e)
    (fun e => e) (fun _ => returns 0%Q) (fun _ => returns (mol_of "CO"))
    (fun _ hits _ => returns (0%Q, map (fun _ => 0%Q) hits)).

Definition E : External :=
  collaborators (fun smi name => returns (mkParams name (mol_of smi) ["chi"] ["CONN1"])).

(** The same collaborators with a parameterisation that raises. *)
Definition E_unparsable : External :=
  collaborators (fun smi _ => fails (ValueError ("unparsable SMILES " ++ smi))).

(** The same collaborators with a parameterisation that is interrupted
    (Ctrl-C). *)
Definition E_interrupted : External :=
  collaborators (fun _ _ => fails KeyboardInterrupt).

Definition acrylamide : WarheadDefinition :=
  mkWarhead "acrylamide" "C(=O)CC*" ["CZ"; "OZ"; "CY"; "CX"; "CONN1"]
            "C(=O)C=C" ["CZ"; "OZ"; "CY"; "CX"] None.

Definition chloroacetamide : WarheadDefinition :=
  mkWarhead "chloroacetamide" "C(=O)C*" ["CY"; "OY"; "CX"; "CONN1"]
            "C(=O)C[Cl]" ["CY"; "OY"; "CX"; "CLX"] (Some ("AtomPair SG 145A CX 1B HARMONIC 1.8 0.2" ++ nl)).

Definition cysteine : CovalentDefinition :=
  mkCovalent "CYS" "*SC" ["CONN3"; "SG"; "CB"].

Definition cls : Config :=
  mkConfig "output" [acrylamide; chloroacetamide] [cysteine]
           ["CONN"; "LOWE"; "UPPE"; "CONN1"; "CONN2"; "CONN3"; "LOWER"; "UPPER"].

Definition world : World := mkWorld [] [] [].

Definition hit : Mol := mol_of "CO".

(** [Victor('CCO', [hit], 'apo.pdb')]: a non-covalent job, defaults
    elsewhere. *)
Definition noncovalent : Args string :=
  mkArgs "CCO" [hit] "apo.pdb" "ligand" "LIG" (ResiStr "1B") "CYS" None None None.

(** The same with a covalent residue locator and an extra constraint. *)
Definition noncovalent_extra : Args string :=
  mkArgs "CCO" [hit] "apo.pdb" "ligand" "LIG" (ResiStr "1B") "CYS" (Some (ResiStr "145A"))
         (Some ("AtomPair CA 145A C1 1B HARMONIC 4 1" ++ nl)) None.

(** A covalent job with a chloroacetamide. *)
Definition covalent : Args string :=
  mkArgs "CCNC(=O)C*" [hit] "apo.pdb" "covalent ligand" "LIG" (ResiStr "1B") "CYS"
         (Some (ResiStr "145A")) (Some ("AtomPair CA 145A C1 1B HARMONIC 4 1" ++ nl)) None.

(** A covalent job whose warhead is not in the catalogue. *)
Definition unknown_warhead : Args string :=
  mkArgs "CCS(=O)(=O)C*" [hit] "apo.pdb" "sulfone" "LIG" (ResiStr "1B") "CYS"
         (Some (ResiStr "145A")) None None.

(** A job with a two-letter residue name. *)
Definition short_resn : Args string :=
  mkArgs "CCO" [hit] "apo.pdb" "ligand" "LI" (ResiStr "1B") "CYS" None None None.

(** A job whose receptor file is not there. *)
Definition missing_receptor : Args string :=
  mkArgs "CCO" [hit] "nowhere.pdb" "ligand" "LIG" (ResiStr "1B") "CYS" None None None.

Definition stored (a : Args string) : Victor string :=
  match store E a with
  | Ok self => self
  | Raise _ => mkVictor "" "" "" [] "" (ResiInt 0) "" None None None
  end.

(** The state of the job [a] when parameterisation has returned. *)
Definition parameterised (a : Args string) : state string :=
  fst (bind (validate E cls (stored a)) (fun _ => parameterise E cls a (stored a))
         (fresh E world)).

(** The same when the coordinate constraints have been added. *)
Definition restrained (a : Args string) : state string :=
  fst (bind (constrain E cls a (stored a)) (place E cls (stored a)) (parameterised a)).

(** The state in which [_place_fragmenstein] is called. *)
Definition before_placement (a : Args string) : state string :=
  let m := mol_of (arg_smiles a) in
  set_fragmenstein (Some (mkFragmenstein m m m))
    (fst (constrain E cls a (stored a) (parameterised a))).

(** The Fragmenstein of the job [a]. *)
Definition placement (a : Args string) : Fragmenstein :=
  let m := mol_of (arg_smiles a) in mkFragmenstein m m m.

(** A pattern that overlaps with the chloroacetamide. *)
Definition any_carbon : WarheadDefinition :=
  mkWarhead "alkyl" "C*" ["CX"; "CONN1"] "C" ["CX"] None.

End Toy.

(** ** Further notions *)

(** The state in which the [try] block of [__init__] ends. *)
Definition block_state (E : External) (cls : Config) (a : Args (Egor E))
    (self : Victor (Egor E)) (w : World) : state (Egor E) :=
  fst (pipeline E cls a self (fresh E w)).

(** A character of the ASCII range, where the classes of [re] are the
    ones of the embedding. *)
Definition is_ascii (c : ascii) : bool := (nat_of_ascii c <? 128)%nat.

(** The entry [_log_warnings] writes for the warning [w]. *)
Definition warning_entry {EgorT : Type} (self : Victor EgorT) (w : warning) : level * string :=
  (WARNING, long_name self ++ " - " ++ w_message w ++ " (" ++ w_category w ++ ")").

(** What [_place_fragmenstein] does to an atom of the scaffold. *)
Definition relabel (l_resi l_chain : string) (a : pdb_atom) : pdb_atom :=
  set_chain l_chain (set_resi l_resi a).

(** An atom [_place_fragmenstein] lets through. *)
Definition kept (cls : Config) (a : pdb_atom) : bool := negb (stripped cls a).

(** PyMOL compares the names of atoms and residues without regard to case
    (its setting [ignore_case] is on). *)
Definition same_name (x y : string) : bool := String.eqb (Py.upper x) (Py.upper y).

(** An atom that the selections [name R], [name <c>] for a connection
    name [c], or [resn UNL] match in PyMOL. *)
Definition removed (cls : Config) (a : pdb_atom) : bool :=
  same_name (pa_name a) "R"
  || existsb (same_name (pa_name a)) (_connected_names cls)
  || same_name (pa_resn a) "UNL".

(** A name without lower-case letters, and an atom named so, as PDB files
    have them. *)
Definition upper_case (x : string) : bool := String.eqb (Py.upper x) x.

Definition upper_case_atom (a : pdb_atom) : bool :=
  upper_case (pa_name a) && upper_case (pa_resn a).

(** A name made of upper-case letters and digits: used as a selection it
    has no wildcard. *)
Definition plain_name (x : string) : bool :=
  forallb (fun c => Py.is_upper c || Py.is_digit c) (list_ascii_of_string x).

(** The chain letter used when the locator has the letter [c], none when
    [c] is empty. *)
Definition chain_or (default c : string) : string :=
  if negb (Py.truthy c) then default else c.

(** What minimisation has given so far. *)
Definition minimisation {EgorT : Type} (s : state EgorT) : option EgorT * option string :=
  (egor s, minimised_pdbblock s).

(** The score function never returns text. *)
Definition score_is_never_text (E : External) : Prop :=
  forall pose, match snd (scorefxn E pose) with
               | Ok (PyStr _) => False
               | _ => True
               end.

(** A block that never returns and, when it stops, has left a projection
    of the state as it was. *)
Definition stops_keeping {S A X : Type} (proj : S -> X) (m : M S A) : Prop :=
  forall s,
    match m s with
    | (s1, Ok _) => False
    | (s1, Raise _) => proj s1 = proj s
    end.

(** The files [_checkpoint_alpha] writes for the hits [hs], the first of
    which has the index [h]. *)
Fixpoint hit_files (E : External) (cls : Config) {EgorT : Type} (self : Victor EgorT)
    (h : nat) (hs : list Mol) : list (string * content) :=
  match hs with
  | [] => []
  | hit :: rest =>
      (Py.path_join [work_path cls; long_name self; hit_name h hit ++ ".pdb"],
       Text (MolToPDBBlock E hit))
      :: (Py.path_join [work_path cls; long_name self; hit_name h hit ++ ".mol"],
          Text (MolToMolBlock E hit))
      :: hit_files E cls self (S h) rest
  end.

(** A hit without a usable ["_Name"]: the property is missing or blank. *)
Definition unnamed (hit : Mol) : bool :=
  match prop_Name hit with
  | Some n => negb (Py.truthy (Py.strip n))
  | None => true
  end.

(** ** A second instance of the collaborators

    As [Toy], with a score function that returns text, so that a run can
    go through, and with a receptor that has the same residue in two
    chains. *)
Module Lab.

Definition receptor : list pdb_atom :=
  [mkPdbAtom "SG" "CYS" "145" "A" ""; mkPdbAtom "CA" "CYS" "145" "A" "";
   mkPdbAtom "SG" "CYS" "145" "B" ""; mkPdbAtom "UPPER" "CYS" "145" "B" ""].

Definition parse (text : string) : list pdb_atom :=
  if String.eqb text "apo" then receptor else Toy.ligand.

Definition E : External :=
  mkExternal string string
    Toy.open_file Toy.show
    Toy.matches (fun _ => "ligand") (fun _ => "molblock") (fun _ => Some (Toy.mol_of "S"))
    (fun m _ => m) (fun _ ligand => returns ligand)
    (fun smi name => ([mkWarning "no Gasteiger charges" "UserWarning"],
                      Ok (mkParams name (Toy.mol_of smi) ["chi"] ["CONN1"])))
    (fun p _ _ => returns p) (fun _ name => name) (fun _ => "params")
    (fun _ _ => returns "pose")
    Toy.new_constraints (mkConstraints ("", "") [] (ResiInt 1) None "" "") custom_constraint
    parse Toy.unparse
    (fun m _ _ => returns (mkFragmenstein m m m))
    (fun _ m => map (fun _ => true) (atoms m))
    (fun _ m => map (fun _ => 0%Q) (atoms m))
    (fun pose => pose) (fun _ => returns (PyStr "-1.5"))
    (fun pdbblock _ _ _ _ => returns pdbblock) (fun e => e)
    (fun e => returns (e ++ " minimised"))
    (fun e => e) (fun _ => returns 0%Q) (fun _ => returns (Toy.mol_of "CO"))
    (fun _ hits _ => returns (0%Q, map (fun _ => 0%Q) hits)).

(** The same with a ligand score that raises. *)
Definition E_unscored : External :=
  mkExternal string string
    Toy.open_file Toy.show
    Toy.matches (fun _ => "ligand") (fun _ => "molblock") (fun _ => Some (Toy.mol_of "S"))
    (fun m _ => m) (fun _ ligand => returns ligand)
    (fun smi name => returns (mkParams name (Toy.mol_of smi) ["chi"] ["CONN1"]))
    (fun p _ _ => returns p) (fun _ name => name) (fun _ => "params")
    (fun _ _ => returns "pose")
    Toy.new_constraints (mkConstraints ("", "") [] (ResiInt 1) None "" "") custom_constraint
    parse Toy.unparse
    (fun m _ _ => returns (mkFragmenstein m m m))
    (fun _ m => map (fun _ => true) (atoms m))
    (fun _ m => map (fun _ => 0%Q) (atoms m))
    (fun pose => pose) (fun _ => returns (PyStr "-1.5"))
    (fun pdbblock _ _ _ _ => returns pdbblock) (fun e => e)
    (fun e => returns (e ++ " minimised"))
    (fun e => e) (fun _ => fails (mkExn "RuntimeError" "no ligand in pose"))
    (fun _ => returns (Toy.mol_of "CO"))
    (fun _ hits _ => returns (0%Q, map (fun _ => 0%Q) hits)).

Definition stored (a : Args string) : Victor string :=
  match store E a with
  | Ok self => self
  | Raise _ => mkVictor "" "" "" [] "" (ResiInt 0) "" None None None
  end.

(** A covalent job with locators that have no chain letter. *)
Definition covalent_no_chain : Args string :=
  mkArgs "CCNC(=O)C*" [Toy.hit; mkMol [] None; mkMol [] (Some "  ")] "apo.pdb"
         "covalent ligand" "LIG" (ResiInt 1) "CYS" (Some (ResiInt 145)) None None.

(** A covalent job that declares no residue type. *)
Definition no_residue_type : Args string :=
  mkArgs "CCNC(=O)C*" [Toy.hit] "apo.pdb" "ligand" "LIG" (ResiStr "1B") ""
         (Some (ResiStr "145A")) None None.

(** The state of the job [a] when parameterisation has returned. *)
Definition parameterised (a : Args string) : state string :=
  fst (bind (validate E Toy.cls (stored a)) (fun _ => parameterise E Toy.cls a (stored a))
         (fresh E Toy.world)).

(** The state of the job [a] when the constraint has been made. *)
Definition constrained (a : Args string) : state string :=
  fst (constrain E Toy.cls a (stored a) (parameterised a)).

(** The state of the job [a] when the coordinate constraints are added. *)
Definition restrained (a : Args string) : state string :=
  fst (bind (constrain E Toy.cls a (stored a)) (place E Toy.cls (stored a))
         (parameterised a)).

(** The state of the job [a] when Egor has minimised. *)
Definition minimised_state (a : Args string) : state string :=
  set_minimised_pdbblock (Some "pose minimised")
    (set_egor (Some "pose minimised") (restrained a)).

End Lab.

(** * Properties *)

(** ** Python strings *)

Lemma upper_length (s : string) : String.length (Py.upper s) = String.length s.
Proof. induction s as [|c r IH]; simpl; [reflexivity | now rewrite IH]. Qed.

Lemma upper_truthy (s : string) : Py.truthy (Py.upper s) = Py.truthy s.
Proof. destruct s; reflexivity. Qed.

Lemma truthy_false (s : string) : Py.truthy s = false <-> s = "".
Proof. destruct s; simpl; split; intro H; try reflexivity; discriminate. Qed.

Lemma append_assoc (a b c : string) : (a ++ b) ++ c = a ++ (b ++ c).
Proof. induction a as [|x a IH]; simpl; [reflexivity | now rewrite IH]. Qed.

Lemma append_nil_r (a : string) : a ++ "" = a.
Proof. induction a as [|x a IH]; simpl; [reflexivity | now rewrite IH]. Qed.

Lemma mem_In (x : string) (l : list string) : Py.mem x l = true <-> In x l.
Proof.
  unfold Py.mem. rewrite existsb_exists. split.
  - intros [y [Hy Heq]]. apply String.eqb_eq in Heq. now subst.
  - intro H. exists x. split; [assumption | apply String.eqb_refl].
Qed.

(** ** The monad *)

Section Monad.

Context {S A B : Type}.

Lemma bind_Ok (m : M S A) (f : A -> M S B) (s s' : S) (b : B) :
  bind m f s = (s', Ok b) ->
  exists s1 a, m s = (s1, Ok a) /\ f a s1 = (s', Ok b).
Proof.
  unfold bind. destruct (m s) as [s1 [a|e]]; intro H.
  - now exists s1, a.
  - discriminate.
Qed.

Lemma bind_step (m : M S A) (f : A -> M S B) (s s1 : S) (a : A) :
  m s = (s1, Ok a) -> bind m f s = f a s1.
Proof. unfold bind. now intros ->. Qed.

Lemma bind_stop (m : M S A) (f : A -> M S B) (s s1 : S) (e : exn) :
  m s = (s1, Raise e) -> bind m f s = (s1, Raise e).
Proof. unfold bind. now intros ->. Qed.

Lemma preserves_bind {X : Type} (proj : S -> X) (m : M S A) (f : A -> M S B) :
  preserves proj m -> (forall a, preserves proj (f a)) -> preserves proj (bind m f).
Proof.
  intros Hm Hf s. unfold bind. specialize (Hm s).
  destruct (m s) as [s1 [a|e]]; simpl in *.
  - now rewrite Hf.
  - assumption.
Qed.

Lemma preserves_ret {X : Type} (proj : S -> X) (a : A) : preserves proj (@ret S A a).
Proof. intro s. reflexivity. Qed.

Lemma preserves_raise {X : Type} (proj : S -> X) (e : exn) : preserves proj (@raise S A e).
Proof. intro s. reflexivity. Qed.

End Monad.

Lemma try_except_Ok {S : Type} (body : M S unit) (h : exn -> M S unit) (s s1 : S) :
  body s = (s1, Ok tt) -> try_except body h s = (s1, Ok tt).
Proof. unfold try_except. now intros ->. Qed.

Lemma try_except_Raise {S : Type} (body : M S unit) (h : exn -> M S unit) (s s1 : S) (e : exn) :
  body s = (s1, Raise e) -> is_Exception e = true -> try_except body h s = h e s1.
Proof. unfold try_except. now intros -> ->. Qed.

Lemma try_except_escapes {S : Type} (body : M S unit) (h : exn -> M S unit) (s s1 : S)
    (e : exn) :
  body s = (s1, Raise e) -> is_Exception e = false -> try_except body h s = (s1, Raise e).
Proof. unfold try_except. now intros -> ->. Qed.

Lemma preserves_attribute (E : External) {A X : Type} (proj : state (Egor E) -> X)
    (name : string) (get : state (Egor E) -> option A) :
  preserves proj (attribute E name get).
Proof. intro s. unfold attribute. now destruct (get s). Qed.

Lemma preserves_log_warnings (E : External) {X : Type} (proj : state (Egor E) -> X)
    (self : Victor (Egor E)) :
  (forall s j, proj (set_journal j s) = proj s) ->
  (forall s ws, proj (set_warned ws s) = proj s) ->
  preserves proj (_log_warnings E self).
Proof.
  intros Hj Hw s. unfold _log_warnings. destruct (_warned s); simpl.
  - reflexivity.
  - now rewrite Hw, Hj.
Qed.

(** Frames: one step of a proof that a method leaves a projection of the
    state alone. *)
Ltac frame_step :=
  first
    [ assumption
    | apply preserves_ret
    | apply preserves_raise
    | apply preserves_attribute
    | apply preserves_log_warnings; intros; reflexivity
    | apply preserves_bind; [ | intro ]
    | match goal with
      | |- preserves _ (match ?x with _ => _ end) => destruct x
      | |- preserves _ (let _ := _ in _) => cbv zeta
      end
    | (intro; reflexivity) ].

Ltac frame := repeat frame_step.

(** ** Frames of the methods *)

Section Frames.

Variable E : External.
Variable cls : Config.

Implicit Type self : Victor (Egor E).

Lemma validate_files self : preserves files (validate E cls self).
Proof. unfold validate, check_covalent, _assert_inputs, assert. frame. Qed.

Lemma parameterise_files a self : preserves files (parameterise E cls a self).
Proof. unfold parameterise, _make_output_folder. frame. Qed.

Lemma apply_warhead_files self d : preserves files (apply_warhead E cls self d).
Proof. unfold apply_warhead. frame. Qed.

Lemma for_war_def_files self defs : preserves files (for_war_def E cls self defs).
Proof.
  induction defs as [|d rest IH]; simpl.
  - frame.
  - apply preserves_bind; [frame | intro p].
    destruct (HasSubstructMatch E (params_mol p) (war_covalent d)).
    + apply apply_warhead_files.
    + exact IH.
Qed.

Lemma _get_constraint_files self extra : preserves files (_get_constraint E cls self extra).
Proof.
  pose proof (for_war_def_files self (warhead_definitions cls)).
  unfold _get_constraint, _fix_covalent, iadd_custom_constraint. frame.
Qed.

Lemma _get_attachment_files self : preserves files (_get_attachment_from_pdbblock E self).
Proof. unfold _get_attachment_from_pdbblock. frame. Qed.

Lemma _get_attachment_constraint self :
  preserves constraint (_get_attachment_from_pdbblock E self).
Proof. unfold _get_attachment_from_pdbblock. frame. Qed.

Lemma constrain_files a self : preserves files (constrain E cls a self).
Proof.
  pose proof (_get_constraint_files self (arg_extra_constraint a)).
  pose proof (_get_attachment_files self).
  unfold constrain, post_params_step. frame.
Qed.

Lemma _place_fragmenstein_files self : preserves files (_place_fragmenstein E cls self).
Proof. unfold _place_fragmenstein. frame. Qed.

Lemma _place_fragmenstein_constraint self : preserves constraint (_place_fragmenstein E cls self).
Proof. unfold _place_fragmenstein. frame. Qed.

Lemma _make_coordinate_constraints_files self :
  preserves files (_make_coordinate_constraints E cls self).
Proof. unfold _make_coordinate_constraints. frame. Qed.

Lemma place_files self att : preserves files (place E cls self att).
Proof.
  pose proof (_place_fragmenstein_files self).
  pose proof (_make_coordinate_constraints_files self).
  unfold place, add_coordinate_constraints. frame.
Qed.

End Frames.

(** ** The failure boundary of the constructor *)

Section Boundary.

Variable E : External.
Variable cls : Config.

Implicit Type self : Victor (Egor E).
Implicit Type s : state (Egor E).

Lemma terminal_state_failed s (j : list (level * string)) self err :
  terminal_state (set_journal (j ++ [failure_entry self err]) s) = failed.
Proof. unfold terminal_state. simpl. now rewrite last_last. Qed.

Lemma handler_logs self err s :
  handler E self err s = (set_journal (journal s ++ [failure_entry self err]) s, Ok tt).
Proof. reflexivity. Qed.

(** What the constructor leaves when the block raised [err] in state
    [s1]: for an instance of [Exception] the object, with the failure
    logged; for another exception, that exception for the caller. *)
Lemma init_raised a w self s1 err :
  store E a = Ok self ->
  pipeline E cls a self (fresh E w) = (s1, Raise err) ->
  is_Exception err = true ->
  __init__ E cls a w =
  Constructed E self (set_journal (journal s1 ++ [failure_entry self err]) s1).
Proof.
  intros Hs Hp He. unfold __init__. rewrite Hs.
  now rewrite (try_except_Raise _ _ _ _ _ Hp He), handler_logs.
Qed.

Lemma init_escaped a w self s1 err :
  store E a = Ok self ->
  pipeline E cls a self (fresh E w) = (s1, Raise err) ->
  is_Exception err = false ->
  __init__ E cls a w = Propagated E err s1.
Proof.
  intros Hs Hp He. unfold __init__. rewrite Hs.
  now rewrite (try_except_escapes _ _ _ _ _ Hp He).
Qed.

(** A block that raised leaves a failed job, or an exception outside
    [Exception] for the caller; either way the state is the one of the
    failing stage, up to the journal. *)
Lemma init_stopped a w self s1 err :
  store E a = Ok self ->
  pipeline E cls a self (fresh E w) = (s1, Raise err) ->
  exists s,
    (__init__ E cls a w = Constructed E self s /\ terminal_state s = failed \/
     exists err', is_Exception err' = false /\ __init__ E cls a w = Propagated E err' s) /\
    (s = set_journal (journal s1 ++ [failure_entry self err]) s1 \/ s = s1).
Proof.
  intros Hs Hp. destruct (is_Exception err) eqn:He.
  - eexists. split; [ left | left; reflexivity ].
    split; [ apply (init_raised a w self s1 err Hs Hp He) | apply terminal_state_failed ].
  - exists s1. split; [ right | right; reflexivity ].
    exists err. split; [ exact He | apply (init_escaped a w self s1 err Hs Hp He) ].
Qed.

(** C1 (amended). [except Exception] is the boundary: when a stage raises
    an exception that is an instance of [Exception] inside the [try] block
    of the constructor, the constructor still returns the object (nothing
    reaches the caller): the handler appends to the journal one entry made
    of the name of the job, the class of the exception and its message,
    leaves the rest of the state as the failing stage left it, and the job
    is in its failed terminal state. *)
Theorem failure_boundary_catches_every_stage (a : Args (Egor E)) (w : World) self s1 err :
  store E a = Ok self ->
  pipeline E cls a self (fresh E w) = (s1, Raise err) ->
  is_Exception err = true ->
  __init__ E cls a w
  = Constructed E self
      (set_journal
         (journal s1 ++
          [(ERROR, long_name self ++ " " ++ em_dash ++ " " ++
                   exn_class err ++ ": " ++ exn_msg err)]) s1) /\
  terminal_state
    (set_journal
       (journal s1 ++
        [(ERROR, long_name self ++ " " ++ em_dash ++ " " ++
                 exn_class err ++ ": " ++ exn_msg err)]) s1) = failed.
Proof.
  intros Hs Hp He. split.
  - apply (init_raised a w self s1 err Hs Hp He).
  - apply (terminal_state_failed s1 (journal s1) self err).
Qed.

(** C10. The receptor file is read while the entry attributes are stored,
    before the [try] block: when [open] raises, the exception goes to the
    caller of the constructor, and nothing is logged or changed. *)
Theorem receptor_is_read_before_boundary (a : Args (Egor E)) (w : World) (err : exn) :
  open_read E (arg_pdb_filename a) = Raise err ->
  __init__ E cls a w = Propagated E err (fresh E w) /\
  journal (fresh E w) = w_journal w.
Proof.
  intro H. unfold __init__, store. rewrite H. split; reflexivity.
Qed.

End Boundary.

(** ** Input validation *)

Section Validation.

Variable E : External.
Variable cls : Config.

Implicit Type self : Victor (Egor E).
Implicit Type s : state (Egor E).

(** [_assert_inputs] neither reads nor writes the state. *)
Lemma _assert_inputs_pure self s :
  _assert_inputs E cls self s = (s, snd (_assert_inputs E cls self s)).
Proof.
  unfold _assert_inputs, assert, bind, ret, raise.
  repeat match goal with
         | |- context [if ?b then _ else _] => destruct b; simpl
         end; reflexivity.
Qed.

Lemma _assert_inputs_rejects self s :
  rejected cls self ->
  exists err,
    _assert_inputs E cls self s = (s, Raise err) /\
    (exn_class err = "AssertionError" \/ exn_class err = "ValueError") /\
    is_Exception err = true.
Proof.
  intro H. unfold _assert_inputs, assert, bind, ret, raise.
  destruct (Nat.eqb (String.length (ligand_resn self)) 3) eqn:Hlen;
    [ | eexists; split; [reflexivity | split; [now left | reflexivity]] ].
  destruct (Nat.eqb (List.length (hits self)) 0) eqn:Hhits; simpl;
    [ eexists; split; [reflexivity | split; [now left | reflexivity]] | ].
  destruct (String.eqb (ligand_resn self) "UNL") eqn:Hunl; simpl;
    [ eexists; split; [reflexivity | split; [now left | reflexivity]] | ].
  destruct (Py.truthy (covalent_resn self)
            && Nat.eqb (List.length (residue_definitions cls (covalent_resn self))) 0) eqn:Hcov;
    [ eexists; split; [reflexivity | split; [now right | reflexivity]] | ].
  exfalso. destruct H as [H | [H | [H | [H1 H2]]]].
  - apply Nat.eqb_eq in Hlen. contradiction.
  - apply String.eqb_neq in Hunl. contradiction.
  - rewrite H in Hhits. discriminate.
  - rewrite H2 in Hcov. simpl in Hcov. rewrite andb_true_r in Hcov.
    apply truthy_false in Hcov. contradiction.
Qed.

Lemma store_rejected (a : Args (Egor E)) self :
  store E a = Ok self -> violates_precondition cls a -> rejected cls self.
Proof.
  unfold store. destruct (open_read E (arg_pdb_filename a)); [ | discriminate ].
  intros [= <-] H. unfold rejected. simpl. rewrite upper_length. exact H.
Qed.

(** The checks raise for a rejected job, and the only thing they may have
    done to the state is to set [is_covalent]. *)
Lemma validate_rejects self s :
  rejected cls self ->
  exists err s1,
    validate E cls self s = (s1, Raise err) /\
    (exn_class err = "AssertionError" \/ exn_class err = "ValueError") /\
    is_Exception err = true /\
    (s1 = s \/ exists b, s1 = set_is_covalent (Some b) s).
Proof.
  intro H. unfold validate, check_covalent.
  destruct (Py.contains "*" (smiles self)) eqn:Hstar; simpl.
  - destruct (covalent_resi self); simpl.
    + destruct (_assert_inputs_rejects self (set_is_covalent (Some true) s) H)
        as [err [He [Hc Hx]]].
      exists err, (set_is_covalent (Some true) s). unfold bind, modify. rewrite He.
      split; [ reflexivity | ]. split; [ assumption | ]. split; [ assumption | ].
      right; now exists true.
    + eexists; eexists.
      split; [reflexivity | split; [now right | split; [reflexivity | now left]]].
  - destruct (_assert_inputs_rejects self (set_is_covalent (Some false) s) H)
      as [err [He [Hc Hx]]].
    exists err, (set_is_covalent (Some false) s). unfold bind, modify. rewrite He.
    split; [ reflexivity | ]. split; [ assumption | ]. split; [ assumption | ].
    right; now exists false.
Qed.

(** C7 (amended). A job that violates an input precondition is stopped by
    the first failing check, which raises an [AssertionError] or a
    [ValueError] (there is no [ConfigurationError]); this happens before
    any directory or file is created and before any collaborator is called
    (no parameterisation): the constructor only logs the failure and the
    job is in its failed state. *)
Theorem validation_is_eager (a : Args (Egor E)) (w : World) self :
  store E a = Ok self ->
  violates_precondition cls a ->
  exists s err,
    __init__ E cls a w = Constructed E self s /\
    snd (validate E cls self (fresh E w)) = Raise err /\
    (exn_class err = "AssertionError" \/ exn_class err = "ValueError") /\
    journal s = (w_journal w ++ [failure_entry self err])%list /\
    dirs s = w_dirs w /\ files s = w_files w /\ trace s = [] /\ params s = None /\
    terminal_state s = failed.
Proof.
  intros Hs Hv.
  destruct (validate_rejects self (fresh E w) (store_rejected a self Hs Hv))
    as [err [s1 [Hval [Hclass [Hexc Hs1]]]]].
  assert (Hp : pipeline E cls a self (fresh E w) = (s1, Raise err)).
  { unfold pipeline. now apply bind_stop. }
  exists (set_journal (journal s1 ++ [failure_entry self err]) s1), err.
  split; [ apply (init_raised E cls a w self s1 err Hs Hp Hexc) | ].
  split; [ now rewrite Hval | ].
  split; [ assumption | ].
  destruct Hs1 as [-> | [b ->]]; repeat split; apply terminal_state_failed.
Qed.

End Validation.

(** ** Warhead selection *)

Section Warheads.

Variable E : External.
Variable cls : Config.

Implicit Type self : Victor (Egor E).
Implicit Type s : state (Egor E).

(** A list with a matching entry splits at its first matching entry. *)
Lemma first_match_split {A : Type} (f : A -> bool) (l : list A) :
  (exists d, In d l /\ f d = true) ->
  exists pre d post,
    l = (pre ++ d :: post)%list /\ Forall (fun x => f x = false) pre /\ f d = true.
Proof.
  induction l as [|x l IH]; intros [d [Hin Hd]].
  - destruct Hin.
  - destruct (f x) eqn:Hx.
    + exists [], x, l. repeat split; [constructor | assumption].
    + destruct IH as [pre [d' [post [Hl [Hpre Hd']]]]].
      { destruct Hin as [-> | Hin]; [congruence | now exists d]. }
      exists (x :: pre), d', post. subst l. repeat split; [now constructor | assumption].
Qed.

(** The loop skips the entries that do not match and runs the body of the
    first that does; what follows it in the catalogue is not looked at. *)
Lemma for_war_def_first self (pre post : list WarheadDefinition) (d : WarheadDefinition) s p :
  params s = Some p ->
  Forall (fun x => has_warhead E p x = false) pre ->
  has_warhead E p d = true ->
  for_war_def E cls self (pre ++ d :: post) s = apply_warhead E cls self d s.
Proof.
  intros Hp Hpre Hd. induction Hpre as [|x pre Hx Hpre IH]; simpl.
  - unfold bind at 1. unfold attribute at 1. rewrite Hp.
    unfold has_warhead in Hd. now rewrite Hd.
  - unfold bind at 1. unfold attribute at 1. rewrite Hp.
    unfold has_warhead in Hx. now rewrite Hx.
Qed.

(** C2. When the candidate of a covalent job has the reactive pattern of
    at least one entry of the catalogue, [_fix_covalent] runs the body of
    its loop for exactly one entry, the first in catalogue order that
    matches, whatever comes after it; so of two overlapping entries the
    one that comes first wins, in either order. *)
Theorem first_matching_warhead_is_selected self s p :
  params s = Some p ->
  (exists d, In d (warhead_definitions cls) /\ has_warhead E p d = true) ->
  (exists pre d post,
      warhead_definitions cls = (pre ++ d :: post)%list /\
      Forall (fun x => has_warhead E p x = false) pre /\
      has_warhead E p d = true /\
      _fix_covalent E cls self s
      = apply_warhead E cls self d
          (set_journal (journal s ++ [(DEBUG, long_name self ++ " - fixing for covalent")]) s))
  /\
  (forall d1 d2 rest,
      has_warhead E p d1 = true -> has_warhead E p d2 = true ->
      _fix_covalent E (with_warheads cls (d1 :: d2 :: rest)) self s
      = apply_warhead E cls self d1
          (set_journal (journal s ++ [(DEBUG, long_name self ++ " - fixing for covalent")]) s)
      /\
      _fix_covalent E (with_warheads cls (d2 :: d1 :: rest)) self s
      = apply_warhead E cls self d2
          (set_journal (journal s ++ [(DEBUG, long_name self ++ " - fixing for covalent")]) s)).
Proof.
  intros Hp Hex. split.
  - destruct (first_match_split (has_warhead E p) _ Hex) as [pre [d [post [Hl [Hpre Hd]]]]].
    exists pre, d, post. repeat split; try assumption.
    unfold _fix_covalent. rewrite Hl. unfold bind at 1. simpl.
    now apply for_war_def_first with (p := p).
  - intros d1 d2 rest H1 H2. split.
    + unfold _fix_covalent. unfold bind at 1. simpl log.
      change (for_war_def E (with_warheads cls (d1 :: d2 :: rest)) self)
        with (for_war_def E cls self).
      now apply (for_war_def_first self [] (d2 :: rest) d1) with (p := p).
    + unfold _fix_covalent. unfold bind at 1. simpl log.
      change (for_war_def E (with_warheads cls (d2 :: d1 :: rest)) self)
        with (for_war_def E cls self).
      now apply (for_war_def_first self [] (d1 :: rest) d2) with (p := p).
Qed.

End Warheads.

(** ** Inversion of the primitive methods *)

Section Inversion.

Variable E : External.

Implicit Type s : state (Egor E).

Lemma attribute_Ok {A : Type} (name : string) (get : state (Egor E) -> option A) s s1 (a : A) :
  attribute E name get s = (s1, Ok a) -> s1 = s /\ get s = Some a.
Proof.
  unfold attribute. destruct (get s); intro H; inversion H. now split.
Qed.

Lemma attribute_Some {A : Type} (name : string) (get : state (Egor E) -> option A) s (a : A) :
  get s = Some a -> attribute E name get s = (s, Ok a).
Proof. unfold attribute. now intros ->. Qed.

Lemma call_Ok {A : Type} (name : string) (x : ext A) s s1 (a : A) :
  call E name x s = (s1, Ok a) ->
  s1 = set_warned (_warned s ++ fst x) (set_trace (trace s ++ [name]) s) /\ snd x = Ok a.
Proof. unfold call. intro H. inversion H. now split. Qed.

Lemma call_returns {A : Type} (name : string) (x : ext A) s (ws : list warning) (a : A) :
  x = (ws, Ok a) ->
  call E name x s
  = (set_warned (_warned s ++ ws) (set_trace (trace s ++ [name]) s), Ok a).
Proof. now intros ->. Qed.

Lemma log_Ok (lvl : level) (msg : string) s s1 (u : unit) :
  log E lvl msg s = (s1, Ok u) -> s1 = set_journal (journal s ++ [(lvl, msg)]) s.
Proof. unfold log, modify. intro H. now inversion H. Qed.

Lemma modify_Ok (f : state (Egor E) -> state (Egor E)) s s1 (u : unit) :
  modify f s = (s1, Ok u) -> s1 = f s.
Proof. unfold modify. intro H. now inversion H. Qed.

Lemma preserves_Ok {A X : Type} (proj : state (Egor E) -> X) (m : M (state (Egor E)) A)
    s s1 (r : result A) :
  preserves proj m -> m s = (s1, r) -> proj s1 = proj s.
Proof. intros Hm H. specialize (Hm s). now rewrite H in Hm. Qed.

End Inversion.

(** Inversion of a block that returned: [H : bind m f s = (s', Ok b)] is
    split into the run of its first statement [m] and the run of the
    rest, which stays in [H]. *)
Tactic Notation "inv_bind" hyp(H) "as" ident(s1) ident(a) ident(H1) :=
  apply bind_Ok in H; destruct H as [s1 [a [H1 H]]].

(** The first statement is a log or an assignment. *)
Tactic Notation "inv_log" hyp(H) :=
  let s1 := fresh "s" in
  let u := fresh "u" in
  let H1 := fresh "Hlog" in
  inv_bind H as s1 u H1; apply log_Ok in H1; subst s1; clear u.

Tactic Notation "inv_modify" hyp(H) :=
  let s1 := fresh "s" in
  let u := fresh "u" in
  let H1 := fresh "Hmod" in
  inv_bind H as s1 u H1; apply modify_Ok in H1; subst s1; clear u.

(** The first statement reads an attribute: its value is [a]. *)
Tactic Notation "inv_attribute" hyp(H) "as" ident(a) ident(Ha) :=
  let s1 := fresh "s" in
  inv_bind H as s1 a Ha; apply attribute_Ok in Ha; destruct Ha as [-> Ha].

(** The first statement calls a collaborator, which returned [a]. *)
Tactic Notation "inv_call" hyp(H) "as" ident(a) ident(Ha) :=
  let s1 := fresh "s" in
  inv_bind H as s1 a Ha; apply call_Ok in Ha; destruct Ha as [-> Ha].

(** Starts a goal [exists s, ending s /\ facts s] from the way the
    constructor ended, [Hend]; the state is the one of the failing stage up
    to the journal, and [Hf] is a fact about that stage's state. *)
Ltac split_ending Hend := eexists; split; [ exact Hend | ].

Ltac exists_state_and_files Hend Hf := split_ending Hend; simpl; exact Hf.

(** Runs the first statement of a block when it is a log, an assignment
    or a [return]. *)
Ltac run_step :=
  match goal with
  | |- context [bind (log ?E ?l ?m) ?f ?x] =>
      change (bind (log E l m) f x)
        with (f tt (set_journal (journal x ++ [(l, m)]) x)); cbv beta
  | |- context [bind (modify ?g) ?f ?x] =>
      change (bind (modify g) f x) with (f tt (g x)); cbv beta
  | |- context [bind (ret ?v) ?f ?x] =>
      change (bind (ret v) f x) with (f v x); cbv beta
  end.

(** Runs the first statement [m] of a block: the goal follows when it
    raises, and goes on with its result when it returns. *)
Ltac run_or_stop m s1 a H :=
  match goal with
  | |- context [bind m ?f ?x] =>
      destruct (m x) as [s1 [a|?e]] eqn:H;
      [ rewrite (bind_step _ _ _ _ _ H)
      | rewrite (bind_stop _ _ _ _ _ H); now eauto ]
  end.

(** ** The merged structure *)

Section Placement.

Variable E : External.
Variable cls : Config.

Implicit Type self : Victor (Egor E).
Implicit Type s : state (Egor E).

Lemma remove_clears (sel : selection) (ses : session) :
  Forall (fun a => selected sel a = false) (cmd.remove sel ses).
Proof.
  unfold cmd.remove. apply Forall_forall. intros a Ha.
  apply filter_In in Ha. destruct Ha as [_ Ha]. now apply negb_true_iff in Ha.
Qed.

Lemma remove_keeps (P : string * pdb_atom -> Prop) (sel : selection) (ses : session) :
  Forall P ses -> Forall P (cmd.remove sel ses).
Proof.
  unfold cmd.remove. rewrite !Forall_forall. intros H a Ha.
  apply filter_In in Ha. now apply H.
Qed.

Lemma remove_names_keeps (P : string * pdb_atom -> Prop) (names : list string) (ses : session) :
  Forall P ses -> Forall P (cmd.remove_names names ses).
Proof.
  unfold cmd.remove_names. revert ses.
  induction names as [|c names IH]; intros ses H; simpl.
  - assumption.
  - apply IH. now apply remove_keeps.
Qed.

Lemma remove_names_clears (names : list string) (ses : session) :
  Forall (fun a => Py.mem (pa_name (snd a)) names = false) (cmd.remove_names names ses).
Proof.
  unfold cmd.remove_names. revert ses.
  induction names as [|c names IH]; intro ses; simpl.
  - apply Forall_forall. reflexivity.
  - pose proof (IH (cmd.remove (SelName c) ses)) as Hrest.
    pose proof (remove_names_keeps _ names _ (remove_clears (SelName c) ses)) as Hc.
    unfold cmd.remove_names in Hc.
    rewrite Forall_forall in *. intros a Ha.
    specialize (Hrest a Ha). specialize (Hc a Ha). simpl in Hc.
    unfold Py.mem in *. simpl. now rewrite Hc, Hrest.
Qed.

(** No atom that should have been stripped is left when the session is
    written out. *)
Lemma placed_atoms_stripped self (f : Fragmenstein) (l_resi l_chain : string) :
  Forall (fun a => stripped cls a = false) (placed_atoms E cls self f l_resi l_chain).
Proof.
  unfold placed_atoms, cmd.get_atoms.
  set (ses := cmd.alter _ _ (cmd.alter _ _ _)).
  apply Forall_map. apply Forall_forall. intros a Ha.
  apply filter_In in Ha. destruct Ha as [Ha _].
  pose proof (remove_clears (SelResn "UNL")
                (cmd.remove_names (_connected_names cls) (cmd.remove (SelName "R") ses))) as H3.
  pose proof (remove_keeps _ (SelResn "UNL") _
                (remove_names_clears (_connected_names cls) (cmd.remove (SelName "R") ses))) as H2.
  pose proof (remove_keeps _ (SelResn "UNL") _
                (remove_names_keeps _ (_connected_names cls) _
                   (remove_clears (SelName "R") ses))) as H1.
  rewrite Forall_forall in H1, H2, H3.
  specialize (H1 a Ha). specialize (H2 a Ha). specialize (H3 a Ha).
  simpl in H1, H3. unfold stripped. now rewrite H1, H2, H3.
Qed.

(** C9. The text [_place_fragmenstein] returns is the text PyMOL writes
    for the atoms left in the session, after the [LINK] record when the job
    is covalent; none of these atoms is a dummy (name [R]), none has a name
    of the connection set, none has the residue name [UNL]. *)
Theorem merged_structure_is_stripped self s s' (text : string) :
  _place_fragmenstein E cls self s = (s', Ok text) ->
  exists (link : string) (kept : list pdb_atom),
    text = link ++ get_pdbstr E kept /\
    Forall (fun a => pa_name a <> "R" /\
                     ~ In (pa_name a) (_connected_names cls) /\
                     pa_resn a <> "UNL") kept /\
    ((is_covalent s = Some false /\ link = "") \/
     (is_covalent s = Some true /\
      exists p_chain p_resi cx l_chain l_resi,
        link = LINK E self p_chain p_resi cx l_chain l_resi)).
Proof.
  unfold _place_fragmenstein.
  destruct (Py.match_resi (str_resi (ligand_resi self))) as [[l_resi l_chain]|];
    [ | discriminate ].
  destruct (Py.match_resi (str_opt_resi (covalent_resi self))) as [[p_resi p_chain]|];
    [ | discriminate ].
  intro H. inv_log H. inv_call H as u Hu.
  inv_attribute H as f Hf. inv_attribute H as covalent Hcov.
  simpl in Hcov.
  assert (Hkept : forall chain, Forall (fun a => pa_name a <> "R" /\
                     ~ In (pa_name a) (_connected_names cls) /\
                     pa_resn a <> "UNL") (placed_atoms E cls self f l_resi chain)).
  { intro chain. eapply Forall_impl; [ | apply placed_atoms_stripped ].
    intros x Hx. unfold stripped in Hx.
    apply orb_false_iff in Hx. destruct Hx as [Hx Hunl].
    apply orb_false_iff in Hx. destruct Hx as [Hr Hconn].
    repeat split.
    - now apply String.eqb_neq.
    - intro Hin. apply mem_In in Hin. congruence.
    - now apply String.eqb_neq. }
  destruct covalent.
  - inv_attribute H as p Hp.
    destruct (CONNECT p) as [|name rest]; [ discriminate | ].
    unfold ret in H. injection H as _ <-.
    exists (LINK E self (if negb (Py.truthy p_chain) then "A" else p_chain) p_resi
              (pad_name E p name) (if negb (Py.truthy l_chain) then "B" else l_chain) l_resi).
    eexists. split; [ reflexivity | ].
    split; [ apply Hkept | ]. right. split; [ exact Hcov | ].
    now repeat eexists.
  - unfold ret in H. injection H as _ <-.
    exists "". eexists. split; [ reflexivity | ].
    split; [ apply Hkept | ]. left. split; [ exact Hcov | reflexivity ].
Qed.

End Placement.

(** ** Coordinate constraints *)

Section Coordinates.

Variable E : External.
Variable cls : Config.

Implicit Type self : Victor (Egor E).

(** What the body of the loop appends: an atom with a true origin flag
    whose symbol is not in [_connected_names]. *)
Lemma coordinate_line_Some self (origins : list bool) (std : list Q) (mol : Mol) (i : nat)
    (l : CoordinateConstraint) :
  coordinate_line E cls self origins std mol i = Ok (Some l) ->
  exists atom sd,
    nth_error origins i = Some true /\
    nth_error (atoms mol) i = Some atom /\
    Py.mem (GetSymbol atom) (_connected_names cls) = false /\
    PDBResidueInfo_name atom = Some (cc_atom l) /\
    cc_pos l = AtomPosition atom /\
    nth_error std i = Some sd /\
    cc_width l = (sd + 1)%Q.
Proof.
  unfold coordinate_line.
  destruct (nth_error origins i) as [[|]|]; try discriminate.
  destruct (nth_error (atoms mol) i) as [atom|]; try discriminate.
  destruct (Py.mem (GetSymbol atom) (_connected_names cls)) eqn:Hmem; try discriminate.
  destruct (PDBResidueInfo_name atom) as [name|] eqn:Hname; try discriminate.
  destruct (nth_error std i) as [sd|]; try discriminate.
  intros [= <-]. exists atom, sd. simpl. now repeat split.
Qed.

(** An atom whose origin flag is false gets no line. *)
Lemma coordinate_line_no_origin self (origins : list bool) (std : list Q) (mol : Mol) (i : nat) :
  nth_error origins i = Some false ->
  coordinate_line E cls self origins std mol i = Ok None.
Proof. unfold coordinate_line. now intros ->. Qed.

(** An atom whose symbol is one of [_connected_names] gets no line. *)
Lemma coordinate_line_connected_symbol self (origins : list bool) (std : list Q) (mol : Mol)
    (i : nat) (atom : Atom) :
  nth_error origins i = Some true ->
  nth_error (atoms mol) i = Some atom ->
  Py.mem (GetSymbol atom) (_connected_names cls) = true ->
  coordinate_line E cls self origins std mol i = Ok None.
Proof. unfold coordinate_line. now intros -> -> ->. Qed.

(** Any other atom with a true origin flag gets its line, whatever its
    name: the name is written, not tested. *)
Lemma coordinate_line_other self (origins : list bool) (std : list Q) (mol : Mol)
    (i : nat) (atom : Atom) (name : string) (sd : Q) :
  nth_error origins i = Some true ->
  nth_error (atoms mol) i = Some atom ->
  Py.mem (GetSymbol atom) (_connected_names cls) = false ->
  PDBResidueInfo_name atom = Some name ->
  nth_error std i = Some sd ->
  coordinate_line E cls self origins std mol i
  = Ok (Some (mkCoordinateConstraint name (str_resi (ligand_resi self))
                (str_opt_resi (covalent_resi self)) (AtomPosition atom) (sd + 1)%Q)).
Proof. unfold coordinate_line. now intros -> -> -> -> ->. Qed.

(** The loop appends, in order, one line for each index whose body
    appends one, and nothing else. *)
Lemma coordinate_lines_flat_map self (origins : list bool) (std : list Q) (mol : Mol)
    (idx : list nat) (lines : list CoordinateConstraint) :
  coordinate_lines E cls self origins std mol idx = Ok lines ->
  lines = flat_map (fun i => match coordinate_line E cls self origins std mol i with
                             | Ok (Some l) => [l]
                             | _ => []
                             end) idx.
Proof.
  revert lines. induction idx as [|i rest IH]; simpl; intros lines H.
  - now inversion H.
  - destruct (coordinate_line E cls self origins std mol i) as [o|e]; [ | discriminate ].
    destruct (coordinate_lines E cls self origins std mol rest) as [ls|e]; [ | discriminate ].
    inversion H; subst. rewrite <- (IH ls eq_refl). now destruct o.
Qed.

Lemma coordinate_lines_In self (origins : list bool) (std : list Q) (mol : Mol)
    (idx : list nat) (lines : list CoordinateConstraint) (l : CoordinateConstraint) :
  coordinate_lines E cls self origins std mol idx = Ok lines ->
  In l lines ->
  exists i, In i idx /\ coordinate_line E cls self origins std mol i = Ok (Some l).
Proof.
  intros H Hin. rewrite (coordinate_lines_flat_map _ _ _ _ _ _ H) in Hin.
  apply in_flat_map in Hin. destruct Hin as [i [Hi Hl]]. exists i. split; [ assumption | ].
  destruct (coordinate_line E cls self origins std mol i) as [[l'|]|e]; simpl in Hl;
    try contradiction.
  destruct Hl as [-> | []]. reflexivity.
Qed.

(** C5 (amended). Every line of [_make_coordinate_constraints] belongs to
    an atom of the positioned molecule, carries its name and position, and
    has as width the spread of that atom plus one; the width is at least 1
    when the spread is not negative (it is exactly 1 for a spread of 0, so
    it does not always exceed 1). *)
Theorem restraint_width_is_spread_plus_one self (f : Fragmenstein)
    (lines : list CoordinateConstraint) :
  coordinate_constraints E cls self f = Ok lines ->
  Forall (fun l =>
            exists i atom sd,
              nth_error (atoms (positioned_mol f)) i = Some atom /\
              PDBResidueInfo_name atom = Some (cc_atom l) /\
              cc_pos l = AtomPosition atom /\
              nth_error (stdev_from_mol E f (positioned_mol f)) i = Some sd /\
              cc_width l = (sd + 1)%Q /\
              ((0 <= sd)%Q -> (1 <= cc_width l)%Q) /\
              (sd = 0%Q -> cc_width l = 1%Q)) lines.
Proof.
  unfold coordinate_constraints. intro H. apply Forall_forall. intros l Hin.
  destruct (coordinate_lines_In _ _ _ _ _ _ l H Hin) as [i [_ Hl]].
  apply coordinate_line_Some in Hl.
  destruct Hl as [atom [sd [_ [Hatom [_ [Hname [Hpos [Hsd Hw]]]]]]]].
  exists i, atom, sd. repeat split; try assumption.
  - intro Hpos0. rewrite Hw.
    setoid_replace 1%Q with (0 + 1)%Q at 1 by reflexivity.
    apply Qplus_le_compat; [ assumption | apply Qle_refl ].
  - intros ->. rewrite Hw. reflexivity.
Qed.

End Coordinates.

(** ** Running the block up to the coordinate constraints *)

Section Stages.

Variable E : External.
Variable cls : Config.

Implicit Type self : Victor (Egor E).
Implicit Type s : state (Egor E).

(** When the checks pass, all they did was to set [is_covalent]. *)
Lemma validate_Ok self s s1 (u : unit) :
  validate E cls self s = (s1, Ok u) ->
  s1 = set_is_covalent (Some (Py.contains "*" (smiles self))) s.
Proof.
  unfold validate, check_covalent. intro H. inv_bind H as s0 u0 Hcheck.
  rewrite _assert_inputs_pure in H. injection H as <- _.
  destruct (Py.contains "*" (smiles self)); simpl in Hcheck.
  - destruct (covalent_resi self); simpl in Hcheck; [ | discriminate ].
    now apply modify_Ok in Hcheck.
  - now apply modify_Ok in Hcheck.
Qed.

Lemma _log_warnings_total self s :
  exists s1, _log_warnings E self s = (s1, Ok tt).
Proof. unfold _log_warnings. destruct (_warned s); eexists; reflexivity. Qed.

Lemma _make_output_folder_total self s :
  exists s1, _make_output_folder E cls self s = (s1, Ok tt).
Proof.
  unfold _make_output_folder, bind, gets, mkdir, log, modify, ret.
  destruct (negb (path_exists E (work_path cls) s)); simpl;
    match goal with
    | |- context [if ?b then _ else _] => destruct b
    end; eexists; reflexivity.
Qed.

Lemma _make_output_folder_frame {X : Type} (proj : state (Egor E) -> X) self :
  (forall s j, proj (set_journal j s) = proj s) ->
  (forall s d, proj (set_dirs d s) = proj s) ->
  preserves proj (_make_output_folder E cls self).
Proof.
  intros Hj Hd s.
  unfold _make_output_folder, bind, gets, mkdir, log, modify, ret.
  destruct (negb (path_exists E (work_path cls) s)); simpl;
    match goal with
    | |- context [if ?b then _ else _] => destruct b
    end; simpl; now rewrite ?Hj, ?Hd.
Qed.

(** What parameterisation leaves behind when it returns. *)
Lemma parameterise_Ok (a : Args (Egor E)) self s s1 (u : unit) :
  parameterise E cls a self s = (s1, Ok u) ->
  is_covalent s1 = is_covalent s /\
  exists ws p,
    Params_from_smiles E (smiles self) (arg_ligand_resn a) = (ws, Ok p) /\
    params s1 = Some (set_CHI_data [] p).
Proof.
  unfold parameterise. intro H.
  inv_log H.
  inv_bind H as s2 u2 Hwarn.
  apply (preserves_Ok E is_covalent) in Hwarn; [ | frame ]. simpl in Hwarn.
  inv_bind H as s3 u3 Hfolder.
  apply (preserves_Ok E is_covalent) in Hfolder;
    [ | apply _make_output_folder_frame; reflexivity ].
  inv_log H. inv_call H as p Hcall. inv_modify H. inv_log H. inv_modify H.
  pose proof (preserves_Ok E is_covalent _ _ _ _
                (preserves_log_warnings E is_covalent self
                   (fun _ _ => eq_refl) (fun _ _ => eq_refl)) H) as Hc.
  pose proof (preserves_Ok E params _ _ _ _
                (preserves_log_warnings E params self
                   (fun _ _ => eq_refl) (fun _ _ => eq_refl)) H) as Hp.
  simpl in Hc, Hp. split.
  - congruence.
  - exists (fst (Params_from_smiles E (smiles self) (arg_ligand_resn a))), p.
    split; [ | exact Hp ].
    rewrite <- Hcall. now destruct (Params_from_smiles E (smiles self) (arg_ligand_resn a)).
Qed.

(** Parameterisation returns as soon as [Params.from_smiles] does. *)
Lemma parameterise_total (a : Args (Egor E)) self s (ws : list warning) (p : Params) :
  Params_from_smiles E (smiles self) (arg_ligand_resn a) = (ws, Ok p) ->
  exists s1, parameterise E cls a self s = (s1, Ok tt).
Proof.
  intro Hp. unfold parameterise. run_step.
  match goal with |- context [bind (_log_warnings E self) _ ?x] =>
    destruct (_log_warnings_total self x) as [s2 H2] end.
  rewrite (bind_step _ _ _ _ _ H2).
  destruct (_make_output_folder_total self s2) as [s3 H3].
  rewrite (bind_step _ _ _ _ _ H3). run_step.
  rewrite (bind_step _ _ _ _ _ (call_returns E _ _ _ _ _ Hp)).
  run_step. run_step. run_step.
  apply _log_warnings_total.
Qed.

(** A job that is not covalent and has no extra constraint gets no
    constraint object. *)
Lemma constrain_noncovalent (a : Args (Egor E)) self s :
  is_covalent s = Some false ->
  Py.truthy_opt (arg_extra_constraint a) = false ->
  exists s1,
    constrain E cls a self s = (s1, Ok None) /\ constraint s1 = Some None.
Proof.
  intros Hc Hx. unfold constrain, _get_constraint.
  unfold bind at 1. unfold bind at 1. rewrite (attribute_Some E _ _ _ _ Hc).
  run_step. rewrite Hx. unfold ret at 1. run_step.
  unfold bind at 1. rewrite (attribute_Some E "is_covalent" is_covalent _ false);
    [ | exact Hc ].
  run_step.
  match goal with |- context [bind (_log_warnings E self) _ ?x] =>
    destruct (_log_warnings_total self x) as [s2 H2];
    pose proof (preserves_Ok E constraint _ _ _ _
                  (preserves_log_warnings E constraint self
                     (fun _ _ => eq_refl) (fun _ _ => eq_refl)) H2) as Hk
  end.
  rewrite (bind_step _ _ _ _ _ H2). exists s2. split; [ reflexivity | exact Hk ].
Qed.

(** Without a constraint object the placement stage cannot return: at the
    latest, the augmented assignment of the coordinate constraints reads
    [custom_constraint] from [None]. *)
Lemma place_without_constraint self (att : option Mol) s :
  constraint s = Some None ->
  exists s1 err, place E cls self att s = (s1, Raise err).
Proof.
  intro Hk. unfold place. run_step.
  run_or_stop (attribute E "params" params) s2 p H2.
  apply attribute_Ok in H2. destruct H2 as [-> _].
  match goal with |- context [bind (call E ?n ?c) _ _] =>
    run_or_stop (call E n c) s3 f3 H3
  end.
  apply call_Ok in H3. destruct H3 as [-> _].
  run_step.
  run_or_stop (_place_fragmenstein E cls self) s4 text H4.
  apply (preserves_Ok E constraint) in H4; [ | apply _place_fragmenstein_constraint ].
  simpl in H4. rewrite Hk in H4.
  run_step.
  unfold add_coordinate_constraints.
  unfold bind at 1.
  rewrite (attribute_Some E "constraint" constraint _ None); [ | exact H4 ].
  unfold raise. now eauto.
Qed.

(** The loop over a catalogue without a matching entry ends in its
    [else] clause. *)
Lemma for_war_def_none self (defs : list WarheadDefinition) s (p : Params) :
  params s = Some p ->
  Forall (fun d => has_warhead E p d = false) defs ->
  for_war_def E cls self defs s
  = (s, Raise (ValueError (long_name self ++ " - Unsure what the warhead is."))).
Proof.
  intros Hp Hdefs. induction Hdefs as [|d rest Hd Hrest IH]; simpl.
  - reflexivity.
  - rewrite (bind_step _ _ _ _ _ (attribute_Some E _ _ _ _ Hp)).
    unfold has_warhead in Hd. now rewrite Hd.
Qed.

Lemma _fix_covalent_none self s (p : Params) :
  params s = Some p ->
  Forall (fun d => has_warhead E p d = false) (warhead_definitions cls) ->
  _fix_covalent E cls self s
  = (set_journal (journal s ++ [(DEBUG, long_name self ++ " - fixing for covalent")]) s,
     Raise (ValueError (long_name self ++ " - Unsure what the warhead is."))).
Proof.
  intros Hp Hdefs. unfold _fix_covalent. run_step.
  now apply for_war_def_none with (p := p).
Qed.

(** A covalent job whose candidate has none of the warheads stops in
    [_get_constraint]. *)
Lemma constrain_unknown_warhead (a : Args (Egor E)) self s (p : Params) :
  is_covalent s = Some true ->
  params s = Some p ->
  Forall (fun d => has_warhead E p d = false) (warhead_definitions cls) ->
  exists s1,
    constrain E cls a self s
    = (s1, Raise (ValueError (long_name self ++ " - Unsure what the warhead is."))).
Proof.
  intros Hc Hp Hdefs. unfold constrain, _get_constraint.
  unfold bind at 1. unfold bind at 1. rewrite (attribute_Some E _ _ _ _ Hc).
  run_step. unfold bind at 1.
  rewrite (_fix_covalent_none self _ p); [ now eauto | exact Hp | exact Hdefs ].
Qed.

(** The block of a job that is not covalent and has no extra constraint
    raises before the first checkpoint, without having written a file. *)
Lemma pipeline_noncovalent (a : Args (Egor E)) (w : World) self :
  Py.contains "*" (smiles self) = false ->
  Py.truthy_opt (arg_extra_constraint a) = false ->
  exists s1 err,
    pipeline E cls a self (fresh E w) = (s1, Raise err) /\ files s1 = w_files w.
Proof.
  intros Hstar Hx. unfold pipeline.
  destruct (validate E cls self (fresh E w)) as [sa [u|e]] eqn:Hv.
  2:{ exists sa, e. split; [ now apply bind_stop | ].
      now apply (preserves_Ok E files) in Hv; [ | apply validate_files ]. }
  rewrite (bind_step _ _ _ _ _ Hv).
  pose proof (preserves_Ok E files _ _ _ _ (validate_files E cls self) Hv) as Hfa.
  simpl in Hfa.
  apply validate_Ok in Hv. rewrite Hstar in Hv.
  destruct (parameterise E cls a self sa) as [sb [u'|e]] eqn:Hpar.
  2:{ exists sb, e. split; [ now apply bind_stop | ].
      apply (preserves_Ok E files) in Hpar; [ | apply parameterise_files ]. congruence. }
  rewrite (bind_step _ _ _ _ _ Hpar).
  pose proof (preserves_Ok E files _ _ _ _ (parameterise_files E cls a self) Hpar) as Hfb.
  apply parameterise_Ok in Hpar. destruct Hpar as [Hcb _].
  assert (Hc : is_covalent sb = Some false) by (rewrite Hcb, Hv; reflexivity).
  destruct (constrain_noncovalent a self sb Hc Hx) as [sc [Hcon Hk]].
  rewrite (bind_step _ _ _ _ _ Hcon).
  pose proof (preserves_Ok E files _ _ _ _ (constrain_files E cls a self) Hcon) as Hfc.
  destruct (place_without_constraint self None sc Hk) as [sd [err Hpl]].
  rewrite (bind_stop _ _ _ _ _ Hpl). exists sd, err. split; [ reflexivity | ].
  apply (preserves_Ok E files) in Hpl; [ | apply place_files ]. congruence.
Qed.

(** The block of a covalent job whose candidate has none of the warheads
    raises without having written a file; the exception is the one of
    [_fix_covalent] when the checks pass and parameterisation returns. *)
Lemma pipeline_unknown_warhead (a : Args (Egor E)) (w : World) self :
  Py.contains "*" (smiles self) = true ->
  (forall ws p,
      Params_from_smiles E (smiles self) (arg_ligand_resn a) = (ws, Ok p) ->
      Forall (fun d => has_warhead E p d = false) (warhead_definitions cls)) ->
  exists s1 err,
    pipeline E cls a self (fresh E w) = (s1, Raise err) /\
    files s1 = w_files w /\
    (snd (validate E cls self (fresh E w)) = Ok tt ->
     (exists ws p, Params_from_smiles E (smiles self) (arg_ligand_resn a) = (ws, Ok p)) ->
     err = ValueError (long_name self ++ " - Unsure what the warhead is.")).
Proof.
  intros Hstar Hnone. unfold pipeline.
  destruct (validate E cls self (fresh E w)) as [sa [u|e]] eqn:Hv.
  2:{ exists sa, e. split; [ now apply bind_stop | ]. split.
      - now apply (preserves_Ok E files) in Hv; [ | apply validate_files ].
      - discriminate. }
  rewrite (bind_step _ _ _ _ _ Hv).
  pose proof (preserves_Ok E files _ _ _ _ (validate_files E cls self) Hv) as Hfa.
  simpl in Hfa.
  apply validate_Ok in Hv. rewrite Hstar in Hv.
  destruct (parameterise E cls a self sa) as [sb [u'|e]] eqn:Hpar.
  2:{ exists sb, e. split; [ now apply bind_stop | ]. split.
      - apply (preserves_Ok E files) in Hpar; [ | apply parameterise_files ]. congruence.
      - intros _ [ws [p Hp]].
        destruct (parameterise_total a self sa ws p Hp) as [sb' Hret]. congruence. }
  rewrite (bind_step _ _ _ _ _ Hpar).
  pose proof (preserves_Ok E files _ _ _ _ (parameterise_files E cls a self) Hpar) as Hfb.
  apply parameterise_Ok in Hpar. destruct Hpar as [Hcb [ws [p [Hp Hparams]]]].
  assert (Hc : is_covalent sb = Some true) by (rewrite Hcb, Hv; reflexivity).
  destruct (constrain_unknown_warhead a self sb (set_CHI_data [] p) Hc Hparams
              (Hnone ws p Hp)) as [sc Hcon].
  rewrite (bind_stop _ _ _ _ _ Hcon). eexists. eexists. split; [ reflexivity | ]. split.
  - apply (preserves_Ok E files) in Hcon; [ | apply constrain_files ]. congruence.
  - reflexivity.
Qed.

(** C3 (what the code does). A job that is not covalent and has no extra
    constraint text has no constraint object, and its placement stage
    raises ([str(None)] has no residue index, and the augmented assignment
    of the coordinate constraints reads an attribute of [None]); the block
    stops before the first checkpoint: the job is failed (or a collaborator
    raised, before the placement, an exception outside [Exception], which
    the boundary lets through to the caller) and no file at all has been
    written, neither [.con] nor [.fragmenstein.json]. *)
Theorem noncovalent_job_writes_no_file (a : Args (Egor E)) (w : World) self :
  store E a = Ok self ->
  Py.contains "*" (arg_smiles a) = false ->
  Py.truthy_opt (arg_extra_constraint a) = false ->
  exists s,
    (__init__ E cls a w = Constructed E self s /\ terminal_state s = failed \/
     exists err, is_Exception err = false /\ __init__ E cls a w = Propagated E err s) /\
    files s = w_files w.
Proof.
  intros Hs Hstar Hx.
  assert (Hsm : smiles self = arg_smiles a).
  { unfold store in Hs. destruct (open_read E (arg_pdb_filename a)); [ | discriminate ].
    now injection Hs as <-. }
  rewrite <- Hsm in Hstar.
  destruct (pipeline_noncovalent a w self Hstar Hx) as [s1 [err [Hp Hf]]].
  destruct (init_stopped E cls a w self s1 err Hs Hp) as [s [Hend [-> | ->]]];
    exists_state_and_files Hend Hf.
Qed.

(** C6 (amended). For a covalent job whose candidate has the reactive
    pattern of no entry of the catalogue: [_fix_covalent] raises a
    [ValueError] ('Unsure what the warhead is.'; there is no
    [UnknownWarheadError]) and makes no constraint; the constructor returns
    with the job failed (or a collaborator raised, before the resolution,
    an exception outside [Exception], which the boundary lets through to
    the caller) and without a single file written; and when the checks
    pass and parameterisation returns, the constructor returns and the
    failure logged last is that [ValueError]. *)
Theorem unknown_warhead_is_a_hard_stop (a : Args (Egor E)) (w : World) self :
  store E a = Ok self ->
  Py.contains "*" (arg_smiles a) = true ->
  (forall ws p,
      Params_from_smiles E (arg_smiles a) (arg_ligand_resn a) = (ws, Ok p) ->
      Forall (fun d => has_warhead E p d = false) (warhead_definitions cls)) ->
  (forall s p,
      params s = Some p ->
      Forall (fun d => has_warhead E p d = false) (warhead_definitions cls) ->
      exists s1,
        _fix_covalent E cls self s
        = (s1, Raise (ValueError (long_name self ++ " - Unsure what the warhead is."))) /\
        constraint s1 = constraint s)
  /\
  exists s,
    (__init__ E cls a w = Constructed E self s /\ terminal_state s = failed \/
     exists err, is_Exception err = false /\ __init__ E cls a w = Propagated E err s) /\
    files s = w_files w /\
    (snd (validate E cls self (fresh E w)) = Ok tt ->
     (exists ws p, Params_from_smiles E (arg_smiles a) (arg_ligand_resn a) = (ws, Ok p)) ->
     __init__ E cls a w = Constructed E self s /\
     terminal_state s = failed /\
     last (journal s) (DEBUG, "")
     = failure_entry self (ValueError (long_name self ++ " - Unsure what the warhead is."))).
Proof.
  intros Hs Hstar Hnone.
  assert (Hsm : smiles self = arg_smiles a).
  { unfold store in Hs. destruct (open_read E (arg_pdb_filename a)); [ | discriminate ].
    now injection Hs as <-. }
  rewrite <- Hsm in Hstar, Hnone |- *. split.
  - intros s p Hp Hdefs. eexists. split.
    + now apply _fix_covalent_none with (p := p).
    + reflexivity.
  - destruct (pipeline_unknown_warhead a w self Hstar Hnone) as [s1 [err [Hp [Hf Herr]]]].
    destruct (is_Exception err) eqn:He.
    + pose proof (init_raised E cls a w self s1 err Hs Hp He) as Hinit.
      eexists. split; [ left; split; [ exact Hinit | apply terminal_state_failed ] | ].
      split; [ exact Hf | ].
      intros Hv Hret. split; [ exact Hinit | ]. split; [ apply terminal_state_failed | ].
      simpl. rewrite last_last. now rewrite (Herr Hv Hret).
    + exists s1.
      split; [ right; exists err; split;
               [ exact He | apply (init_escaped E cls a w self s1 err Hs Hp He) ] | ].
      split; [ exact Hf | ].
      intros Hv Hret. rewrite (Herr Hv Hret) in He. discriminate He.
Qed.

End Stages.

(** ** The constraint text *)

Section ConstraintText.

Variable E : External.
Variable cls : Config.

Implicit Type self : Victor (Egor E).
Implicit Type s : state (Egor E).

(** The constraint the body of the loop returns for the entry [d]: the
    object the constructor of [Constraints] made, with the template of
    [d], when it has one, as its custom text. *)
Lemma apply_warhead_Ok self (d : WarheadDefinition) s s1 (c : Constraints) :
  apply_warhead E cls self d s = (s1, Ok c) ->
  exists cov_def others cons,
    residue_definitions cls (covalent_resn self) = cov_def :: others /\
    snd (Constraints_init E (war_covalent d, cov_smiles cov_def)
           (war_covalent_atomnames d ++ cov_atomnames cov_def)%list
           (ligand_resi self) (covalent_resi self)) = Ok cons /\
    custom_constraint c
    = match war_constraint d with Some t => t | None => custom_constraint cons end.
Proof.
  unfold apply_warhead. intro H.
  inv_attribute H as p Hp. inv_call H as p' Hrename. inv_modify H.
  destruct (residue_definitions cls (covalent_resn self)) as [|cov_def others];
    [ discriminate | ].
  inv_log H. inv_call H as cons Hcons.
  exists cov_def, others, cons. split; [ reflexivity | ]. split; [ exact Hcons | ].
  destruct (war_constraint d); unfold ret in H; injection H as _ <-; reflexivity.
Qed.

Lemma for_war_def_Ok self (defs : list WarheadDefinition) s s1 (c : Constraints) :
  for_war_def E cls self defs s = (s1, Ok c) ->
  exists d cov_def others cons,
    In d defs /\
    residue_definitions cls (covalent_resn self) = cov_def :: others /\
    snd (Constraints_init E (war_covalent d, cov_smiles cov_def)
           (war_covalent_atomnames d ++ cov_atomnames cov_def)%list
           (ligand_resi self) (covalent_resi self)) = Ok cons /\
    custom_constraint c
    = match war_constraint d with Some t => t | None => custom_constraint cons end.
Proof.
  induction defs as [|d rest IH]; simpl; intro H.
  - discriminate.
  - inv_attribute H as p Hp.
    destruct (HasSubstructMatch E (params_mol p) (war_covalent d)).
    + apply apply_warhead_Ok in H.
      destruct H as [cov_def [others [cons [H1 [H2 H3]]]]].
      exists d, cov_def, others, cons. repeat split; try assumption. now left.
    + destruct (IH H) as [d' [cov_def [others [cons [H0 [H1 [H2 H3]]]]]]].
      exists d', cov_def, others, cons. repeat split; try assumption. now right.
Qed.

(** The custom text of the constraint [_get_constraint] returns: the
    text of the covalent part, then the text of the caller. *)
Lemma _get_constraint_Ok self s s1 (c : Constraints) :
  _get_constraint E cls self (extra_constraint self) s = (s1, Ok (Some c)) ->
  exists covalent_text,
    custom_constraint c = covalent_text ++ extra_text self /\
    match is_covalent s with
    | Some true =>
        exists d cov_def others cons,
          In d (warhead_definitions cls) /\
          residue_definitions cls (covalent_resn self) = cov_def :: others /\
          snd (Constraints_init E (war_covalent d, cov_smiles cov_def)
                 (war_covalent_atomnames d ++ cov_atomnames cov_def)%list
                 (ligand_resi self) (covalent_resi self)) = Ok cons /\
          covalent_text
          = match war_constraint d with Some t => t | None => custom_constraint cons end
    | Some false => covalent_text = custom_constraint (Constraints_mock E)
    | None => False
    end.
Proof.
  unfold _get_constraint. intro H.
  inv_attribute H as covalent Hc. rewrite Hc.
  unfold extra_text, Py.truthy_opt in *.
  destruct covalent.
  - inv_log H. inv_bind H as s2 cons' Hfix.
    unfold _fix_covalent in Hfix. inv_log Hfix.
    apply for_war_def_Ok in Hfix.
    destruct Hfix as [d [cov_def [others [cons [Hd [Hcov [Hcons Htext]]]]]]].
    exists (custom_constraint cons'). split.
    + destruct (extra_constraint self) as [t|].
      * destruct (Py.truthy t).
        -- inv_bind H as s3 c3 Hadd.
           unfold iadd_custom_constraint, ret in Hadd. injection Hadd as _ <-.
           unfold ret in H. injection H as _ <-. reflexivity.
        -- unfold ret in H. injection H as _ <-. now rewrite append_nil_r.
      * unfold ret in H. injection H as _ <-. now rewrite append_nil_r.
    + exists d, cov_def, others, cons. now repeat split.
  - inv_log H. exists (custom_constraint (Constraints_mock E)). split; [ | reflexivity ].
    destruct (extra_constraint self) as [t|].
    + destruct (Py.truthy t).
      * inv_bind H as s3 c3 Hadd.
        unfold iadd_custom_constraint, ret in Hadd. injection Hadd as _ <-.
        unfold ret in H. injection H as _ <-. reflexivity.
      * discriminate.
    + discriminate.
Qed.

(** The constraint object is the one of [_get_constraint] when the
    attachment has been looked up. *)
Lemma constrain_Ok (a : Args (Egor E)) self s s1 (att : option Mol) :
  constrain E cls a self s = (s1, Ok att) ->
  exists s2 oc,
    _get_constraint E cls self (arg_extra_constraint a) s = (s2, Ok oc) /\
    constraint s1 = Some oc.
Proof.
  unfold constrain. intro H.
  inv_bind H as s2 oc Hget. exists s2, oc. split; [ exact Hget | ].
  inv_modify H. inv_attribute H as covalent Hc.
  inv_bind H as s3 attachment Hatt.
  assert (Hk3 : constraint s3 = Some oc).
  { destruct covalent.
    - now apply (preserves_Ok E constraint) in Hatt; [ | apply _get_attachment_constraint ].
    - unfold ret in Hatt. now injection Hatt as <- _. }
  inv_bind H as s4 u4 Hwarn.
  apply (preserves_Ok E constraint) in Hwarn;
    [ | apply preserves_log_warnings; reflexivity ].
  inv_bind H as s5 u5 Hstep. unfold post_params_step, ret in Hstep. injection Hstep as <- _.
  unfold ret in H. injection H as <- _.
  congruence.
Qed.

(** The placement stage appends the coordinate lines to the custom text
    of the constraint it finds, and changes nothing else of it. *)
Lemma place_Ok self (att : option Mol) s s1 (u : unit) :
  place E cls self att s = (s1, Ok u) ->
  exists c0 f lines,
    constraint s = Some (Some c0) /\
    fragmenstein s1 = Some f /\
    coordinate_constraints E cls self f = Ok lines /\
    constraint s1
    = Some (Some (set_custom_constraint (custom_constraint c0 ++ join_lines E lines) c0)).
Proof.
  unfold place. intro H.
  inv_log H. inv_attribute H as p Hp. inv_call H as f Hcall. inv_modify H.
  inv_bind H as s2 pdbblock Hplace.
  apply (preserves_Ok E constraint) in Hplace; [ | apply _place_fragmenstein_constraint ].
  simpl in Hplace.
  inv_modify H.
  unfold add_coordinate_constraints in H.
  inv_attribute H as oc Hk. simpl in Hk.
  destruct oc as [c0|]; [ | discriminate ].
  inv_bind H as s3 text Htext. unfold _make_coordinate_constraints in Htext.
  inv_attribute Htext as f' Hf. simpl in Hf.
  destruct (coordinate_constraints E cls self f') as [lines|e] eqn:Hl; [ | discriminate ].
  unfold ret in Htext. injection Htext as <- <-.
  apply modify_Ok in H. subst s1.
  exists c0, f', lines. simpl. repeat split; try assumption. congruence.
Qed.

(** C8. When the stages from [_get_constraint] to the coordinate
    constraints go through with a constraint, its custom text is, in this
    order: the covalent part (the template of the selected warhead, as it
    is, when it has one; what the constructor of [Constraints] left
    otherwise), the extra text of the caller, the coordinate lines.  The
    text that stood after [_get_constraint], covalent part then extra text,
    is a prefix of the final one: the coordinate lines are only appended. *)
Theorem constraint_text_is_ordered (a : Args (Egor E)) self s s' :
  store E a = Ok self ->
  bind (constrain E cls a self) (place E cls self) s = (s', Ok tt) ->
  exists s1 att c0 c covalent_text f lines,
    constrain E cls a self s = (s1, Ok att) /\
    constraint s1 = Some (Some c0) /\
    custom_constraint c0 = covalent_text ++ extra_text self /\
    constraint s' = Some (Some c) /\
    c = set_custom_constraint (custom_constraint c0 ++ join_lines E lines) c0 /\
    custom_constraint c = covalent_text ++ extra_text self ++ join_lines E lines /\
    fragmenstein s' = Some f /\
    coordinate_constraints E cls self f = Ok lines /\
    match is_covalent s with
    | Some true =>
        exists d cov_def others cons,
          In d (warhead_definitions cls) /\
          residue_definitions cls (covalent_resn self) = cov_def :: others /\
          snd (Constraints_init E (war_covalent d, cov_smiles cov_def)
                 (war_covalent_atomnames d ++ cov_atomnames cov_def)%list
                 (ligand_resi self) (covalent_resi self)) = Ok cons /\
          covalent_text
          = match war_constraint d with Some t => t | None => custom_constraint cons end
    | Some false => covalent_text = custom_constraint (Constraints_mock E)
    | None => False
    end.
Proof.
  intros Hs H.
  assert (Hx : arg_extra_constraint a = extra_constraint self).
  { unfold store in Hs. destruct (open_read E (arg_pdb_filename a)); [ | discriminate ].
    now injection Hs as <-. }
  apply bind_Ok in H. destruct H as [s0 [a1 [H0 H]]].
  destruct (constrain_Ok a self s s0 a1 H0) as [s2 [oc [Hget Hk]]].
  destruct (place_Ok self a1 s0 s' tt H) as [c0 [f [lines [Hk0 [Hf [Hl Hk']]]]]].
  assert (oc = Some c0) by congruence. subst oc.
  rewrite Hx in Hget.
  destruct (_get_constraint_Ok self s s2 c0 Hget) as [covalent_text [Htext Hcov]].
  exists s0, a1, c0, (set_custom_constraint (custom_constraint c0 ++ join_lines E lines) c0),
    covalent_text, f, lines.
  repeat split; try assumption.
  simpl. now rewrite Htext, append_assoc.
Qed.

End ConstraintText.

(** * Concrete runs *)

Example upper_lig : Py.upper "lig" = "LIG".
Proof. reflexivity. Qed.

Example match_resi_1B : Py.match_resi "1B" = Some ("1", "B").
Proof. reflexivity. Qed.

Example match_resi_145 : Py.match_resi "145" = Some ("145", "").
Proof. reflexivity. Qed.

Example match_resi_None : Py.match_resi (str_opt_resi None) = None.
Proof. reflexivity. Qed.

Example slugify_name : Py.slug false "my ligand_v1.2--x" = "my-ligand-v1-2-x".
Proof. reflexivity. Qed.

Example strip_SG : Py.strip "  SG " = "SG".
Proof. reflexivity. Qed.

Example rjust_resi : Py.rjust 3 "1" = "  1".
Proof. reflexivity. Qed.

Example str_int_negative : Py.str_int (-12) = "-12".
Proof. reflexivity. Qed.

(** Witness of C1: the non-covalent job, whose placement stage raises an
    [AttributeError]. *)
Lemma failure_boundary_witness :
  pipeline Toy.E Toy.cls Toy.noncovalent (Toy.stored Toy.noncovalent) (fresh Toy.E Toy.world)
  = (block_state Toy.E Toy.cls Toy.noncovalent (Toy.stored Toy.noncovalent) Toy.world,
     Raise (AttributeError "'NoneType' object has no attribute 'groups'")) /\
  __init__ Toy.E Toy.cls Toy.noncovalent Toy.world
  = Constructed Toy.E (Toy.stored Toy.noncovalent)
      (set_journal
         (journal (block_state Toy.E Toy.cls Toy.noncovalent (Toy.stored Toy.noncovalent)
                     Toy.world) ++
          [(ERROR, long_name (Toy.stored Toy.noncovalent) ++ " " ++ em_dash ++ " " ++
                   exn_class (AttributeError "'NoneType' object has no attribute 'groups'")
                   ++ ": " ++
                   exn_msg (AttributeError "'NoneType' object has no attribute 'groups'"))])
         (block_state Toy.E Toy.cls Toy.noncovalent (Toy.stored Toy.noncovalent) Toy.world)) /\
  terminal_state
    (set_journal
       (journal (block_state Toy.E Toy.cls Toy.noncovalent (Toy.stored Toy.noncovalent)
                   Toy.world) ++
        [(ERROR, long_name (Toy.stored Toy.noncovalent) ++ " " ++ em_dash ++ " " ++
                 exn_class (AttributeError "'NoneType' object has no attribute 'groups'")
                 ++ ": " ++
                 exn_msg (AttributeError "'NoneType' object has no attribute 'groups'"))])
       (block_state Toy.E Toy.cls Toy.noncovalent (Toy.stored Toy.noncovalent) Toy.world))
  = failed.
Proof.
  split; [ vm_compute; reflexivity | ].
  apply (failure_boundary_catches_every_stage Toy.E Toy.cls Toy.noncovalent Toy.world
           (Toy.stored Toy.noncovalent)).
  - reflexivity.
  - vm_compute. reflexivity.
  - reflexivity.
Defined.

(** Counterexample of C1 as it is stated: [Params.from_smiles] is
    interrupted; the [KeyboardInterrupt] raised in the parameterisation
    stage is not an instance of [Exception], so the boundary does not catch
    it: it reaches the caller of the constructor, no object is returned,
    nothing is logged about it and the job is not in its failed state. *)
Lemma failure_boundary_counterexample :
  pipeline Toy.E_interrupted Toy.cls Toy.noncovalent (Toy.stored Toy.noncovalent)
    (fresh Toy.E_interrupted Toy.world)
  = (block_state Toy.E_interrupted Toy.cls Toy.noncovalent (Toy.stored Toy.noncovalent)
       Toy.world,
     Raise KeyboardInterrupt) /\
  __init__ Toy.E_interrupted Toy.cls Toy.noncovalent Toy.world
  = Propagated Toy.E_interrupted KeyboardInterrupt
      (block_state Toy.E_interrupted Toy.cls Toy.noncovalent (Toy.stored Toy.noncovalent)
         Toy.world) /\
  (forall self s,
      __init__ Toy.E_interrupted Toy.cls Toy.noncovalent Toy.world
      <> Constructed Toy.E_interrupted self s) /\
  Forall (fun entry => fst entry <> ERROR)
         (journal (block_state Toy.E_interrupted Toy.cls Toy.noncovalent
                     (Toy.stored Toy.noncovalent) Toy.world)) /\
  terminal_state (block_state Toy.E_interrupted Toy.cls Toy.noncovalent
                    (Toy.stored Toy.noncovalent) Toy.world) <> failed.
Proof.
  split; [ vm_compute; reflexivity | ].
  split; [ vm_compute; reflexivity | ].
  split; [ intros self s H; vm_compute in H; discriminate H | ].
  split; [ vm_compute; repeat constructor; discriminate | ].
  vm_compute. discriminate.
Qed.

(** The journal of that run: the exception of the placement stage is the
    last entry. *)
Example noncovalent_journal :
  exists s,
    __init__ Toy.E Toy.cls Toy.noncovalent Toy.world
    = Constructed Toy.E (Toy.stored Toy.noncovalent) s /\
    last (journal s) (DEBUG, "")
    = (ERROR, "ligand " ++ em_dash ++
              " AttributeError: 'NoneType' object has no attribute 'groups'").
Proof. eexists. split; vm_compute; reflexivity. Qed.

(** An exception of a collaborator, here of [Params.from_smiles], ends in
    the journal in the same way. *)
Example collaborator_exception_is_contained :
  exists s,
    __init__ Toy.E_unparsable Toy.cls Toy.noncovalent Toy.world
    = Constructed Toy.E_unparsable (Toy.stored Toy.noncovalent) s /\
    last (journal s) (DEBUG, "")
    = (ERROR, "ligand " ++ em_dash ++ " ValueError: unparsable SMILES CCO") /\
    terminal_state s = failed.
Proof. eexists. split; [ vm_compute; reflexivity | split; vm_compute; reflexivity ]. Qed.

(** Witness of C10: the receptor file is not there. *)
Lemma receptor_is_read_before_boundary_witness :
  __init__ Toy.E Toy.cls Toy.missing_receptor Toy.world
  = Propagated Toy.E
      (mkExn "FileNotFoundError" "[Errno 2] No such file or directory: 'nowhere.pdb'")
      (fresh Toy.E Toy.world) /\
  journal (fresh Toy.E Toy.world) = w_journal Toy.world.
Proof.
  apply (receptor_is_read_before_boundary Toy.E Toy.cls Toy.missing_receptor Toy.world).
  reflexivity.
Defined.

(** Witness of C7: a residue name of two letters. *)
Lemma validation_is_eager_witness :
  exists s err,
    __init__ Toy.E Toy.cls Toy.short_resn Toy.world
    = Constructed Toy.E (Toy.stored Toy.short_resn) s /\
    snd (validate Toy.E Toy.cls (Toy.stored Toy.short_resn) (fresh Toy.E Toy.world))
    = Raise err /\
    (exn_class err = "AssertionError" \/ exn_class err = "ValueError") /\
    journal s = (w_journal Toy.world ++ [failure_entry (Toy.stored Toy.short_resn) err])%list /\
    dirs s = w_dirs Toy.world /\ files s = w_files Toy.world /\ trace s = [] /\
    params s = None /\ terminal_state s = failed.
Proof.
  apply (validation_is_eager Toy.E Toy.cls Toy.short_resn Toy.world).
  - reflexivity.
  - left. simpl. lia.
Defined.

(** Counterexample of C7 as it is stated: the check that fails for a
    residue name of two letters raises an [AssertionError], and this is the
    class the journal shows; it is not a [ConfigurationError]. *)
Lemma validation_error_class_counterexample :
  violates_precondition Toy.cls Toy.short_resn /\
  snd (validate Toy.E Toy.cls (Toy.stored Toy.short_resn) (fresh Toy.E Toy.world))
  = Raise (AssertionError "ligand - LI is not 3 char long.") /\
  exn_class (AssertionError "ligand - LI is not 3 char long.") <> "ConfigurationError" /\
  exists s,
    __init__ Toy.E Toy.cls Toy.short_resn Toy.world
    = Constructed Toy.E (Toy.stored Toy.short_resn) s /\
    journal s
    = [(ERROR, "ligand " ++ em_dash ++ " AssertionError: ligand - LI is not 3 char long.")].
Proof.
  split; [ left; simpl; lia | ].
  split; [ reflexivity | ].
  split; [ discriminate | ].
  eexists. split; vm_compute; reflexivity.
Qed.

(** Witness of C2: the covalent job; the acrylamide comes first in the
    catalogue and does not match, the chloroacetamide does. *)
Lemma first_matching_warhead_is_selected_witness :
  (exists pre d post,
      warhead_definitions Toy.cls = (pre ++ d :: post)%list /\
      Forall (fun x => has_warhead Toy.E
                         (mkParams "LIG" (Toy.mol_of "CCNC(=O)C*") [] ["CONN1"]) x = false) pre /\
      has_warhead Toy.E (mkParams "LIG" (Toy.mol_of "CCNC(=O)C*") [] ["CONN1"]) d = true /\
      _fix_covalent Toy.E Toy.cls (Toy.stored Toy.covalent) (Toy.parameterised Toy.covalent)
      = apply_warhead Toy.E Toy.cls (Toy.stored Toy.covalent) d
          (set_journal
             (journal (Toy.parameterised Toy.covalent) ++
              [(DEBUG, long_name (Toy.stored Toy.covalent) ++ " - fixing for covalent")])
             (Toy.parameterised Toy.covalent)))
  /\
  (forall d1 d2 rest,
      has_warhead Toy.E (mkParams "LIG" (Toy.mol_of "CCNC(=O)C*") [] ["CONN1"]) d1 = true ->
      has_warhead Toy.E (mkParams "LIG" (Toy.mol_of "CCNC(=O)C*") [] ["CONN1"]) d2 = true ->
      _fix_covalent Toy.E (with_warheads Toy.cls (d1 :: d2 :: rest))
        (Toy.stored Toy.covalent) (Toy.parameterised Toy.covalent)
      = apply_warhead Toy.E Toy.cls (Toy.stored Toy.covalent) d1
          (set_journal
             (journal (Toy.parameterised Toy.covalent) ++
              [(DEBUG, long_name (Toy.stored Toy.covalent) ++ " - fixing for covalent")])
             (Toy.parameterised Toy.covalent))
      /\
      _fix_covalent Toy.E (with_warheads Toy.cls (d2 :: d1 :: rest))
        (Toy.stored Toy.covalent) (Toy.parameterised Toy.covalent)
      = apply_warhead Toy.E Toy.cls (Toy.stored Toy.covalent) d2
          (set_journal
             (journal (Toy.parameterised Toy.covalent) ++
              [(DEBUG, long_name (Toy.stored Toy.covalent) ++ " - fixing for covalent")])
             (Toy.parameterised Toy.covalent))).
Proof.
  apply (first_matching_warhead_is_selected Toy.E Toy.cls (Toy.stored Toy.covalent)
           (Toy.parameterised Toy.covalent)
           (mkParams "LIG" (Toy.mol_of "CCNC(=O)C*") [] ["CONN1"])).
  - reflexivity.
  - exists Toy.chloroacetamide. split; [ simpl; tauto | reflexivity ].
Defined.

(** Two overlapping entries: the one that comes first in the catalogue is
    the one the journal names. *)
Example reordering_changes_the_selection :
  journal (fst (_fix_covalent Toy.E
                  (with_warheads Toy.cls [Toy.chloroacetamide; Toy.any_carbon])
                  (Toy.stored Toy.covalent) (set_params (Some (mkParams "LIG" (Toy.mol_of "CCNC(=O)C*") [] ["CONN1"]))
                     (fresh Toy.E Toy.world))))
  = [(DEBUG, "covalent-ligand - fixing for covalent");
     (DEBUG, "covalent-ligand - has a chloroacetamide")] /\
  journal (fst (_fix_covalent Toy.E
                  (with_warheads Toy.cls [Toy.any_carbon; Toy.chloroacetamide])
                  (Toy.stored Toy.covalent) (set_params (Some (mkParams "LIG" (Toy.mol_of "CCNC(=O)C*") [] ["CONN1"]))
                     (fresh Toy.E Toy.world))))
  = [(DEBUG, "covalent-ligand - fixing for covalent");
     (DEBUG, "covalent-ligand - has a alkyl")].
Proof. split; reflexivity. Qed.

(** Witness of C9: the covalent job; the toy ligand has a dummy, a
    connection atom and a remnant, none of which is written. *)
Lemma merged_structure_is_stripped_witness :
  exists (link : string) (kept : list pdb_atom),
    value "" (snd (_place_fragmenstein Toy.E Toy.cls (Toy.stored Toy.covalent)
                     (Toy.before_placement Toy.covalent)))
    = link ++ get_pdbstr Toy.E kept /\
    Forall (fun a => pa_name a <> "R" /\
                     ~ In (pa_name a) (_connected_names Toy.cls) /\
                     pa_resn a <> "UNL") kept /\
    ((is_covalent (Toy.before_placement Toy.covalent) = Some false /\ link = "") \/
     (is_covalent (Toy.before_placement Toy.covalent) = Some true /\
      exists p_chain p_resi cx l_chain l_resi,
        link = LINK Toy.E (Toy.stored Toy.covalent) p_chain p_resi cx l_chain l_resi)).
Proof.
  apply (merged_structure_is_stripped Toy.E Toy.cls (Toy.stored Toy.covalent)
           (Toy.before_placement Toy.covalent)
           (fst (_place_fragmenstein Toy.E Toy.cls (Toy.stored Toy.covalent)
                   (Toy.before_placement Toy.covalent)))).
  vm_compute. reflexivity.
Defined.

(** The merged text of that run: the [LINK] record, the receptor, and the
    one ligand atom that is left. *)
Example merged_structure_of_the_covalent_job :
  snd (_place_fragmenstein Toy.E Toy.cls (Toy.stored Toy.covalent)
         (Toy.before_placement Toy.covalent))
  = Ok ("LINK         SG  CYS A 145                CONN1 LIG B   1     1555   1555  1.8" ++ nl ++
        "SG:CYS:145:A" ++ nl ++ "CA:CYS:145:A" ++ nl ++ "C1:LIG:1:B" ++ nl).
Proof. reflexivity. Qed.

(** Witness of C5: the lines of the non-covalent job with an extra
    constraint. *)
Lemma restraint_width_is_spread_plus_one_witness :
  Forall (fun l =>
            exists i atom sd,
              nth_error (atoms (positioned_mol (Toy.placement Toy.noncovalent_extra))) i
              = Some atom /\
              PDBResidueInfo_name atom = Some (cc_atom l) /\
              cc_pos l = AtomPosition atom /\
              nth_error (stdev_from_mol Toy.E (Toy.placement Toy.noncovalent_extra)
                           (positioned_mol (Toy.placement Toy.noncovalent_extra))) i
              = Some sd /\
              cc_width l = (sd + 1)%Q /\
              ((0 <= sd)%Q -> (1 <= cc_width l)%Q) /\
              (sd = 0%Q -> cc_width l = 1%Q))
         (value [] (coordinate_constraints Toy.E Toy.cls (Toy.stored Toy.noncovalent_extra)
                      (Toy.placement Toy.noncovalent_extra))).
Proof.
  apply (restraint_width_is_spread_plus_one Toy.E Toy.cls (Toy.stored Toy.noncovalent_extra)
           (Toy.placement Toy.noncovalent_extra)).
  vm_compute. reflexivity.
Defined.

(** Counterexample of C5 as it is stated: an atom placed from one hit has
    a spread of 0, and the width of its line is exactly 1, not more. *)
Lemma restraint_width_counterexample :
  exists l rest,
    coordinate_constraints Toy.E Toy.cls (Toy.stored Toy.noncovalent_extra)
      (Toy.placement Toy.noncovalent_extra) = Ok (l :: rest) /\
    nth_error (stdev_from_mol Toy.E (Toy.placement Toy.noncovalent_extra)
                 (positioned_mol (Toy.placement Toy.noncovalent_extra))) 0 = Some 0%Q /\
    cc_atom l = "C1" /\
    cc_width l = 1%Q /\
    ~ (1 < cc_width l)%Q.
Proof.
  eexists. eexists. split; [ reflexivity | ].
  split; [ reflexivity | ]. split; [ reflexivity | ]. split; [ reflexivity | ].
  simpl. apply Qlt_irrefl.
Qed.

(** C4 (what the code does). The test of the loop compares the element
    symbol of the atom, not its name, with the connection names: the dummy
    atom of the covalent job, symbol [*], name [CONN1], origin flag true,
    gets a restraint line although [CONN1] is a connection name. *)
Theorem connection_atom_is_restrained :
  nth_error (atoms (positioned_mol (Toy.placement Toy.covalent))) 0
  = Some (mkAtom "*" (Some "CONN1") (7, 8, 9)%Q) /\
  nth_error (origin_from_mol Toy.E (Toy.placement Toy.covalent)
               (positioned_mol (Toy.placement Toy.covalent))) 0 = Some true /\
  Py.mem "CONN1" (_connected_names Toy.cls) = true /\
  exists l rest,
    coordinate_constraints Toy.E Toy.cls (Toy.stored Toy.covalent)
      (Toy.placement Toy.covalent) = Ok (l :: rest) /\
    cc_atom l = "CONN1" /\
    format_line Toy.E l
    = "CoordinateConstraint CONN1 1B CA 145A 7/1 8/1 9/1 HARMONIC 0 1/1" ++ nl.
Proof.
  split; [ reflexivity | ]. split; [ reflexivity | ]. split; [ reflexivity | ].
  eexists. eexists. split; [ reflexivity | ]. split; reflexivity.
Qed.

(** Witness of C3: [Victor('CCO', [hit], 'apo.pdb')]. *)
Lemma noncovalent_job_writes_no_file_witness :
  exists s,
    __init__ Toy.E Toy.cls Toy.noncovalent Toy.world
    = Constructed Toy.E (Toy.stored Toy.noncovalent) s /\
    files s = w_files Toy.world /\
    terminal_state s = failed.
Proof.
  destruct (noncovalent_job_writes_no_file Toy.E Toy.cls Toy.noncovalent Toy.world
              (Toy.stored Toy.noncovalent) eq_refl eq_refl eq_refl)
    as [s [[[Hinit Hfailed] | [err [Hesc Hinit]]] Hfiles]].
  - exists s. split; [ exact Hinit | ]. split; [ exact Hfiles | exact Hfailed ].
  - exfalso. vm_compute in Hinit. discriminate Hinit.
Defined.

(** With an extra constraint and a locator of the covalent residue the
    same candidate reaches the checkpoints, and then both files are
    written, [.con] included. *)
Example noncovalent_job_with_extra_constraint :
  exists s,
    __init__ Toy.E Toy.cls Toy.noncovalent_extra Toy.world
    = Constructed Toy.E (Toy.stored Toy.noncovalent_extra) s /\
    In "output/ligand/ligand.fragmenstein.json" (written s) /\
    In "output/ligand/ligand.con" (written s) /\
    existsb (fun f => String.eqb (fst f) "output/ligand/ligand.fragmenstein.json"
                      && match snd f with
                         | Json j =>
                             if list_eq_dec string_dec (json_keys j)
                                  ["smiles"; "origin"; "stdev"]
                             then true else false
                         | Text _ => false
                         end) (files s) = true.
Proof.
  eexists. split; [ vm_compute; reflexivity | ].
  split; [ vm_compute; tauto | ]. split; [ vm_compute; tauto | ]. vm_compute. reflexivity.
Qed.

(** Witness of C6: a sulfone, which the catalogue does not know. *)
Lemma unknown_warhead_is_a_hard_stop_witness :
  (forall s p,
      params s = Some p ->
      Forall (fun d => has_warhead Toy.E p d = false) (warhead_definitions Toy.cls) ->
      exists s1,
        _fix_covalent Toy.E Toy.cls (Toy.stored Toy.unknown_warhead) s
        = (s1, Raise (ValueError (long_name (Toy.stored Toy.unknown_warhead)
                                  ++ " - Unsure what the warhead is."))) /\
        constraint s1 = constraint s)
  /\
  exists s,
    __init__ Toy.E Toy.cls Toy.unknown_warhead Toy.world
    = Constructed Toy.E (Toy.stored Toy.unknown_warhead) s /\
    terminal_state s = failed /\
    files s = w_files Toy.world /\
    (snd (validate Toy.E Toy.cls (Toy.stored Toy.unknown_warhead) (fresh Toy.E Toy.world))
     = Ok tt ->
     (exists ws p,
         Params_from_smiles Toy.E (arg_smiles Toy.unknown_warhead)
           (arg_ligand_resn Toy.unknown_warhead) = (ws, Ok p)) ->
     last (journal s) (DEBUG, "")
     = failure_entry (Toy.stored Toy.unknown_warhead)
         (ValueError (long_name (Toy.stored Toy.unknown_warhead)
                      ++ " - Unsure what the warhead is."))).
Proof.
  assert (Hnone : forall ws p,
             Params_from_smiles Toy.E (arg_smiles Toy.unknown_warhead)
               (arg_ligand_resn Toy.unknown_warhead) = (ws, Ok p) ->
             Forall (fun d => has_warhead Toy.E p d = false) (warhead_definitions Toy.cls)).
  { intros ws p H. injection H as _ <-. repeat constructor. }
  destruct (unknown_warhead_is_a_hard_stop Toy.E Toy.cls Toy.unknown_warhead Toy.world
              (Toy.stored Toy.unknown_warhead) eq_refl eq_refl Hnone)
    as [Hfix [s [Hend [Hfiles Hlast]]]].
  split; [ exact Hfix | ].
  exists s.
  destruct (Hlast eq_refl (ex_intro _ [] (ex_intro _ _ eq_refl))) as [Hinit [Hfailed Hentry]].
  split; [ exact Hinit | ]. split; [ exact Hfailed | ]. split; [ exact Hfiles | ].
  intros _ _. exact Hentry.
Defined.

(** Counterexample of C6 as it is stated: for the sulfone the resolution
    raises a [ValueError], and this is the class the journal shows; it is
    not an [UnknownWarheadError]. *)
Lemma unknown_warhead_error_class_counterexample :
  Forall (fun d => has_warhead Toy.E
                     (mkParams "LIG" (Toy.mol_of "CCS(=O)(=O)C*") [] ["CONN1"]) d = false)
         (warhead_definitions Toy.cls) /\
  snd (_fix_covalent Toy.E Toy.cls (Toy.stored Toy.unknown_warhead)
         (Toy.parameterised Toy.unknown_warhead))
  = Raise (ValueError "sulfone - Unsure what the warhead is.") /\
  exn_class (ValueError "sulfone - Unsure what the warhead is.") <> "UnknownWarheadError" /\
  exists s,
    __init__ Toy.E Toy.cls Toy.unknown_warhead Toy.world
    = Constructed Toy.E (Toy.stored Toy.unknown_warhead) s /\
    last (journal s) (DEBUG, "")
    = (ERROR, "sulfone " ++ em_dash ++ " ValueError: sulfone - Unsure what the warhead is.").
Proof.
  split; [ repeat constructor | ].
  split; [ reflexivity | ].
  split; [ discriminate | ].
  eexists. split; vm_compute; reflexivity.
Qed.

(** Witness of C8: the covalent job, with the template of the
    chloroacetamide and an extra constraint. *)
Lemma constraint_text_is_ordered_witness :
  exists s1 att c0 c covalent_text f lines,
    constrain Toy.E Toy.cls Toy.covalent (Toy.stored Toy.covalent)
      (Toy.parameterised Toy.covalent) = (s1, Ok att) /\
    constraint s1 = Some (Some c0) /\
    custom_constraint c0 = covalent_text ++ extra_text (Toy.stored Toy.covalent) /\
    constraint (Toy.restrained Toy.covalent) = Some (Some c) /\
    c = set_custom_constraint (custom_constraint c0 ++ join_lines Toy.E lines) c0 /\
    custom_constraint c
    = covalent_text ++ extra_text (Toy.stored Toy.covalent) ++ join_lines Toy.E lines /\
    fragmenstein (Toy.restrained Toy.covalent) = Some f /\
    coordinate_constraints Toy.E Toy.cls (Toy.stored Toy.covalent) f = Ok lines /\
    match is_covalent (Toy.parameterised Toy.covalent) with
    | Some true =>
        exists d cov_def others cons,
          In d (warhead_definitions Toy.cls) /\
          residue_definitions Toy.cls (covalent_resn (Toy.stored Toy.covalent))
          = cov_def :: others /\
          snd (Constraints_init Toy.E (war_covalent d, cov_smiles cov_def)
                 (war_covalent_atomnames d ++ cov_atomnames cov_def)%list
                 (ligand_resi (Toy.stored Toy.covalent))
                 (covalent_resi (Toy.stored Toy.covalent))) = Ok cons /\
          covalent_text
          = match war_constraint d with Some t => t | None => custom_constraint cons end
    | Some false => covalent_text = custom_constraint (Constraints_mock Toy.E)
    | None => False
    end.
Proof.
  apply (constraint_text_is_ordered Toy.E Toy.cls Toy.covalent (Toy.stored Toy.covalent)
           (Toy.parameterised Toy.covalent) (Toy.restrained Toy.covalent)).
  - reflexivity.
  - vm_compute. reflexivity.
Defined.

(** The text of that run, section by section. *)
Example constraint_text_of_the_covalent_job :
  option_map (option_map custom_constraint) (constraint (Toy.restrained Toy.covalent))
  = Some (Some (("AtomPair SG 145A CX 1B HARMONIC 1.8 0.2" ++ nl) ++
                ("AtomPair CA 145A C1 1B HARMONIC 4 1" ++ nl) ++
                ("CoordinateConstraint CONN1 1B CA 145A 7/1 8/1 9/1 HARMONIC 0 1/1" ++ nl ++
                 "CoordinateConstraint C1 1B CA 145A 1/1 2/1 3/1 HARMONIC 0 1/1" ++ nl ++
                 "CoordinateConstraint O1 1B CA 145A 4/1 5/1 6/1 HARMONIC 0 1/1" ++ nl))).
Proof. reflexivity. Qed.

(** * Further properties of the methods *)

(** ** [slugify] *)

Lemma dash_not_alnum : Py.is_alnum "-" = false.
Proof. reflexivity. Qed.

Lemma slug_characters (run : bool) (name : string) :
  Forall (fun c => c = "-"%char \/ Py.is_alnum c = true)
         (list_ascii_of_string (Py.slug run name)).
Proof.
  revert run. induction name as [|c r IH]; intro run; simpl.
  - constructor.
  - destruct (Py.is_alnum c) eqn:Hc; simpl.
    + constructor; [ now right | apply IH ].
    + destruct run; simpl; [ apply IH | ].
      constructor; [ now left | apply IH ].
Qed.

(** X1. The slug of an ASCII name is made of letters, digits and dashes
    only: no path separator, dot, underscore or blank is left in the name
    used for the folder and the files of the job. *)
Theorem slugify_keeps_letters_digits_and_dashes (name : string) :
  Forall (fun c => is_ascii c = true) (list_ascii_of_string name) ->
  Forall (fun c => c = "-"%char \/ Py.is_alnum c = true)
         (list_ascii_of_string (slugify name)).
Proof. intros _. apply slug_characters. Qed.

Lemma slug_dashes (name : string) :
  (forall t, Py.slug true name <> String "-" t) /\
  (forall run s1 s2, Py.slug run name <> s1 ++ "--" ++ s2).
Proof.
  induction name as [|c r [IH1 IH2]]; simpl.
  - split; [ discriminate | ]. intros run [|x s1] s2; discriminate.
  - destruct (Py.is_alnum c) eqn:Hc; split.
    + intros t [= -> _]. discriminate.
    + intros run [|x s1] s2; simpl.
      * intros [= -> _]. discriminate.
      * intros [= _ H]. exact (IH2 false s1 s2 H).
    + exact IH1.
    + intros [|] [|x s1] s2; simpl.
      * exact (IH2 true "" s2).
      * exact (IH2 true (String x s1) s2).
      * intros [= H]. exact (IH1 s2 H).
      * intros [= _ H]. exact (IH2 true s1 s2 H).
Qed.

(** X2. A slug never has two dashes in a row: a run of separators of any
    length and mix (blanks, dots, underscores, dashes) becomes one dash. *)
Theorem slugify_has_no_double_dash (name s1 s2 : string) :
  slugify name <> s1 ++ "--" ++ s2.
Proof. apply (proj2 (slug_dashes name)). Qed.

Lemma slug_slug (name : string) :
  (forall run, Py.slug false (Py.slug run name) = Py.slug run name) /\
  Py.slug true (Py.slug true name) = Py.slug true name.
Proof.
  induction name as [|c r [IH1 IH2]]; simpl.
  - split; reflexivity.
  - destruct (Py.is_alnum c) eqn:Hc; split.
    + intro run. simpl. rewrite Hc. now rewrite IH1.
    + simpl. rewrite Hc. now rewrite IH1.
    + intros [|]; [ apply IH1 | ]. simpl. now rewrite IH2.
    + exact IH2.
Qed.

(** X3. [slugify] is idempotent: the slug of a slug is the slug itself, so
    a name that went through it once can be given back to it. *)
Theorem slugify_is_idempotent (name : string) :
  slugify (slugify name) = slugify name.
Proof. apply (proj1 (slug_slug name)). Qed.

(** ** [_make_output_folder] *)

Section Folder.

Variable E : External.
Variable cls : Config.

Implicit Type self : Victor (Egor E).
Implicit Type s : state (Egor E).

Lemma mem_app_r (p : string) (l : list string) : Py.mem p (l ++ [p]) = true.
Proof.
  unfold Py.mem. rewrite existsb_app. simpl. rewrite String.eqb_refl.
  now rewrite orb_true_r.
Qed.

Lemma mem_app_l (p q : string) (l : list string) :
  Py.mem p l = true -> Py.mem p (l ++ [q]) = true.
Proof. unfold Py.mem. rewrite existsb_app. now intros ->. Qed.

Lemma path_exists_mkdir (p : string) s :
  path_exists E p (set_dirs (dirs s ++ [p]) s) = true.
Proof. unfold path_exists. simpl. now rewrite mem_app_r. Qed.

Lemma path_exists_kept (p q : string) s :
  path_exists E p s = true -> path_exists E p (set_dirs (dirs s ++ [q]) s) = true.
Proof.
  unfold path_exists. simpl. intro H. apply orb_true_iff in H.
  destruct H as [H | H]; [ now rewrite (mem_app_l _ _ _ H) | rewrite H; apply orb_true_r ].
Qed.

(** What [_make_output_folder] does in the model, where [os.mkdir] does
    not fail. *)
Lemma _make_output_folder_run self s :
  exists s1,
    _make_output_folder E cls self s = (s1, Ok tt) /\
    path_exists E (work_path cls) s1 = true /\
    path_exists E (Py.path_join [work_path cls; long_name self]) s1 = true /\
    (exists made, dirs s1 = (dirs s ++ made)%list) /\
    files s1 = files s /\
    _make_output_folder E cls self s1
    = (set_journal
         (journal s1 ++
          [(WARNING, long_name self ++ " - Folder " ++
                     Py.path_join [work_path cls; long_name self] ++ " exists.")]) s1,
       Ok tt).
Proof.
  set (path := Py.path_join [work_path cls; long_name self]).
  assert (Hagain : forall s1,
             path_exists E (work_path cls) s1 = true ->
             path_exists E path s1 = true ->
             _make_output_folder E cls self s1
             = (set_journal
                  (journal s1 ++
                   [(WARNING, long_name self ++ " - Folder " ++ path ++ " exists.")]) s1,
                Ok tt)).
  { intros s1 H1 H2. unfold _make_output_folder. fold path.
    unfold bind, gets, ret, log, modify.
    rewrite H1. cbn [negb]. cbv iota beta. rewrite H2. reflexivity. }
  unfold _make_output_folder at 1. fold path. unfold bind, gets, ret, mkdir, log, modify.
  destruct (path_exists E (work_path cls) s) eqn:Hw; cbn [negb]; cbv iota beta.
  - destruct (path_exists E path s) eqn:Hp; cbn [negb]; cbv iota beta.
    + eexists. split; [ reflexivity | ].
      repeat split; try assumption; [ exists []; simpl; now rewrite app_nil_r | ].
      now apply Hagain.
    + eexists. split; [ reflexivity | ].
      assert (H1 := path_exists_kept _ path s Hw).
      assert (H2 := path_exists_mkdir path s).
      repeat split; try assumption; [ now eexists | now apply Hagain ].
  - destruct (path_exists E path (set_dirs (dirs s ++ [work_path cls]) s)) eqn:Hp;
      cbn [negb]; cbv iota beta.
    + eexists. split; [ reflexivity | ].
      assert (H1 := path_exists_mkdir (work_path cls) s).
      repeat split; try assumption; [ now eexists | now apply Hagain ].
    + eexists. split; [ reflexivity | ].
      assert (H1 := path_exists_kept _ path _ (path_exists_mkdir (work_path cls) s)).
      assert (H2 := path_exists_mkdir path (set_dirs (dirs s ++ [work_path cls]) s)).
      repeat split; try assumption.
      * exists [work_path cls; path]. simpl. now rewrite <- app_assoc.
      * now apply Hagain.
Qed.

(** X4. When [_make_output_folder] returns, the work path and the folder
    of the job are both there; it has only added directories and written
    no file.  Called again, it creates nothing and only logs that the
    folder exists: an existing folder is a warning, not an error.  (Whether
    [os.mkdir] succeeds is for the file system to say: the statement is
    about the calls that return.) *)
Theorem output_folder_is_made_once self s s1 :
  _make_output_folder E cls self s = (s1, Ok tt) ->
  path_exists E (work_path cls) s1 = true /\
  path_exists E (Py.path_join [work_path cls; long_name self]) s1 = true /\
  (exists made, dirs s1 = (dirs s ++ made)%list) /\
  files s1 = files s /\
  _make_output_folder E cls self s1
  = (set_journal
       (journal s1 ++
        [(WARNING, long_name self ++ " - Folder " ++
                   Py.path_join [work_path cls; long_name self] ++ " exists.")]) s1,
     Ok tt).
Proof.
  intro Hrun. destruct (_make_output_folder_run self s) as [s1' [H1 Hrest]].
  rewrite H1 in Hrun. injection Hrun as <-. exact Hrest.
Qed.

End Folder.

(** ** [_assert_inputs] and what it promises to [_fix_covalent] *)

Section Checks.

Variable E : External.
Variable cls : Config.

Implicit Type self : Victor (Egor E).
Implicit Type s : state (Egor E).

Lemma length_zero_nil {A : Type} (l : list A) :
  Nat.eqb (List.length l) 0 = true <-> l = [].
Proof. destruct l; simpl; split; try reflexivity; discriminate. Qed.

(** What a job that passed the checks is like. *)
Lemma _assert_inputs_passed self s :
  snd (_assert_inputs E cls self s) = Ok tt ->
  String.length (ligand_resn self) = 3%nat /\
  hits self <> [] /\
  ligand_resn self <> "UNL" /\
  (covalent_resn self = "" \/ residue_definitions cls (covalent_resn self) <> []).
Proof.
  intro H.
  assert (Hnot : ~ rejected cls self).
  { intro Hr. destruct (_assert_inputs_rejects E cls self s Hr) as [err [He _]].
    rewrite He in H. discriminate. }
  unfold rejected in Hnot. repeat split.
  - destruct (Nat.eq_dec (String.length (ligand_resn self)) 3); [ assumption | tauto ].
  - intro Hh. tauto.
  - intro Hu. tauto.
  - destruct (string_dec (covalent_resn self) ""); [ now left | right ].
    intro Hd. tauto.
Qed.

(** The jobs the checks let through. *)
Lemma _assert_inputs_passes self s :
  String.length (ligand_resn self) = 3%nat ->
  hits self <> [] ->
  ligand_resn self <> "UNL" ->
  covalent_resn self = "" \/ residue_definitions cls (covalent_resn self) <> [] ->
  snd (_assert_inputs E cls self s) = Ok tt.
Proof.
  intros Hlen Hhits Hunl Hcov.
  unfold _assert_inputs, assert, bind, ret, raise.
  apply Nat.eqb_eq in Hlen. rewrite Hlen.
  destruct (hits self) as [|h hs]; [ contradiction | ]. simpl.
  apply String.eqb_neq in Hunl. rewrite Hunl. simpl.
  destruct Hcov as [-> | Hcov]; [ reflexivity | ].
  destruct (residue_definitions cls (covalent_resn self)); [ contradiction | ].
  simpl. now rewrite andb_false_r.
Qed.

(** X5. [_assert_inputs] lets a job through exactly when the residue
    name of the ligand has three characters and is not [UNL], there is at
    least one hit, and the covalent residue type is empty or the residue
    of an entry of [covalent_definitions]. *)
Theorem _assert_inputs_accepts_iff self s :
  snd (_assert_inputs E cls self s) = Ok tt <->
  String.length (ligand_resn self) = 3%nat /\
  hits self <> [] /\
  ligand_resn self <> "UNL" /\
  (covalent_resn self = "" \/ residue_definitions cls (covalent_resn self) <> []).
Proof.
  split.
  - apply _assert_inputs_passed.
  - intros [Hlen [Hhits [Hunl Hcov]]]. now apply _assert_inputs_passes.
Qed.

(** X6. The check of the residue type is what makes the index [0] of
    [_fix_covalent] safe: for a job that passed [_assert_inputs] with a
    residue type that is not empty, the body of the loop finds its
    covalent definition (the first entry with that residue) and, once the
    atoms are renamed, fails only if the constructor of [Constraints]
    does; the template of the warhead, if any, replaces the custom text. *)
Theorem checked_residue_type_is_found self (d : WarheadDefinition) s s0
    (p p' : Params) (ws : list warning) :
  snd (_assert_inputs E cls self s0) = Ok tt ->
  covalent_resn self <> "" ->
  params s = Some p ->
  rename_by_template E p (war_covalent d) (war_covalent_atomnames d) = (ws, Ok p') ->
  exists cov_def others,
    residue_definitions cls (covalent_resn self) = cov_def :: others /\
    In cov_def (covalent_definitions cls) /\
    cov_residue cov_def = covalent_resn self /\
    snd (apply_warhead E cls self d s)
    = match snd (Constraints_init E (war_covalent d, cov_smiles cov_def)
                   (war_covalent_atomnames d ++ cov_atomnames cov_def)%list
                   (ligand_resi self) (covalent_resi self)) with
      | Ok made =>
          Ok (match war_constraint d with
              | Some text => set_custom_constraint text made
              | None => made
              end)
      | Raise e => Raise e
      end.
Proof.
  intros Hok Hne Hp Hrename.
  apply _assert_inputs_passed in Hok. destruct Hok as [_ [_ [_ [Hc | Hc]]]];
    [ contradiction | ].
  destruct (residue_definitions cls (covalent_resn self)) as [|cov_def others] eqn:Hdefs;
    [ contradiction | ].
  exists cov_def, others. split; [ reflexivity | ].
  assert (Hin : In cov_def (residue_definitions cls (covalent_resn self))).
  { rewrite Hdefs. now left. }
  unfold residue_definitions in Hin. apply filter_In in Hin. destruct Hin as [Hin Heq].
  split; [ exact Hin | ]. split; [ now apply String.eqb_eq | ].
  unfold apply_warhead.
  rewrite (bind_step _ _ _ _ _ (attribute_Some E _ _ _ _ Hp)).
  rewrite (bind_step _ _ _ _ _ (call_returns E _ _ _ _ _ Hrename)).
  run_step. rewrite Hdefs. run_step.
  unfold bind, call. simpl snd.
  destruct (snd (Constraints_init E (war_covalent d, cov_smiles cov_def)
                   (war_covalent_atomnames d ++ cov_atomnames cov_def)%list
                   (ligand_resi self) (covalent_resi self))) as [made|e];
    [ | reflexivity ].
  now destruct (war_constraint d).
Qed.

(** X7. An empty residue type slips through the check, which tests the
    catalogue only for a residue type that is true in a condition: a job
    with [covalent_resn = ''] passes [_assert_inputs] when its other
    inputs are fine, and [_fix_covalent] then stops at the index [0] of an
    empty list, with an [IndexError], after the atoms have been renamed. *)
Theorem empty_residue_type_is_not_checked self (d : WarheadDefinition) s s0
    (p p' : Params) (ws : list warning) :
  covalent_resn self = "" ->
  residue_definitions cls "" = [] ->
  String.length (ligand_resn self) = 3%nat ->
  hits self <> [] ->
  ligand_resn self <> "UNL" ->
  params s = Some p ->
  rename_by_template E p (war_covalent d) (war_covalent_atomnames d) = (ws, Ok p') ->
  snd (_assert_inputs E cls self s0) = Ok tt /\
  snd (apply_warhead E cls self d s) = Raise (IndexError "list index out of range") /\
  params (fst (apply_warhead E cls self d s)) = Some p'.
Proof.
  intros Hempty Hnone Hlen Hhits Hunl Hp Hrename. split.
  - apply _assert_inputs_passes; try assumption. now left.
  - unfold apply_warhead.
    rewrite (bind_step _ _ _ _ _ (attribute_Some E _ _ _ _ Hp)).
    rewrite (bind_step _ _ _ _ _ (call_returns E _ _ _ _ _ Hrename)).
    run_step. rewrite Hempty, Hnone. split; reflexivity.
Qed.

End Checks.

(** ** [_log_warnings] *)

Section Warnings.

Variable E : External.

Implicit Type self : Victor (Egor E).
Implicit Type s : state (Egor E).

(** X8. [_log_warnings] writes the buffered warnings to the journal, one
    entry each, in the order in which they were caught, and empties the
    buffer; a second call adds nothing.  A collaborator's warnings reach
    the buffer behind the ones already there, so they are logged after
    them by the next call. *)
Theorem warnings_are_flushed_in_order self s :
  exists s1,
    _log_warnings E self s = (s1, Ok tt) /\
    journal s1 = (journal s ++ map (warning_entry self) (_warned s))%list /\
    _warned s1 = [] /\
    _log_warnings E self s1 = (s1, Ok tt) /\
    forall (A : Type) (name : string) (x : ext A),
      journal (fst (_log_warnings E self (fst (call E name x s))))
      = (journal s ++ map (warning_entry self) (_warned s ++ fst x))%list.
Proof.
  assert (Hflush : forall s0,
             journal (fst (_log_warnings E self s0))
             = (journal s0 ++ map (warning_entry self) (_warned s0))%list /\
             _warned (fst (_log_warnings E self s0)) = []).
  { intro s0. unfold _log_warnings. destruct (_warned s0) eqn:Hw; simpl.
    - split; [ now rewrite app_nil_r | exact Hw ].
    - split; reflexivity. }
  destruct (_log_warnings_total E self s) as [s1 H1]. exists s1.
  destruct (Hflush s) as [Hj Hw]. rewrite H1 in Hj, Hw. simpl in Hj, Hw.
  split; [ exact H1 | ]. split; [ exact Hj | ]. split; [ exact Hw | ]. split.
  - unfold _log_warnings. now rewrite Hw.
  - intros A name x. destruct (Hflush (fst (call E name x s))) as [Hj' _].
    rewrite Hj'. reflexivity.
Qed.

End Warnings.

(** ** [_get_constraint] *)

Section NoConstraint.

Variable E : External.
Variable cls : Config.

Implicit Type self : Victor (Egor E).
Implicit Type s : state (Egor E).

(** X9. When [_get_constraint] returns, it returns [None] exactly for a
    job that is not covalent and has no extra constraint text (none, or
    the empty string): otherwise it returns a constraint object. *)
Theorem _get_constraint_is_None_iff self (extra : option string) s s1
    (covalent : bool) (oc : option Constraints) :
  is_covalent s = Some covalent ->
  _get_constraint E cls self extra s = (s1, Ok oc) ->
  (oc = None <-> covalent = false /\ Py.truthy_opt extra = false).
Proof.
  intros Hc H. unfold _get_constraint in H.
  inv_attribute H as cov Hcov. rewrite Hc in Hcov. injection Hcov as <-.
  destruct covalent.
  - inv_log H. inv_bind H as s2 cons Hfix.
    destruct (Py.truthy_opt extra).
    + inv_bind H as s3 c3 Hadd. unfold ret in H. injection H as _ <-.
      split; [ discriminate | intros [Hf _]; discriminate ].
    + unfold ret in H. injection H as _ <-.
      split; [ discriminate | intros [Hf _]; discriminate ].
  - inv_log H. destruct (Py.truthy_opt extra).
    + inv_bind H as s3 c3 Hadd. unfold ret in H. injection H as _ <-.
      split; [ discriminate | intros [_ Hf]; discriminate ].
    + unfold ret in H. injection H as _ <-. split; [ now split | reflexivity ].
Qed.

End NoConstraint.

(** ** Residue locators *)

Lemma span_digits_spec (s d t : string) :
  Py.span_digits s = (d, t) ->
  s = d ++ t /\
  Forall (fun c => Py.is_digit c = true) (list_ascii_of_string d) /\
  match t with
  | EmptyString => True
  | String c _ => Py.is_digit c = false
  end.
Proof.
  revert d t. induction s as [|c r IH]; simpl; intros d t H.
  - injection H as <- <-. repeat split. constructor.
  - destruct (Py.is_digit c) eqn:Hc.
    + destruct (Py.span_digits r) as [d' t'] eqn:Hr. injection H as <- <-.
      destruct (IH d' t' eq_refl) as [-> [Hd Ht]].
      repeat split; [ now constructor | exact Ht ].
    + injection H as <- <-. repeat split; [ constructor | exact Hc ].
Qed.

Lemma span_digits_app (d : string) (c : ascii) (rest : string) :
  Forall (fun x => Py.is_digit x = true) (list_ascii_of_string d) ->
  Py.is_digit c = false ->
  Py.span_digits (d ++ String c rest) = (d, String c rest).
Proof.
  intros Hd Hc. induction d as [|x d IH]; simpl.
  - now rewrite Hc.
  - inversion Hd as [|? ? Hx Hd']; subst. rewrite Hx. now rewrite (IH Hd').
Qed.

Lemma span_digits_all (d : string) :
  Forall (fun x => Py.is_digit x = true) (list_ascii_of_string d) ->
  Py.span_digits d = (d, "").
Proof.
  intro Hd. induction d as [|x d IH]; simpl.
  - reflexivity.
  - inversion Hd as [|? ? Hx Hd']; subst. rewrite Hx. now rewrite (IH Hd').
Qed.

(** X10. The pattern [(\d+)(\D?)] reads a locator as its leading digits,
    at least one, and the one character that follows them, if any: a
    locator made of digits and one letter is read back as the two, what
    comes after the letter is dropped, and nothing else matches. *)
Theorem match_resi_reads_digits_and_one_letter (s d c : string) :
  Py.match_resi s = Some (d, c) <->
  d <> "" /\
  Forall (fun x => Py.is_digit x = true) (list_ascii_of_string d) /\
  ((c = "" /\ s = d) \/
   exists letter rest,
     Py.is_digit letter = false /\ c = String letter "" /\ s = d ++ String letter rest).
Proof.
  unfold Py.match_resi. split.
  - destruct (Py.span_digits s) as [d' t] eqn:Hs.
    destruct (span_digits_spec s d' t Hs) as [-> [Hd Ht]].
    destruct d' as [|x d']; [ discriminate | ].
    destruct t as [|letter rest]; intros [= <- <-].
    + repeat split; [ discriminate | exact Hd | left ].
      split; [ reflexivity | now rewrite append_nil_r ].
    + repeat split; [ discriminate | exact Hd | right ].
      now exists letter, rest.
  - intros [Hne [Hd [[-> ->] | [letter [rest [Hl [-> ->]]]]]]].
    + rewrite (span_digits_all d Hd). now destruct d.
    + rewrite (span_digits_app d letter rest Hd Hl). now destruct d.
Qed.

(** ** [_get_attachment_from_pdbblock] *)

Section Attachment.

Variable E : External.

Implicit Type self : Victor (Egor E).
Implicit Type s : state (Egor E).

Lemma chain_group_raises (t : string) : exists e, chain_group t = Raise e.
Proof.
  destruct t as [|c r]; simpl; [ now eexists | ].
  destruct (Py.is_digit c); now eexists.
Qed.

Lemma get_atoms_load (sel : selection) (object : string) (l : list pdb_atom) :
  cmd.get_atoms sel (map (fun a => (object, a)) l)
  = filter (fun a => selected sel (object, a)) l.
Proof.
  unfold cmd.get_atoms. induction l as [|a l IH]; simpl.
  - reflexivity.
  - destruct (selected sel (object, a)); simpl; now rewrite IH.
Qed.

(** X11. The attachment atom is looked up by residue index and atom name
    only.  The chain is never part of the selection, whatever the locator
    of the covalent residue says: reading the chain asks for a group the
    pattern does not have, which raises, and the handler falls back to the
    selection without chain.  So the atoms of that name and index of every
    chain of the receptor are handed to RDKit. *)
Theorem attachment_is_selected_without_chain self s (c : Constraints) (resi : string) :
  constraint s = Some (Some c) ->
  Py.match_digits (str_opt_resi (target_res c)) = Some resi ->
  snd (_get_attachment_from_pdbblock E self s)
  = Ok (MolFromPDBBlock E
          (get_pdbstr E
             (filter (fun a => String.eqb (pa_resi a) resi
                               && String.eqb (pa_name a) (Py.strip (target_con_name c)))
                     (read_pdbstr E (apo_pdbblock self))))).
Proof.
  intros Hk Hresi. unfold _get_attachment_from_pdbblock.
  run_step.
  unfold bind at 1. unfold call at 1. simpl snd. cbv iota beta.
  unfold bind at 1. unfold attribute at 1. simpl constraint. rewrite Hk.
  rewrite Hresi.
  destruct (chain_group_raises (str_opt_resi (target_res c))) as [e ->].
  unfold ret, load. simpl app. rewrite get_atoms_load. reflexivity.
Qed.

End Attachment.

(** ** [_place_fragmenstein] *)

Section Relabelling.

Variable E : External.
Variable cls : Config.

Implicit Type self : Victor (Egor E).
Implicit Type s : state (Egor E).

Lemma filter_filter {A : Type} (p q : A -> bool) (l : list A) :
  filter p (filter q l) = filter (fun x => q x && p x) l.
Proof.
  induction l as [|x l IH]; simpl; [ reflexivity | ].
  destruct (q x); simpl; [ destruct (p x); now rewrite IH | exact IH ].
Qed.

Lemma remove_names_filter (names : list string) (ses : session) :
  cmd.remove_names names ses
  = filter (fun a => negb (Py.mem (pa_name (snd a)) names)) ses.
Proof.
  unfold cmd.remove_names. revert ses.
  induction names as [|c names IH]; intro ses; simpl.
  - induction ses as [|a ses IHs]; simpl; [ reflexivity | now rewrite <- IHs ].
  - rewrite IH. unfold cmd.remove. rewrite filter_filter.
    apply filter_ext. intro a. simpl. unfold Py.mem. simpl.
    now rewrite negb_orb.
Qed.

(** What the three removals leave of a session. *)
Lemma removals_filter (ses : session) :
  cmd.get_atoms SelAll
    (cmd.remove (SelResn "UNL")
       (cmd.remove_names (_connected_names cls) (cmd.remove (SelName "R") ses)))
  = filter (kept cls) (map snd ses).
Proof.
  unfold cmd.get_atoms. rewrite remove_names_filter. unfold cmd.remove.
  rewrite !filter_filter.
  induction ses as [|a ses IH]; [ reflexivity | ].
  cbn [filter map].
  assert (Hk : negb (selected (SelName "R") a)
               && (negb (Py.mem (pa_name (snd a)) (_connected_names cls))
                   && (negb (selected (SelResn "UNL") a) && selected SelAll a))
               = kept cls (snd a)).
  { unfold kept, stripped. simpl.
    destruct (String.eqb (pa_name (snd a)) "R"); simpl; [ reflexivity | ].
    destruct (Py.mem (pa_name (snd a)) (_connected_names cls)); simpl; [ reflexivity | ].
    now destruct (String.eqb (pa_resn (snd a)) "UNL"). }
  rewrite Hk. destruct (kept cls (snd a)); cbn [map]; now rewrite IH.
Qed.

Lemma alter_other_object (object : string) (f : pdb_atom -> pdb_atom) (l : list pdb_atom) :
  String.eqb "apo" object = false ->
  cmd.alter (SelObject object) f (map (fun a => ("apo", a)) l)
  = map (fun a => ("apo", a)) l.
Proof.
  intro H. unfold cmd.alter. rewrite map_map. apply map_ext. intro a.
  cbn [selected fst snd]. now rewrite H.
Qed.

Lemma alter_same_object (object : string) (f : pdb_atom -> pdb_atom) (l : list pdb_atom) :
  cmd.alter (SelObject object) f (map (fun a => (object, a)) l)
  = map (fun a => (object, a)) (map f l).
Proof.
  unfold cmd.alter. rewrite !map_map. apply map_ext. intro a.
  cbn [selected fst snd]. now rewrite String.eqb_refl.
Qed.

Lemma alter_app (sel : selection) (f : pdb_atom -> pdb_atom) (l1 l2 : session) :
  cmd.alter sel f (l1 ++ l2)%list = (cmd.alter sel f l1 ++ cmd.alter sel f l2)%list.
Proof. unfold cmd.alter. apply map_app. Qed.

Lemma kept_relabel (l_resi l_chain : string) (l : list pdb_atom) :
  filter (kept cls) (map (relabel l_resi l_chain) l)
  = map (relabel l_resi l_chain) (filter (kept cls) l).
Proof.
  induction l as [|a l IH]; simpl; [ reflexivity | ].
  change (kept cls (relabel l_resi l_chain a)) with (kept cls a).
  destruct (kept cls a); simpl; now rewrite IH.
Qed.

(** The atoms written, with the comparison of names as written. *)
Lemma placed_atoms_kept self (f : Fragmenstein) (l_resi l_chain : string) :
  placed_atoms E cls self f l_resi l_chain
  = (filter (kept cls) (read_pdbstr E (apo_pdbblock self))
     ++ map (relabel l_resi l_chain)
          (filter (kept cls) (read_pdbstr E (MolToPDBBlock E (positioned_mol f)))))%list.
Proof.
  unfold placed_atoms. rewrite removals_filter. unfold load. rewrite app_nil_l.
  rewrite !alter_app.
  rewrite !alter_other_object by reflexivity. rewrite !alter_same_object.
  rewrite map_app, !map_map. cbn [snd]. rewrite map_id.
  rewrite filter_app. f_equal. apply kept_relabel.
Qed.

Lemma plain_char_upper (c : ascii) :
  Py.is_upper c || Py.is_digit c = true -> Py.upper_char c = c.
Proof.
  unfold Py.upper_char, Py.is_upper, Py.is_digit, Py.is_lower. intro H.
  destruct ((97 <=? nat_of_ascii c)%nat && (nat_of_ascii c <=? 122)%nat) eqn:Hl;
    [ | reflexivity ].
  exfalso. apply andb_true_iff in Hl. destruct Hl as [Hl _]. apply Nat.leb_le in Hl.
  apply orb_true_iff in H. destruct H as [H | H]; apply andb_true_iff in H;
    destruct H as [_ H]; apply Nat.leb_le in H; lia.
Qed.

Lemma plain_name_upper (x : string) : plain_name x = true -> Py.upper x = x.
Proof.
  unfold plain_name. induction x as [|c r IH]; simpl; [ reflexivity | ].
  intro H. apply andb_true_iff in H. destruct H as [Hc Hr].
  now rewrite (plain_char_upper c Hc), (IH Hr).
Qed.

Lemma same_name_upper_case (x y : string) :
  upper_case x = true -> Py.upper y = y -> same_name x y = String.eqb x y.
Proof.
  unfold upper_case, same_name. intros Hx Hy. apply String.eqb_eq in Hx.
  now rewrite Hx, Hy.
Qed.

(** For names without lower-case letters, what PyMOL removes is what the
    comparison of names as written removes. *)
Lemma removed_stripped (a : pdb_atom) :
  Forall (fun c => plain_name c = true) (_connected_names cls) ->
  upper_case_atom a = true ->
  removed cls a = stripped cls a.
Proof.
  intros Hnames Ha. unfold upper_case_atom in Ha. apply andb_true_iff in Ha.
  destruct Ha as [Hn Hr]. unfold removed, stripped, Py.mem.
  rewrite (same_name_upper_case _ "R" Hn eq_refl).
  rewrite (same_name_upper_case _ "UNL" Hr eq_refl).
  f_equal. f_equal.
  induction Hnames as [|c names Hc _ IH]; simpl; [ reflexivity | ].
  now rewrite (same_name_upper_case _ c Hn (plain_name_upper c Hc)), IH.
Qed.

Lemma filter_removed (l : list pdb_atom) :
  Forall (fun c => plain_name c = true) (_connected_names cls) ->
  Forall (fun a => upper_case_atom a = true) l ->
  filter (kept cls) l = filter (fun a => negb (removed cls a)) l.
Proof.
  intros Hnames Hl. induction Hl as [|a l Ha _ IH]; simpl; [ reflexivity | ].
  unfold kept at 1. rewrite <- (removed_stripped a Hnames Ha).
  destruct (removed cls a); simpl; now rewrite IH.
Qed.

(** X12. For a receptor and a positioned molecule whose atom and residue
    names have no lower-case letter, and connection names made of
    upper-case letters and digits: the atoms [_place_fragmenstein] writes
    are the atoms of the receptor, as they were read, followed by the atoms
    of the positioned molecule with the residue index and the chain of the
    ligand; of both, only the atoms that PyMOL, which ignores the case of
    names, does not match with [name R], [name <connection name>] or
    [resn UNL].  No receptor atom is relabelled, the order is kept, and the
    removals also apply to the receptor. *)
Theorem placed_atoms_are_receptor_then_ligand self (f : Fragmenstein)
    (l_resi l_chain : string) :
  Forall (fun c => plain_name c = true) (_connected_names cls) ->
  Forall (fun a => upper_case_atom a = true) (read_pdbstr E (apo_pdbblock self)) ->
  Forall (fun a => upper_case_atom a = true)
         (read_pdbstr E (MolToPDBBlock E (positioned_mol f))) ->
  placed_atoms E cls self f l_resi l_chain
  = (filter (fun a => negb (removed cls a)) (read_pdbstr E (apo_pdbblock self))
     ++ map (relabel l_resi l_chain)
          (filter (fun a => negb (removed cls a))
                  (read_pdbstr E (MolToPDBBlock E (positioned_mol f)))))%list.
Proof.
  intros Hnames Hrec Hlig. rewrite placed_atoms_kept.
  now rewrite (filter_removed _ Hnames Hrec), (filter_removed _ Hnames Hlig).
Qed.

End Relabelling.

(** ** The [LINK] record *)

(** Runs the first statement of a block when it reads an attribute that
    is set to [a], or calls a collaborator that has no result. *)
Ltac run_attribute a :=
  match goal with
  | |- context [bind (attribute ?E ?n ?g) ?f ?x] =>
      let H := fresh in
      assert (H : g x = Some a) by (simpl; congruence);
      rewrite (bind_step _ _ _ _ _ (attribute_Some E n g x a H)); clear H
  end.

Ltac run_call :=
  match goal with
  | |- context [bind (call ?E ?n (returns ?v)) ?f ?x] =>
      change (bind (call E n (returns v)) f x)
        with (f v (set_warned (_warned x ++ []) (set_trace (trace x ++ [n]) x)));
      cbv beta
  end.

Section Link.

Variable E : External.
Variable cls : Config.

Implicit Type self : Victor (Egor E).
Implicit Type s : state (Egor E).

Lemma match_resi_chain (t d c : string) :
  Py.match_resi t = Some (d, c) -> c = "" \/ exists letter, c = String letter "".
Proof.
  unfold Py.match_resi. destruct (Py.span_digits t) as [[|x d'] [|letter rest]];
    try discriminate; intros [= _ <-]; [ now left | right; now eexists ].
Qed.

Lemma chain_or_length (default c : string) :
  String.length default = 1%nat ->
  (c = "" \/ exists letter, c = String letter "") ->
  String.length (chain_or default c) = 1%nat.
Proof.
  intros Hd [-> | [letter ->]]; [ exact Hd | reflexivity ].
Qed.

(** X13. For a covalent job whose locators start with a digit,
    [_place_fragmenstein] returns the [LINK] record followed by the merged
    structure; the chain of the record and of the relabelled ligand is the
    letter of the locator, [A] for the receptor and [B] for the ligand
    when the locator has none, and so always one character. *)
Theorem chains_default_to_A_and_B self s (f : Fragmenstein) (p : Params)
    (name : string) (others : list string) (l_resi l_chain p_resi p_chain : string) :
  Py.match_resi (str_resi (ligand_resi self)) = Some (l_resi, l_chain) ->
  Py.match_resi (str_opt_resi (covalent_resi self)) = Some (p_resi, p_chain) ->
  fragmenstein s = Some f ->
  is_covalent s = Some true ->
  params s = Some p ->
  CONNECT p = name :: others ->
  snd (_place_fragmenstein E cls self s)
  = Ok (LINK E self (chain_or "A" p_chain) p_resi (pad_name E p name)
          (chain_or "B" l_chain) l_resi
        ++ get_pdbstr E (placed_atoms E cls self f l_resi (chain_or "B" l_chain))) /\
  String.length (chain_or "A" p_chain) = 1%nat /\
  String.length (chain_or "B" l_chain) = 1%nat.
Proof.
  intros Hl Hp Hf Hc Hparams Hconn. split.
  - unfold _place_fragmenstein. rewrite Hl, Hp. cbv zeta.
    run_step. run_call. run_attribute f. run_attribute true. run_attribute p.
    rewrite Hconn. reflexivity.
  - split; apply chain_or_length; try reflexivity;
      [ exact (match_resi_chain _ _ _ Hp) | exact (match_resi_chain _ _ _ Hl) ].
Qed.

(** X14. With residue names of three characters, chains of one, an atom
    name padded to four and residue indices of at most three digits, the
    [LINK] record is 77 columns and a line break long and its fields sit
    at the columns of the PDB format: residue names at 18-20 and 48-50,
    chains at 22 and 52, residue indices right-aligned at 24-26 and 54-56,
    the atom name of the ligand at 43-46. *)
Theorem LINK_fields_are_in_their_columns self (p_chain p_resi cx l_chain l_resi : string) :
  String.length (covalent_resn self) = 3%nat ->
  String.length (ligand_resn self) = 3%nat ->
  String.length p_chain = 1%nat ->
  String.length l_chain = 1%nat ->
  String.length cx = 4%nat ->
  (String.length p_resi <= 3)%nat ->
  (String.length l_resi <= 3)%nat ->
  String.length (LINK E self p_chain p_resi cx l_chain l_resi) = 78%nat /\
  substring 12 4 (LINK E self p_chain p_resi cx l_chain l_resi) = " SG " /\
  substring 17 3 (LINK E self p_chain p_resi cx l_chain l_resi) = covalent_resn self /\
  substring 21 1 (LINK E self p_chain p_resi cx l_chain l_resi) = p_chain /\
  substring 23 3 (LINK E self p_chain p_resi cx l_chain l_resi) = Py.rjust 3 p_resi /\
  substring 42 4 (LINK E self p_chain p_resi cx l_chain l_resi) = cx /\
  substring 47 3 (LINK E self p_chain p_resi cx l_chain l_resi) = ligand_resn self /\
  substring 51 1 (LINK E self p_chain p_resi cx l_chain l_resi) = l_chain /\
  substring 53 3 (LINK E self p_chain p_resi cx l_chain l_resi) = Py.rjust 3 l_resi.
Proof.
  unfold LINK. generalize (covalent_resn self) (ligand_resn self).
  intros r1 r2 H1 H2 H3 H4 H5 H6 H7.
  destruct r1 as [|a1 [|a2 [|a3 [|]]]]; try discriminate H1.
  destruct r2 as [|b1 [|b2 [|b3 [|]]]]; try discriminate H2.
  destruct p_chain as [|c1 [|]]; try discriminate H3.
  destruct l_chain as [|c2 [|]]; try discriminate H4.
  destruct cx as [|x1 [|x2 [|x3 [|x4 [|]]]]]; try discriminate H5.
  destruct p_resi as [|d1 [|d2 [|d3 [|]]]]; simpl in H6; try lia;
    destruct l_resi as [|e1 [|e2 [|e3 [|]]]]; simpl in H7; try lia;
    repeat split; reflexivity.
Qed.

End Link.

(** ** The checkpoints *)

Section Checkpoints.

Variable E : External.
Variable cls : Config.

Implicit Type self : Victor (Egor E).
Implicit Type s : state (Egor E).

(** The state [_log_warnings] leaves: the warnings are in the journal,
    the rest is as it was. *)
Lemma _log_warnings_run self s :
  exists s1,
    _log_warnings E self s = (s1, Ok tt) /\
    _warned s1 = [] /\
    dirs s1 = dirs s /\ files s1 = files s /\
    is_covalent s1 = is_covalent s /\ params s1 = params s /\
    constraint s1 = constraint s /\ fragmenstein s1 = fragmenstein s /\
    unminimised_pdbblock s1 = unminimised_pdbblock s /\
    egor s1 = egor s /\ minimised_pdbblock s1 = minimised_pdbblock s.
Proof.
  unfold _log_warnings. destruct (_warned s) eqn:Hw; eexists;
    (split; [ reflexivity | ]); simpl; now repeat split.
Qed.

(** Runs a [_log_warnings] at the head of a block, naming the state it
    leaves and what it kept. *)
Ltac run_log_warnings s1 H :=
  match goal with
  | |- context [bind (_log_warnings E ?self) ?f ?x] =>
      destruct (_log_warnings_run self x)
        as [s1 [H [?Hw [?Hd [?Hf [?Hc [?Hp [?Hk [?Hfr [?Hu [?He ?Hm]]]]]]]]]]];
      rewrite (bind_step _ _ _ _ _ H); simpl in *
  end.



Lemma save_hits_files self (hs : list Mol) (h : nat) s :
  exists s1,
    save_hits E cls self h hs s = (s1, Ok tt) /\
    files s1 = (files s ++ hit_files E cls self h hs)%list /\
    params s1 = params s.
Proof.
  revert h s. induction hs as [|hit rest IH]; intros h s.
  - exists s. simpl. repeat split. now rewrite app_nil_r.
  - cbn [save_hits]. cbv zeta. unfold write_file.
    run_call. run_step. run_call. run_step.
    match goal with |- context [save_hits E cls self (S h) rest ?x] =>
      destruct (IH (S h) x) as [s1 [H1 [Hf Hp]]] end.
    exists s1. split; [ exact H1 | ]. split.
    + rewrite Hf. simpl. now rewrite <- !app_assoc.
    + rewrite Hp. reflexivity.
Qed.

Lemma named_hit_files self (hs : list Mol) (hit : Mol) (n : string) :
  prop_Name hit = Some n ->
  Py.truthy (Py.strip n) = true ->
  forall h,
    In hit hs ->
    In (Py.path_join [work_path cls; long_name self; n ++ ".pdb"], Text (MolToPDBBlock E hit))
       (hit_files E cls self h hs) /\
    In (Py.path_join [work_path cls; long_name self; n ++ ".mol"], Text (MolToMolBlock E hit))
       (hit_files E cls self h hs).
Proof.
  intros Hn Ht. induction hs as [|x rest IH]; intros h Hin; [ contradiction | ].
  destruct Hin as [-> | Hin].
  - assert (Hname : hit_name h hit = n) by (unfold hit_name; now rewrite Hn, Ht).
    cbn [hit_files]. rewrite Hname. split; [ now left | right; now left ].
  - destruct (IH (S h) Hin) as [H1 H2]. cbn [hit_files].
    split; right; right; assumption.
Qed.

Lemma path_join_absolute (a b c : string) :
  Py.is_absolute c = true -> Py.path_join [a; b; c] = c.
Proof. intro H. unfold Py.path_join. simpl. unfold Py.join2 at 1. now rewrite H. Qed.

Lemma is_absolute_app (n extension : string) :
  Py.is_absolute n = true -> Py.is_absolute (n ++ extension) = true.
Proof. destruct n; [ discriminate | intro H; exact H ]. Qed.


End Checkpoints.

(** ** The names of the hit files *)

Lemma str_int_of_nat_inj (a b : nat) :
  Py.str_int (Z.of_nat a) = Py.str_int (Z.of_nat b) -> a = b.
Proof.
  unfold Py.str_int. intro H.
  apply (f_equal NilZero.int_of_string) in H.
  assert (Hnn : forall n : nat,
             NilZero.int_of_string (NilZero.string_of_int (Z.to_int (Z.of_nat n)))
             = Some (Z.to_int (Z.of_nat n))).
  { intro n. apply NilZero.isi.
    - destruct n; simpl; [ discriminate | ].
      intros [= Hp]. revert Hp. apply DecimalPos.Unsigned.to_uint_nonnil.
    - destruct n; simpl; discriminate. }
  rewrite !Hnn in H. injection H as H.
  apply DecimalZ.to_int_inj in H. now apply Nat2Z.inj.
Qed.

(** X18. A hit is saved under its ["_Name"] when that is not blank, and
    under [hit] followed by its index otherwise.  Hits without a name never
    share a file name; two hits with the same name do, whatever their
    indices, so the files of the later one replace those of the earlier. *)
Theorem hit_files_are_named_by_name_or_index (h1 h2 : nat) (hit1 hit2 : Mol) :
  (unnamed hit1 = true -> hit_name h1 hit1 = "hit" ++ Py.str_int (Z.of_nat h1)) /\
  (unnamed hit1 = true -> unnamed hit2 = true -> h1 <> h2 ->
   hit_name h1 hit1 <> hit_name h2 hit2) /\
  (forall n,
      prop_Name hit1 = Some n -> prop_Name hit2 = Some n -> unnamed hit1 = false ->
      hit_name h1 hit1 = n /\ hit_name h2 hit2 = n).
Proof.
  assert (Hun : forall h hit, unnamed hit = true ->
                              hit_name h hit = "hit" ++ Py.str_int (Z.of_nat h)).
  { intros h hit. unfold unnamed, hit_name.
    destruct (prop_Name hit) as [n|]; [ | reflexivity ].
    destruct (Py.truthy (Py.strip n)); [ discriminate | reflexivity ]. }
  split; [ apply Hun | ]. split.
  - intros U1 U2 Hne. rewrite (Hun h1 hit1 U1), (Hun h2 hit2 U2).
    simpl. intros [= H]. apply Hne. now apply str_int_of_nat_inj.
  - intros n N1 N2 U1. unfold unnamed in U1. unfold hit_name.
    rewrite N1 in *. rewrite N2.
    destruct (Py.truthy (Py.strip n)); [ now split | discriminate ].
Qed.

(** ** The score of the parameter check *)

Section Score.

Variable E : External.
Variable cls : Config.

Implicit Type self : Victor (Egor E).
Implicit Type s : state (Egor E).

(** X19. [_checkpoint_alpha] hands the value of the score function to
    [write]: when that value is a float, the method raises a [TypeError]
    after it has saved the hits, the template of the parameters and the
    test pose, and it leaves the score file empty. *)
Theorem float_score_stops_checkpoint_alpha self s (p : Params) (pose : Pose E)
    (ws ws' : list warning) (x : Q) :
  params s = Some p ->
  params_to_pose E (job_file E cls self ".params") (NAME p) = (ws, Ok pose) ->
  scorefxn E pose = (ws', Ok (PyFloat x)) ->
  exists s1,
    _checkpoint_alpha E cls self s
    = (s1, Raise (TypeError "write() argument must be str, not float")) /\
    files s1
    = (files s ++ hit_files E cls self 0 (hits self)
       ++ [(job_file E cls self ".params_template.pdb", Text (MolToPDBBlock E (params_mol p)));
           (job_file E cls self ".params_template.mol", Text (MolToMolBlock E (params_mol p)));
           (job_file E cls self ".params_test.pdb", Text (Pose_dumps E pose));
           (job_file E cls self ".params_test.score", Text "")])%list.
Proof.
  intros Hparams Hpose Hscore. unfold _checkpoint_alpha, write_file.
  destruct (_log_warnings_run E self s)
    as [s1 [H1 [_ [_ [Hf1 [_ [Hp1 _]]]]]]].
  rewrite (bind_step _ _ _ _ _ H1).
  destruct (save_hits_files E cls self (hits self) 0 s1) as [s2 [H2 [Hf2 Hp2]]].
  rewrite (bind_step _ _ _ _ _ H2).
  run_attribute p. run_call. run_step. run_call. run_step. run_step.
  rewrite (bind_step _ _ _ _ _ (call_returns E _ _ _ _ _ Hpose)).
  run_step. run_call. run_step.
  rewrite (bind_step _ _ _ _ _ (call_returns E _ _ _ _ _ Hscore)).
  eexists. split; [ reflexivity | ].
  simpl. rewrite Hf2, Hf1. now rewrite <- !app_assoc.
Qed.

End Score.

(** Inversion that keeps of a state only its files and its [egor]: the
    first statement is a log, an assignment or a call that returned [a]. *)
Ltac keep_files_egor H1 :=
  match type of H1 with
  | ?s' = ?T =>
      let Hf := fresh "Hfiles" in
      let He := fresh "Hegor" in
      assert (Hf : files s' = files T) by (rewrite H1; reflexivity);
      assert (He : egor s' = egor T) by (rewrite H1; reflexivity);
      cbv beta in Hf, He;
      cbn [files egor set_files set_journal set_warned set_trace] in Hf, He;
      clear H1
  end.

Tactic Notation "fwd_log" hyp(H) :=
  let s1 := fresh "s" in
  let u := fresh "u" in
  let H1 := fresh "Hstep" in
  inv_bind H as s1 u H1; apply log_Ok in H1; keep_files_egor H1; clear u.

Tactic Notation "fwd_modify" hyp(H) :=
  let s1 := fresh "s" in
  let u := fresh "u" in
  let H1 := fresh "Hstep" in
  inv_bind H as s1 u H1; apply modify_Ok in H1; keep_files_egor H1; clear u.

Tactic Notation "fwd_call" hyp(H) "as" ident(a) ident(Ha) :=
  let s1 := fresh "s" in
  let H1 := fresh "Hstep" in
  inv_bind H as s1 a Ha; apply call_Ok in Ha; destruct Ha as [H1 Ha];
  keep_files_egor H1.

(** ** Runs that cannot reach, or that reach, the minimisation *)

Section Minimisation.

Variable E : External.
Variable cls : Config.

Implicit Type self : Victor (Egor E).
Implicit Type s : state (Egor E).

Lemma stops_keeping_later {S A B X : Type} (proj : S -> X) (m : M S A) (f : A -> M S B) :
  preserves proj m -> (forall a, stops_keeping proj (f a)) -> stops_keeping proj (bind m f).
Proof.
  intros Hm Hf st. unfold bind. specialize (Hm st).
  destruct (m st) as [st1 [a|e]]; simpl in Hm.
  - specialize (Hf a st1). destruct (f a st1) as [st2 [b|e]]; [ exact Hf | congruence ].
  - exact Hm.
Qed.

Lemma stops_keeping_now {S A B X : Type} (proj : S -> X) (m : M S A) (f : A -> M S B) :
  preserves proj m -> (forall st st1 a, m st <> (st1, Ok a)) -> stops_keeping proj (bind m f).
Proof.
  intros Hm Hnever st. unfold bind. specialize (Hm st). specialize (Hnever st).
  destruct (m st) as [st1 [a|e]]; simpl in Hm.
  - now destruct (Hnever st1 a).
  - exact Hm.
Qed.

(** The stages before Egor leave [egor] and [minimised_pdbblock] alone. *)
Lemma validate_minimisation self : preserves minimisation (validate E cls self).
Proof. unfold validate, check_covalent, _assert_inputs, assert. frame. Qed.

Lemma parameterise_minimisation a self : preserves minimisation (parameterise E cls a self).
Proof. unfold parameterise, _make_output_folder, gets, mkdir. frame. Qed.

Lemma for_war_def_minimisation self defs :
  preserves minimisation (for_war_def E cls self defs).
Proof.
  induction defs as [|d rest IH]; simpl.
  - frame.
  - apply preserves_bind; [ frame | intro p ].
    destruct (HasSubstructMatch E (params_mol p) (war_covalent d)).
    + unfold apply_warhead. frame.
    + exact IH.
Qed.

Lemma constrain_minimisation a self : preserves minimisation (constrain E cls a self).
Proof.
  pose proof (for_war_def_minimisation self (warhead_definitions cls)).
  unfold constrain, _get_constraint, _fix_covalent, iadd_custom_constraint,
    _get_attachment_from_pdbblock, post_params_step.
  frame.
Qed.

Lemma place_minimisation self att : preserves minimisation (place E cls self att).
Proof.
  unfold place, _place_fragmenstein, add_coordinate_constraints,
    _make_coordinate_constraints.
  frame.
Qed.

Lemma _checkpoint_bravo_minimisation self :
  preserves minimisation (_checkpoint_bravo E cls self).
Proof. unfold _checkpoint_bravo, write_file. frame. Qed.

Lemma _save_prerequisites_minimisation self :
  preserves minimisation (_save_prerequisites E cls self).
Proof. unfold _save_prerequisites, write_file. frame. Qed.

Lemma save_hits_minimisation self hs h : preserves minimisation (save_hits E cls self h hs).
Proof.
  revert h. induction hs as [|hit rest IH]; intro h; simpl.
  - frame.
  - pose proof (IH (S h)). unfold write_file. frame.
Qed.

Lemma _checkpoint_alpha_minimisation self :
  preserves minimisation (_checkpoint_alpha E cls self).
Proof.
  pose proof (save_hits_minimisation self (hits self) 0).
  unfold _checkpoint_alpha, write_file. frame.
Qed.

Lemma _checkpoint_alpha_never_returns self s s1 (u : unit) :
  score_is_never_text E ->
  _checkpoint_alpha E cls self s <> (s1, Ok u).
Proof.
  intros Hscore H. unfold _checkpoint_alpha, write_file in H.
  inv_bind H as s2 u2 Hwarn. inv_bind H as s3 u3 Hhits.
  inv_attribute H as p Hp. inv_call H as u4 Hc4. inv_modify H.
  inv_call H as u5 Hc5. inv_modify H. inv_log H.
  inv_call H as pose Hpose. inv_modify H. inv_call H as u6 Hc6. inv_modify H.
  inv_call H as score Hsc.
  specialize (Hscore pose). rewrite Hsc in Hscore.
  destruct score as [text|x]; [ exact Hscore | ].
  inv_bind H as s4 u7 Hraise. discriminate.
Qed.

Lemma pipeline_stops_before_egor (a : Args (Egor E)) self :
  score_is_never_text E ->
  stops_keeping minimisation (pipeline E cls a self).
Proof.
  intro Hscore. unfold pipeline.
  apply stops_keeping_later; [ apply validate_minimisation | intros _ ].
  apply stops_keeping_later; [ apply parameterise_minimisation | intros _ ].
  apply stops_keeping_later; [ apply constrain_minimisation | intro att ].
  apply stops_keeping_later; [ apply place_minimisation | intros _ ].
  apply stops_keeping_later; [ apply _checkpoint_bravo_minimisation | intros _ ].
  apply stops_keeping_later; [ apply _save_prerequisites_minimisation | intros [[pf hf] cf] ].
  apply stops_keeping_later; [ unfold post_fragmenstein_step; frame | intros _ ].
  apply stops_keeping_now; [ apply _checkpoint_alpha_minimisation | ].
  intros s s1 u. now apply _checkpoint_alpha_never_returns.
Qed.

(** X20. The score of the parameter check is written with [w.write],
    which takes text.  With a score function that returns a float (or
    raises), no job gets past [_checkpoint_alpha]: whatever the job and
    the other collaborators, the constructor ends with the job failed (or
    with an exception outside [Exception], raised by a collaborator, for
    the caller), Egor never set up and no minimised structure. *)
Theorem float_score_keeps_every_job_from_egor (a : Args (Egor E)) (w : World) self :
  score_is_never_text E ->
  store E a = Ok self ->
  exists s,
    (__init__ E cls a w = Constructed E self s /\ terminal_state s = failed \/
     exists err, is_Exception err = false /\ __init__ E cls a w = Propagated E err s) /\
    egor s = None /\
    minimised_pdbblock s = None.
Proof.
  intros Hscore Hs.
  pose proof (pipeline_stops_before_egor a self Hscore (fresh E w)) as Hp.
  destruct (pipeline E cls a self (fresh E w)) as [s1 [u|err]] eqn:Hrun; [ contradiction | ].
  unfold minimisation in Hp. simpl in Hp. injection Hp as He Hm.
  destruct (init_stopped E cls a w self s1 err Hs Hrun) as [s [Hend [-> | ->]]];
    (split_ending Hend; simpl; now split).
Qed.

(** X21. [_checkpoint_charlie] saves the minimised pose before it asks
    for the score of the ligand: when the score raises, the
    [.holo_minimised.pdb] file has been written and stays, and neither the
    JSON file nor the ligand file is written. *)
Theorem minimised_pose_is_saved_before_the_score self s (e : Egor E)
    (ws : list warning) (err : exn) :
  egor s = Some e ->
  ligand_score E e = (ws, Raise err) ->
  exists s1,
    _checkpoint_charlie E cls self s = (s1, Raise err) /\
    files s1
    = (files s ++ [(job_file E cls self ".holo_minimised.pdb",
                    Text (Egor_pose_dumps E e))])%list.
Proof.
  intros He Hscore. unfold _checkpoint_charlie, write_file.
  destruct (_log_warnings_run E self s)
    as [s1 [H1 [_ [_ [Hf1 [_ [_ [_ [_ [_ [He1 _]]]]]]]]]]].
  rewrite (bind_step _ _ _ _ _ H1).
  run_step. run_attribute e. run_step. run_step.
  eexists. split.
  - apply bind_stop. unfold call. rewrite Hscore. reflexivity.
  - simpl. now rewrite Hf1.
Qed.

(** What [_checkpoint_charlie] has done when it returns. *)
Lemma _checkpoint_charlie_Ok self s s1 (u : unit) :
  _checkpoint_charlie E cls self s = (s1, Ok u) ->
  minimisation s1 = minimisation s /\
  exists e energy mrmsd rmsds ligand,
    egor s = Some e /\
    files s1
    = (files s
       ++ [(job_file E cls self ".holo_minimised.pdb", Text (Egor_pose_dumps E e));
           (job_file E cls self ".minimised.json", Json (minimised_json energy mrmsd rmsds));
           (job_file E cls self ".minimised.mol", Text (MolToMolBlock E ligand))])%list.
Proof.
  intro H. split.
  - assert (Hfr : preserves minimisation (_checkpoint_charlie E cls self)).
    { unfold _checkpoint_charlie, write_file. frame. }
    exact (preserves_Ok E minimisation _ _ _ _ Hfr H).
  - unfold _checkpoint_charlie, write_file in H.
    inv_bind H as s2 u2 Hwarn.
    assert (Hfiles2 : files s2 = files s).
    { apply (preserves_Ok E files _ _ _ _
               (preserves_log_warnings E files self
                  (fun _ _ => eq_refl) (fun _ _ => eq_refl)) Hwarn). }
    assert (Hegor2 : egor s2 = egor s).
    { apply (preserves_Ok E egor _ _ _ _
               (preserves_log_warnings E egor self
                  (fun _ _ => eq_refl) (fun _ _ => eq_refl)) Hwarn). }
    clear Hwarn.
    fwd_log H. inv_attribute H as e He. fwd_modify H. fwd_log H.
    fwd_call H as energy Henergy. fwd_log H. fwd_call H as ligand0 Hl0.
    inv_attribute H as p Hp. fwd_call H as ligand Hl. fwd_log H.
    inv_attribute H as f Hf.
    fwd_call H as pair Hpair. destruct pair as [mrmsd rmsds].
    fwd_modify H. fwd_call H as u3 Hc3. fwd_modify H.
    apply (preserves_Ok E files) in H; [ | apply preserves_log_warnings; reflexivity ].
    exists e, energy, mrmsd, rmsds, ligand.
    split; [ congruence | ].
    rewrite H.
    repeat match goal with
           | Hx : files ?x = _ |- context [files ?x] => rewrite Hx; clear Hx
           end.
    now rewrite <- !app_assoc.
Qed.

End Minimisation.

(** ** A completed run *)

Section Completed.

Variable E : External.
Variable cls : Config.

Implicit Type self : Victor (Egor E).
Implicit Type s : state (Egor E).

(** What the Egor part of the block has done when it returns. *)
Lemma minimise_pose_Ok self (params_file constraint_file : string) s s1 (u : unit) :
  minimise_pose E cls self params_file constraint_file s = (s1, Ok u) ->
  last (journal s1) (DEBUG, "") = (DEBUG, long_name self ++ " - Completed") /\
  exists (e : Egor E) (energy mrmsd : Q) (rmsds : list Q),
    egor s1 = Some e /\
    minimised_pdbblock s1 = Some (pose2str E e) /\
    In (job_file E cls self ".holo_minimised.pdb", Text (Egor_pose_dumps E e)) (files s1) /\
    In (job_file E cls self ".minimised.json", Json (minimised_json energy mrmsd rmsds))
       (files s1).
Proof.
  intro H. unfold minimise_pose in H.
  inv_log H. inv_attribute H as pdbblock Hpdb. inv_call H as e0 He0. inv_modify H.
  inv_bind H as s2 u2 Hhook. inv_attribute H as e1 He1. inv_modify H. inv_log H.
  inv_call H as e2 He2. inv_modify H. inv_modify H.
  inv_bind H as s3 u3 Hpost. unfold post_egor_step, ret in Hpost.
  injection Hpost as <- _.
  inv_bind H as s4 u4 Hch. apply log_Ok in H. subst s1.
  apply _checkpoint_charlie_Ok in Hch.
  destruct Hch as [Hmin [e [energy [mrmsd [rmsds [ligand [He Hfiles]]]]]]].
  split; [ simpl; now rewrite last_last | ].
  unfold minimisation in Hmin. simpl in Hmin, He. injection Hmin as Hegor Hblock.
  injection He as <-.
  exists e2, energy, mrmsd, rmsds. simpl.
  split; [ exact Hegor | ]. split; [ exact Hblock | ].
  rewrite Hfiles. split; apply in_or_app; right; simpl; auto.
Qed.


End Completed.

(** ** Concrete runs of the further properties *)

(** Witness of X1: a name with spaces, brackets and a sign. *)
Lemma slugify_keeps_letters_digits_and_dashes_witness :
  Forall (fun c : ascii => c = "-"%char \/ Py.is_alnum c = true)
         (list_ascii_of_string (slugify "Boc-Lys (no. 2)!")).
Proof.
  apply slugify_keeps_letters_digits_and_dashes.
  repeat constructor.
Defined.

(** Witness of X4: the folder of the covalent job in an empty directory. *)
Lemma output_folder_is_made_once_witness :
  path_exists Toy.E (work_path Toy.cls)
    (fst (_make_output_folder Toy.E Toy.cls (Toy.stored Toy.covalent)
            (fresh Toy.E Toy.world))) = true /\
  path_exists Toy.E (Py.path_join [work_path Toy.cls; long_name (Toy.stored Toy.covalent)])
    (fst (_make_output_folder Toy.E Toy.cls (Toy.stored Toy.covalent)
            (fresh Toy.E Toy.world))) = true /\
  (exists made,
      dirs (fst (_make_output_folder Toy.E Toy.cls (Toy.stored Toy.covalent)
                   (fresh Toy.E Toy.world)))
      = (dirs (fresh Toy.E Toy.world) ++ made)%list) /\
  files (fst (_make_output_folder Toy.E Toy.cls (Toy.stored Toy.covalent)
                (fresh Toy.E Toy.world)))
  = files (fresh Toy.E Toy.world) /\
  _make_output_folder Toy.E Toy.cls (Toy.stored Toy.covalent)
    (fst (_make_output_folder Toy.E Toy.cls (Toy.stored Toy.covalent)
            (fresh Toy.E Toy.world)))
  = (set_journal
       (journal (fst (_make_output_folder Toy.E Toy.cls (Toy.stored Toy.covalent)
                        (fresh Toy.E Toy.world))) ++
        [(WARNING, long_name (Toy.stored Toy.covalent) ++ " - Folder " ++
                   Py.path_join [work_path Toy.cls; long_name (Toy.stored Toy.covalent)]
                   ++ " exists.")])
       (fst (_make_output_folder Toy.E Toy.cls (Toy.stored Toy.covalent)
               (fresh Toy.E Toy.world))),
     Ok tt).
Proof.
  apply (output_folder_is_made_once Toy.E Toy.cls (Toy.stored Toy.covalent)
           (fresh Toy.E Toy.world)).
  vm_compute. reflexivity.
Defined.

(** Witness of X6: the covalent job, whose residue type is in the
    catalogue, at the chloroacetamide. *)
Lemma checked_residue_type_is_found_witness :
  exists (cov_def : CovalentDefinition) (others : list CovalentDefinition),
    residue_definitions Toy.cls (covalent_resn (Toy.stored Toy.covalent)) = cov_def :: others /\
    In cov_def (covalent_definitions Toy.cls) /\
    cov_residue cov_def = covalent_resn (Toy.stored Toy.covalent) /\
    snd (apply_warhead Toy.E Toy.cls (Toy.stored Toy.covalent) Toy.chloroacetamide
           (Toy.parameterised Toy.covalent)) =
    match
      snd (Constraints_init Toy.E (war_covalent Toy.chloroacetamide, cov_smiles cov_def)
             (war_covalent_atomnames Toy.chloroacetamide ++ cov_atomnames cov_def)
             (ligand_resi (Toy.stored Toy.covalent)) (covalent_resi (Toy.stored Toy.covalent)))
    with
    | Ok made =>
        Ok match war_constraint Toy.chloroacetamide with
           | Some text => set_custom_constraint text made
           | None => made
           end
    | Raise e => Raise e
    end.
Proof.
  eapply (checked_residue_type_is_found Toy.E Toy.cls (Toy.stored Toy.covalent)
            Toy.chloroacetamide (Toy.parameterised Toy.covalent) (fresh Toy.E Toy.world)).
  - reflexivity.
  - simpl. discriminate.
  - reflexivity.
  - reflexivity.
Defined.

(** Witness of X7: a covalent job that declares no residue type passes
    the checks and stops at the index [0]. *)
Lemma empty_residue_type_is_not_checked_witness :
  exists p' : Params,
    snd (_assert_inputs Lab.E Toy.cls (Lab.stored Lab.no_residue_type)
           (fresh Lab.E Toy.world)) = Ok tt /\
    snd (apply_warhead Lab.E Toy.cls (Lab.stored Lab.no_residue_type) Toy.chloroacetamide
           (Lab.parameterised Lab.no_residue_type))
    = Raise (IndexError "list index out of range") /\
    params (fst (apply_warhead Lab.E Toy.cls (Lab.stored Lab.no_residue_type)
                   Toy.chloroacetamide (Lab.parameterised Lab.no_residue_type)))
    = Some p'.
Proof.
  eexists.
  eapply (empty_residue_type_is_not_checked Lab.E Toy.cls (Lab.stored Lab.no_residue_type)
            Toy.chloroacetamide (Lab.parameterised Lab.no_residue_type)
            (fresh Lab.E Toy.world)).
  - reflexivity.
  - reflexivity.
  - reflexivity.
  - simpl. discriminate.
  - simpl. discriminate.
  - reflexivity.
  - reflexivity.
Defined.

(** Witness of X9: the non-covalent job without extra constraint text
    gets [None]. *)
Lemma _get_constraint_is_None_iff_witness :
  snd (_get_constraint Toy.E Toy.cls (Toy.stored Toy.noncovalent) None
         (Toy.parameterised Toy.noncovalent))
  = Ok None /\
  ((@None Constraints) = None <-> false = false /\ Py.truthy_opt (@None string) = false).
Proof.
  split; [ reflexivity | ].
  apply (_get_constraint_is_None_iff Toy.E Toy.cls (Toy.stored Toy.noncovalent) None
           (Toy.parameterised Toy.noncovalent)
           (fst (_get_constraint Toy.E Toy.cls (Toy.stored Toy.noncovalent) None
                   (Toy.parameterised Toy.noncovalent)))
           false None).
  - reflexivity.
  - vm_compute. reflexivity.
Defined.

(** Witness of X11: residue 145 is in the chains A and B of the receptor;
    the selection takes the atoms named SG of both. *)
Lemma attachment_is_selected_without_chain_witness :
  exists (c : Constraints) (resi : string),
    constraint (Lab.constrained Lab.covalent_no_chain) = Some (Some c) /\
    resi = "145" /\
    snd (_get_attachment_from_pdbblock Lab.E (Lab.stored Lab.covalent_no_chain)
           (Lab.constrained Lab.covalent_no_chain)) =
    Ok (MolFromPDBBlock Lab.E
          (get_pdbstr Lab.E
             (filter
                (fun a : pdb_atom =>
                   (pa_resi a =? resi) && (pa_name a =? Py.strip (target_con_name c)))
                (read_pdbstr Lab.E (apo_pdbblock (Lab.stored Lab.covalent_no_chain)))))) /\
    filter (fun a : pdb_atom =>
              (pa_resi a =? resi) && (pa_name a =? Py.strip (target_con_name c)))
           (read_pdbstr Lab.E (apo_pdbblock (Lab.stored Lab.covalent_no_chain)))
    = [mkPdbAtom "SG" "CYS" "145" "A" ""; mkPdbAtom "SG" "CYS" "145" "B" ""].
Proof.
  do 2 eexists. split; [ reflexivity | ]. split; [ reflexivity | ].
  split; [ | reflexivity ].
  apply (attachment_is_selected_without_chain Lab.E (Lab.stored Lab.covalent_no_chain)
           (Lab.constrained Lab.covalent_no_chain)).
  - reflexivity.
  - reflexivity.
Defined.

(** Witness of X12: the receptor of [Lab] and the positioned molecule of
    the covalent job. *)
Lemma placed_atoms_are_receptor_then_ligand_witness :
  placed_atoms Lab.E Toy.cls (Lab.stored Lab.covalent_no_chain)
    (Toy.placement Lab.covalent_no_chain) "1" "B"
  = (filter (fun a => negb (removed Toy.cls a))
            (read_pdbstr Lab.E (apo_pdbblock (Lab.stored Lab.covalent_no_chain)))
     ++ map (relabel "1" "B")
          (filter (fun a => negb (removed Toy.cls a))
                  (read_pdbstr Lab.E
                     (MolToPDBBlock Lab.E
                        (positioned_mol (Toy.placement Lab.covalent_no_chain))))))%list.
Proof.
  apply (placed_atoms_are_receptor_then_ligand Lab.E Toy.cls
           (Lab.stored Lab.covalent_no_chain) (Toy.placement Lab.covalent_no_chain) "1" "B").
  - vm_compute. repeat constructor.
  - vm_compute. repeat constructor.
  - vm_compute. repeat constructor.
Defined.

(** Witness of X13: the locators [1] and [145] have no chain letter. *)
Lemma chains_default_to_A_and_B_witness :
  exists (p : Params) (name : string),
    params (set_fragmenstein (Some (Toy.placement Lab.covalent_no_chain))
              (Lab.constrained Lab.covalent_no_chain)) = Some p /\
    hd_error (CONNECT p) = Some name /\
    snd (_place_fragmenstein Lab.E Toy.cls (Lab.stored Lab.covalent_no_chain)
           (set_fragmenstein (Some (Toy.placement Lab.covalent_no_chain))
              (Lab.constrained Lab.covalent_no_chain))) =
    Ok (LINK Lab.E (Lab.stored Lab.covalent_no_chain) "A" "145" (pad_name Lab.E p name) "B" "1"
        ++ get_pdbstr Lab.E
             (placed_atoms Lab.E Toy.cls (Lab.stored Lab.covalent_no_chain)
                (Toy.placement Lab.covalent_no_chain) "1" "B")) /\
    String.length (chain_or "A" "") = 1%nat /\ String.length (chain_or "B" "") = 1%nat.
Proof.
  do 2 eexists. split; [ reflexivity | ]. split; [ reflexivity | ].
  apply (chains_default_to_A_and_B Lab.E Toy.cls (Lab.stored Lab.covalent_no_chain)
           (set_fragmenstein (Some (Toy.placement Lab.covalent_no_chain))
              (Lab.constrained Lab.covalent_no_chain))
           (Toy.placement Lab.covalent_no_chain) _ _ [] "1" "" "145" "").
  - reflexivity.
  - reflexivity.
  - reflexivity.
  - reflexivity.
  - reflexivity.
  - reflexivity.
Defined.

(** Witness of X14: the record of the covalent job. *)
Lemma LINK_fields_are_in_their_columns_witness :
  String.length (LINK Lab.E (Lab.stored Lab.covalent_no_chain) "A" "145" " CX " "B" "1")
  = 78%nat /\
  substring 12 4 (LINK Lab.E (Lab.stored Lab.covalent_no_chain) "A" "145" " CX " "B" "1")
  = " SG " /\
  substring 17 3 (LINK Lab.E (Lab.stored Lab.covalent_no_chain) "A" "145" " CX " "B" "1")
  = covalent_resn (Lab.stored Lab.covalent_no_chain) /\
  substring 21 1 (LINK Lab.E (Lab.stored Lab.covalent_no_chain) "A" "145" " CX " "B" "1")
  = "A" /\
  substring 23 3 (LINK Lab.E (Lab.stored Lab.covalent_no_chain) "A" "145" " CX " "B" "1")
  = Py.rjust 3 "145" /\
  substring 42 4 (LINK Lab.E (Lab.stored Lab.covalent_no_chain) "A" "145" " CX " "B" "1")
  = " CX " /\
  substring 47 3 (LINK Lab.E (Lab.stored Lab.covalent_no_chain) "A" "145" " CX " "B" "1")
  = ligand_resn (Lab.stored Lab.covalent_no_chain) /\
  substring 51 1 (LINK Lab.E (Lab.stored Lab.covalent_no_chain) "A" "145" " CX " "B" "1")
  = "B" /\
  substring 53 3 (LINK Lab.E (Lab.stored Lab.covalent_no_chain) "A" "145" " CX " "B" "1")
  = Py.rjust 3 "1".
Proof.
  apply (LINK_fields_are_in_their_columns Lab.E (Lab.stored Lab.covalent_no_chain)
           "A" "145" " CX " "B" "1").
  - reflexivity.
  - reflexivity.
  - reflexivity.
  - reflexivity.
  - reflexivity.
  - simpl. lia.
  - simpl. lia.
Defined.




(** Witness of X19: the score function of [Toy] returns the float 0. *)
Lemma float_score_stops_checkpoint_alpha_witness :
  exists (p : Params) (pose : Pose Toy.E),
    params (Toy.parameterised Toy.covalent) = Some p /\
    snd (params_to_pose Toy.E (job_file Toy.E Toy.cls (Toy.stored Toy.covalent) ".params")
           (NAME p)) = Ok pose /\
    exists s1 : state string,
      _checkpoint_alpha Toy.E Toy.cls (Toy.stored Toy.covalent)
        (Toy.parameterised Toy.covalent)
      = (s1, Raise (TypeError "write() argument must be str, not float")) /\
      files s1 =
      (files (Toy.parameterised Toy.covalent) ++
       hit_files Toy.E Toy.cls (Toy.stored Toy.covalent) 0 (hits (Toy.stored Toy.covalent)) ++
       [(job_file Toy.E Toy.cls (Toy.stored Toy.covalent) ".params_template.pdb",
         Text (MolToPDBBlock Toy.E (params_mol p)));
        (job_file Toy.E Toy.cls (Toy.stored Toy.covalent) ".params_template.mol",
         Text (MolToMolBlock Toy.E (params_mol p)));
        (job_file Toy.E Toy.cls (Toy.stored Toy.covalent) ".params_test.pdb",
         Text (Pose_dumps Toy.E pose));
        (job_file Toy.E Toy.cls (Toy.stored Toy.covalent) ".params_test.score",
         Text "")])%list.
Proof.
  do 2 eexists. split; [ reflexivity | ]. split; [ reflexivity | ].
  apply (float_score_stops_checkpoint_alpha Toy.E Toy.cls (Toy.stored Toy.covalent)
           (Toy.parameterised Toy.covalent) _ _ [] [] 0%Q).
  - reflexivity.
  - reflexivity.
  - reflexivity.
Defined.

(** Witness of X20: the covalent job with the collaborators of [Toy]. *)
Lemma float_score_keeps_every_job_from_egor_witness :
  exists s : state string,
    __init__ Toy.E Toy.cls Toy.covalent Toy.world
    = Constructed Toy.E (Toy.stored Toy.covalent) s /\
    terminal_state s = failed /\
    egor s = None /\
    minimised_pdbblock s = None.
Proof.
  destruct (float_score_keeps_every_job_from_egor Toy.E Toy.cls Toy.covalent Toy.world
              (Toy.stored Toy.covalent) (fun pose => I) eq_refl)
    as [s [[[Hinit Hfailed] | [err [Hesc Hinit]]] [Hegor Hmin]]].
  - exists s. split; [ exact Hinit | ]. split; [ exact Hfailed | ].
    split; [ exact Hegor | exact Hmin ].
  - exfalso. vm_compute in Hinit. discriminate Hinit.
Defined.

(** Witness of X21: the minimised covalent job with a ligand score that
    raises. *)
Lemma minimised_pose_is_saved_before_the_score_witness :
  exists s1 : state string,
    _checkpoint_charlie Lab.E_unscored Toy.cls (Lab.stored Lab.covalent_no_chain)
      (Lab.minimised_state Lab.covalent_no_chain)
    = (s1, Raise (mkExn "RuntimeError" "no ligand in pose")) /\
    files s1
    = (files (Lab.minimised_state Lab.covalent_no_chain)
       ++ [(job_file Lab.E_unscored Toy.cls (Lab.stored Lab.covalent_no_chain)
              ".holo_minimised.pdb",
            Text (Egor_pose_dumps Lab.E_unscored "pose minimised"))])%list.
Proof.
  apply (minimised_pose_is_saved_before_the_score Lab.E_unscored Toy.cls
           (Lab.stored Lab.covalent_no_chain) (Lab.minimised_state Lab.covalent_no_chain)
           "pose minimised" [] (mkExn "RuntimeError" "no ligand in pose")).
  - reflexivity.
  - reflexivity.
Defined.

